(** * agentscope: the RPC agent platform

    A shallow embedding of [src/agentscope/agents/rpc_agent.py] (the servicer
    [AgentPlatform], [check_port], the guarded optional imports) and of
    [ImportErrorReporter] from [src/agentscope/utils/tools.py].

    Handlers are state transformers on the platform record: every method
    takes the platform and returns what Python returns or raises, together
    with the platform it leaves behind.  The wall clock read by the expiring
    result pool is an explicit argument, counted in whole seconds. *)

From stdpp Require Import gmap strings list.
From Stdlib Require Import ZArith.

Local Open Scope string_scope.
Local Open Scope Z_scope.

(** ** Python outcomes *)

(** The exception classes that occur; the last two derive from
    [BaseException] only, so [except Exception] does not catch them. *)
Inductive ExcClass :=
| AttributeError | KeyError | TypeError | ValueError | ImportError
| OverflowError | RuntimeError | OtherException
| SystemExit | KeyboardInterrupt.

Record PyExc := mkExc { exc_class : ExcClass; exc_msg : string }.

(** [isinstance(e, Exception)] *)
Definition is_Exception (e : PyExc) : bool :=
  match exc_class e with
  | SystemExit | KeyboardInterrupt => false
  | _ => true
  end.

Inductive Result (A : Type) :=
| Ok (a : A)
| Raise (e : PyExc).
Arguments Ok {A} a.
Arguments Raise {A} e.

(** The line feed written [\n] in the source's string literals. *)
Definition nl : string := String (Ascii.ascii_of_nat 10) EmptyString.

(** ** Messages *)

(** Modelled from the spec: [Msg], which this module imports from
    [agentscope.message].  The record lists the fields of the spec's data
    model that the call sites here set or read; [role] defaults to
    ["assistant"]. *)
Record Msg := mkMsg {
  name : string;
  role : string;
  content : option string;
  url : option string;
  status : option string;      (* the [__status] tag *)
  task_id : option Z
}.

(** [Msg(name=n, content=None, task_id=t)] *)
Definition Msg_handshake (n : string) (t : Z) : Msg :=
  mkMsg n "assistant" None None None (Some t).

(** [Msg(name="ERROR", role="assistant", __status="ERROR", content=c)] *)
Definition Msg_error (c : string) : Msg :=
  mkMsg "ERROR" "assistant" (Some c) None (Some "ERROR") None.

(** Modelled from the spec: a [PlaceholderMessage], the locator of a
    result held by some server. *)
Record Placeholder := mkPlaceholder {
  ph_name : string;
  ph_host : string;
  ph_port : Z;
  ph_agent_id : string;
  ph_task_id : Z
}.

Inductive MsgObj :=
| Concrete (m : Msg)
| Deferred (ph : Placeholder).

(** What [deserialize] yields: one message or a sequence of them. *)
Inductive Decoded :=
| DOne (m : MsgObj)
| DMany (ms : list MsgObj).

(** The constructor blob sent with [_create_agent]. *)
Record AgentConfigs := mkConfigs {
  class_name : string;
  args : list string;
  kwargs : list (string * string)
}.

(** ** The expiring result pool *)

(** Modelled from the spec: the result pool.  [ExpiringDict] comes from
    the package [expiringdict], which is not among the sources: an
    [OrderedDict] of [key -> (value, set_time)] with a capacity, past which
    the oldest entry is evicted on insert, and a maximal age, from which on
    an entry reads as absent. *)
Module ExpiringDict.

Record t (V : Type) := mk {
  max_len : Z;
  max_age_seconds : Z;
  items : list (Z * (V * Z))
}.
Arguments mk {V} _ _ _.
Arguments max_len {V} _.
Arguments max_age_seconds {V} _.
Arguments items {V} _.

Section Ops.
Context {V : Type}.

Definition with_items (d : t V) (l : list (Z * (V * Z))) : t V :=
  mk (max_len d) (max_age_seconds d) l.

Definition empty (max_len max_age : Z) : t V := mk max_len max_age [].

(** [OrderedDict.__getitem__] *)
Fixpoint find (k : Z) (l : list (Z * (V * Z))) : option (V * Z) :=
  match l with
  | [] => None
  | (k', e) :: l' => if Z.eqb k k' then Some e else find k l'
  end.

(** [OrderedDict.__delitem__] *)
Fixpoint remove (k : Z) (l : list (Z * (V * Z))) : list (Z * (V * Z)) :=
  match l with
  | [] => []
  | (k', e) :: l' => if Z.eqb k k' then l' else (k', e) :: remove k l'
  end.

(** [OrderedDict.__setitem__]: an existing key keeps its place, a new
    one goes to the end. *)
Fixpoint store (k : Z) (e : V * Z) (l : list (Z * (V * Z)))
  : list (Z * (V * Z)) :=
  match l with
  | [] => [(k, e)]
  | (k', e') :: l' =>
      if Z.eqb k k' then (k, e) :: l' else (k', e') :: store k e l'
  end.

(** [__getitem__]: an entry as old as [max_age_seconds] is deleted and
    reported missing. *)
Definition getitem (d : t V) (now k : Z) : option V * t V :=
  match find k (items d) with
  | None => (None, d)
  | Some (v, set_time) =>
      if Z.ltb (now - set_time) (max_age_seconds d)
      then (Some v, d)
      else (None, with_items d (remove k (items d)))
  end.

(** [get(key)] with the default [None]: the [KeyError] of [__getitem__]
    becomes [None]. *)
Definition get (d : t V) (now k : Z) : option V * t V := getitem d now k.

(** [key in d] *)
Definition contains (d : t V) (now k : Z) : bool * t V :=
  match getitem d now k with
  | (Some _, d') => (true, d')
  | (None, d') => (false, d')
  end.

(** [d[key] = value]: at capacity the key itself, or else the oldest
    entry, makes room first. *)
Definition setitem (d : t V) (now k : Z) (v : V) : t V :=
  let d1 :=
    if Z.eqb (Z.of_nat (length (items d))) (max_len d) then
      match contains d now k with
      | (true, d') => with_items d' (remove k (items d'))
      | (false, d') => with_items d' (tail (items d'))
      end
    else d in
  with_items d1 (store k (v, now) (items d1)).

End Ops.
End ExpiringDict.

(** ** Agents *)

(** Modelled from the spec: an agent instance.  [AgentBase] is not among
    the sources; an instance is known here by the attributes the servicer
    reads or writes, and an opaque state. *)
Module AgentBase.

Record t (S : Type) := mk {
  name : string;
  agent_id : string;
  cls : string;                                     (* [__class__] *)
  _init_settings : list string * list (string * string);
  state : S
}.
Arguments mk {S} _ _ _ _ _.
Arguments name {S} _.
Arguments agent_id {S} _.
Arguments cls {S} _.
Arguments _init_settings {S} _.
Arguments state {S} _.

(** [agent._agent_id = agent_id] *)
Definition set_agent_id {S} (a : t S) (id : string) : t S :=
  mk (name a) id (cls a) (_init_settings a) (state a).

End AgentBase.

(** ** The wire envelope *)

Record RpcMsg := mkRpcMsg {
  target_func : string;
  agent_id : string;
  value : string
}.

(** [RpcMsg()] and [RpcMsg(value=v)] *)
Definition RpcMsg_empty : RpcMsg :=
  mkRpcMsg EmptyString EmptyString EmptyString.
Definition RpcMsg_value (v : string) : RpcMsg :=
  mkRpcMsg EmptyString EmptyString v.

(** [if request.value:] *)
Definition truthy (s : string) : bool := negb (String.eqb s EmptyString).

Inductive StatusCode := INVALID_ARGUMENT.

(** How a call into the servicer ends. *)
Inductive CallResult :=
| Reply (r : RpcMsg)                              (* returns an envelope *)
| Abort (code : StatusCode) (details : string)    (* [context.abort] *)
| Raised (e : PyExc)                              (* an uncaught exception *)
| ReturnedNone                                    (* returns no envelope *)
| Blocked.                                        (* still waiting *)

(** ** Collaborators *)

(** The codecs: [agentscope.message] for messages, [json] for the task
    reference of [_get], [dill] over base64 for the constructor blob. *)
Class Codec := {
  serialize : Msg -> string;
  deserialize : string -> Result Decoded;
  json_task_id : string -> Result Z;
  load_configs : string -> Result AgentConfigs
}.

(** What the servicer asks of Python and of the agent classes. *)
Class Runtime (S : Type) := {
  (* [AgentBase.get_agent_class]: is the class name registered? *)
  registered : string -> bool;
  (* the class called on [*args, **kwargs]; [entropy] feeds the random
     agent id the constructor draws *)
  instantiate : string -> Z -> list string -> list (string * string)
                -> Result (AgentBase.t S);
  (* [agent.reply(x)] and [agent.observe(x)], with the agent they leave *)
  agent_reply : AgentBase.t S -> option Decoded -> Result Msg * AgentBase.t S;
  agent_observe : AgentBase.t S -> Decoded -> Result unit * AgentBase.t S;
  (* [PlaceholderMessage.update_value]: fetch the value from its origin *)
  update_value : Placeholder -> Result Msg;
  (* [traceback.format_exc()] *)
  format_exc : PyExc -> string;
  (* what [with m:] raises for a message [m], which is no context
     manager: an [AttributeError] up to Python 3.10, a [TypeError] from
     Python 3.11 on *)
  with_message : PyExc;
  (* attributes inherited from [RpcAgentServicer] and [object], and the
     outcome of calling one on a request *)
  inherited_attr : string -> bool;
  call_inherited : string -> RpcMsg -> CallResult
}.

(** ** The platform *)

Inductive TaskState :=
| Pending                    (* a [threading.Condition] *)
| Done (m : Msg).

(** The positional arguments of a submitted [process_messages]. *)
Definition Task : Type := Z * string * option Decoded.

Inductive HostVal :=
| HostName (h : string)
| HostObject (r : RpcMsg).

Record AgentPlatform (S : Type) := mkPlatform {
  host : HostVal;
  port : option Z;
  result_pool : ExpiringDict.t TaskState;
  executor : list Task;          (* work submitted and not yet run *)
  task_id_counter : Z;
  agent_pool : gmap string (AgentBase.t S)
}.
Arguments mkPlatform {S} _ _ _ _ _ _.
Arguments host {S} _.
Arguments port {S} _.
Arguments result_pool {S} _.
Arguments executor {S} _.
Arguments task_id_counter {S} _.
Arguments agent_pool {S} _.

(** What a call reads from outside the platform: the clock, the entropy
    behind a fresh agent id, and for how many polls [_get] is watched. *)
Record Env := mkEnv { now : Z; entropy : Z; patience : nat }.

Section Platform.
Context {S : Type} `{!Codec} `{!Runtime S}.

Abbreviation Platform := (AgentPlatform S).

Definition set_result_pool (p : Platform) d : Platform :=
  mkPlatform (host p) (port p) d (executor p) (task_id_counter p)
             (agent_pool p).
Definition set_executor (p : Platform) q : Platform :=
  mkPlatform (host p) (port p) (result_pool p) q (task_id_counter p)
             (agent_pool p).
Definition set_task_id_counter (p : Platform) c : Platform :=
  mkPlatform (host p) (port p) (result_pool p) (executor p) c
             (agent_pool p).
Definition set_agent_pool (p : Platform) m : Platform :=
  mkPlatform (host p) (port p) (result_pool p) (executor p)
             (task_id_counter p) m.

(** [__init__]; work handed to an earlier executor stays scheduled. *)
Definition __init__ (scheduled : list Task) (host : HostVal)
    (port : option Z) (max_pool_size max_timeout_seconds : Z) : Platform :=
  mkPlatform host port
    (ExpiringDict.empty max_pool_size max_timeout_seconds)
    scheduled 0 ∅.

(** [AgentPlatform(host, port, max_pool_size, max_timeout_seconds)] *)
Definition AgentPlatform_new (host : string) (port : option Z)
    (max_pool_size max_timeout_seconds : Z) : Platform :=
  __init__ [] (HostName host) port max_pool_size max_timeout_seconds.

Definition get_task_id (p : Platform) : Z * Platform :=
  let c := task_id_counter p + 1 in
  (c, set_task_id_counter p c).

Definition agent_exists (p : Platform) (agent_id : string) : bool :=
  match agent_pool p !! agent_id with
  | Some _ => true
  | None => false
  end.

(** [AgentBase.get_agent_class(name)] called on the blob's arguments. *)
Definition construct (e : Env) (c : AgentConfigs) : Result (AgentBase.t S) :=
  if registered (class_name c)
  then instantiate (class_name c) (entropy e) (args c) (kwargs c)
  else Raise (mkExc ValueError
                ("Agent class [" +:+ class_name c +:+ "] not found.")).

Definition check_and_generate_agent (p : Platform) (e : Env)
    (agent_id : string) (agent_configs : option AgentConfigs)
    : Result unit * Platform :=
  match agent_pool p !! agent_id with
  | Some _ => (Ok tt, p)
  | None =>
      match agent_configs with
      | None =>
          (Raise (mkExc TypeError "'NoneType' object is not subscriptable"),
           p)
      | Some c =>
          match construct e c with
          | Raise x => (Raise x, p)
          | Ok agent_instance =>
              let agent_instance :=
                AgentBase.set_agent_id agent_instance agent_id in
              (Ok tt,
               set_agent_pool p (<[agent_id := agent_instance]> (agent_pool p)))
          end
      end
  end.

Definition check_and_delete_agent (p : Platform) (agent_id : string)
    : Platform :=
  match agent_pool p !! agent_id with
  | Some _ => set_agent_pool p (delete agent_id (agent_pool p))
  | None => p
  end.

(** *** The handlers *)

(** [deserialize(request.value) if request.value else None] *)
Definition decode_input (v : string) : Result (option Decoded) :=
  if truthy v
  then match deserialize v with
       | Ok d => Ok (Some d)
       | Raise x => Raise x
       end
  else Ok None.

Definition _reply (p : Platform) (e : Env) (request : RpcMsg)
    : CallResult * Platform :=
  match decode_input (value request) with
  | Raise x => (Raised x, p)
  | Ok msg =>
      let '(task_id, p) := get_task_id p in
      let p :=
        set_result_pool p
          (ExpiringDict.setitem (result_pool p) (now e) task_id Pending) in
      let p :=
        set_executor p (executor p ++ [(task_id, agent_id request, msg)]) in
      match agent_pool p !! agent_id request with
      | None => (Raised (mkExc KeyError (agent_id request)), p)
      | Some a =>
          (Reply (RpcMsg_value
                    (serialize (Msg_handshake (AgentBase.name a) task_id))),
           p)
      end
  end.

(** One turn of the [while True] loop of [_get]: read the pool, then
    either leave the loop with what was read or wait on the condition. *)
Definition _get_poll (p : Platform) (t : Z) (task_id : Z)
    : option (option Msg) * Platform :=
  match ExpiringDict.get (result_pool p) t task_id with
  | (Some Pending, d) => (None, set_result_pool p d)
  | (Some (Done m), d) => (Some (Some m), set_result_pool p d)
  | (None, d) => (Some None, set_result_pool p d)
  end.

(** The waiting loop, watched for [n] polls; [result.wait(timeout=1)]
    lets one second pass when nobody notifies. *)
Fixpoint _get_loop (n : nat) (p : Platform) (t : Z) (task_id : Z)
    : CallResult * Platform :=
  match n with
  | O => (Blocked, p)
  | Datatypes.S n' =>
      match _get_poll p t task_id with
      | (None, p') => _get_loop n' p' (t + 1) task_id
      | (Some (Some m), p') => (Reply (RpcMsg_value (serialize m)), p')
      | (Some None, p') =>
          (Raised (mkExc AttributeError
                     "'NoneType' object has no attribute 'serialize'"),
           p')
      end
  end.

Definition _get (p : Platform) (e : Env) (request : RpcMsg)
    : CallResult * Platform :=
  match json_task_id (value request) with
  | Raise x => (Raised x, p)
  | Ok task_id => _get_loop (patience e) p (now e) task_id
  end.

(** [msg.update_value()] on every placeholder of the sequence. *)
Fixpoint resolve_all (ms : list MsgObj) : Result (list MsgObj) :=
  match ms with
  | [] => Ok []
  | Concrete m :: ms' =>
      match resolve_all ms' with
      | Ok r => Ok (Concrete m :: r)
      | Raise x => Raise x
      end
  | Deferred ph :: ms' =>
      match update_value ph with
      | Raise x => Raise x
      | Ok m =>
          match resolve_all ms' with
          | Ok r => Ok (Concrete m :: r)
          | Raise x => Raise x
          end
      end
  end.

Definition _observe (p : Platform) (request : RpcMsg)
    : CallResult * Platform :=
  match deserialize (value request) with
  | Raise x => (Raised x, p)
  | Ok msgs =>
      let resolved :=
        match msgs with
        | DOne m => Ok (DOne m)   (* iterating a message yields its keys *)
        | DMany ms =>
            match resolve_all ms with
            | Ok r => Ok (DMany r)
            | Raise x => Raise x
            end
        end in
      match resolved with
      | Raise x => (Raised x, p)
      | Ok msgs =>
          match agent_pool p !! agent_id request with
          | None => (Raised (mkExc KeyError (agent_id request)), p)
          | Some a =>
              let '(r, a') := agent_observe a msgs in
              let p :=
                set_agent_pool p (<[agent_id request := a']> (agent_pool p)) in
              match r with
              | Ok _ => (Reply RpcMsg_empty, p)
              | Raise x => (Raised x, p)
              end
          end
      end
  end.

Definition _create_agent (p : Platform) (e : Env) (request : RpcMsg)
    : CallResult * Platform :=
  let agent_configs :=
    if truthy (value request)
    then match load_configs (value request) with
         | Ok c => Ok (Some c)
         | Raise x => Raise x
         end
    else Ok None in
  match agent_configs with
  | Raise x => (Raised x, p)
  | Ok agent_configs =>
      match check_and_generate_agent p e (agent_id request) agent_configs with
      | (Ok _, p) => (Reply RpcMsg_empty, p)
      | (Raise x, p) => (Raised x, p)
      end
  end.

Definition _clone_agent (p : Platform) (e : Env) (request : RpcMsg)
    : CallResult * Platform :=
  match agent_pool p !! agent_id request with
  | None =>
      (Raised (mkExc ValueError
                 ("Agent [" +:+ agent_id request +:+ "] not exists")), p)
  | Some ori_agent =>
      match instantiate (AgentBase.cls ori_agent) (entropy e)
              (fst (AgentBase._init_settings ori_agent))
              (snd (AgentBase._init_settings ori_agent)) with
      | Raise x => (Raised x, p)
      | Ok new_agent =>
          (Reply (RpcMsg_value (AgentBase.agent_id new_agent)),
           set_agent_pool p
             (<[AgentBase.agent_id new_agent := new_agent]> (agent_pool p)))
      end
  end.

Definition _delete_agent (p : Platform) (request : RpcMsg)
    : CallResult * Platform :=
  (Reply RpcMsg_empty, check_and_delete_agent p (agent_id request)).

(** *** The worker *)

(** [task_msg.update_value()] when the input is a placeholder. *)
Definition update_input (task_msg : option Decoded)
    : Result (option Decoded) :=
  match task_msg with
  | Some (DOne (Deferred ph)) =>
      match update_value ph with
      | Ok m => Ok (Some (DOne (Concrete m)))
      | Raise x => Raise x
      end
  | _ => Ok task_msg
  end.

(** The message stored when [reply] fails with [x]. *)
Definition error_result (agent_id : string) (x : PyExc) : Msg :=
  let error_msg := format_exc x in
  Msg_error ("Error in agent [" +:+ agent_id +:+ "]:" +:+ nl +:+ error_msg).

(** The closing [with cond: cond.notify_all()], where [cond] is what the
    worker read from the pool before the [try]: a condition is entered and
    its waiters are woken; a message that stands there instead cannot be
    entered. *)
Definition notify_all (cond : TaskState) : Result unit :=
  match cond with
  | Pending => Ok tt
  | Done _ => Raise with_message
  end.

(** [process_messages(task_id, agent_id, task_msg)], started at [t0];
    the reply is stored at [t1]. *)
Definition process_messages (p : Platform) (t0 t1 : Z) (task : Task)
    : Result unit * Platform :=
  let '(task_id, agent_id, task_msg) := task in
  match update_input task_msg with
  | Raise x => (Raise x, p)
  | Ok task_msg =>
      match ExpiringDict.getitem (result_pool p) t0 task_id with
      | (None, d) => (Raise (mkExc KeyError "task_id"), set_result_pool p d)
      | (Some cond, d) =>
          let p := set_result_pool p d in
          let error x p :=
            set_result_pool p
              (ExpiringDict.setitem (result_pool p) t1 task_id
                 (Done (error_result agent_id x))) in
          match agent_pool p !! agent_id with
          | None => (notify_all cond, error (mkExc KeyError agent_id) p)
          | Some a =>
              let '(r, a') := agent_reply a task_msg in
              let p := set_agent_pool p (<[agent_id := a']> (agent_pool p)) in
              match r with
              | Ok result =>
                  (notify_all cond,
                   set_result_pool p
                     (ExpiringDict.setitem (result_pool p) t1 task_id
                        (Done result)))
              | Raise x =>
                  if is_Exception x then (notify_all cond, error x p)
                  else (Raise x, p)
              end
          end
      end
  end.

(** *** Dispatch *)

Definition handlers : list string :=
  ["_create_agent"; "_delete_agent"; "_clone_agent"; "_reply"; "_get";
   "_observe"].

(** The attributes [__init__] assigns. *)
Definition data_attributes : list string :=
  ["host"; "port"; "result_pool"; "executor"; "task_id_lock";
   "agent_id_lock"; "task_id_counter"; "agent_pool"].

(** The other methods the class defines besides [__init__]. *)
Definition helper_methods : list string :=
  ["get_task_id"; "agent_exists"; "check_and_generate_agent";
   "check_and_delete_agent"; "call_func"; "process_messages"].

Definition mem (s : string) (l : list string) : bool :=
  existsb (String.eqb s) l.

(** [hasattr(self, name)] *)
Definition hasattr (name : string) : bool :=
  mem name handlers || String.eqb name "__init__"
  || mem name data_attributes || mem name helper_methods
  || inherited_attr name.

(** [getattr(self, name)(request)] for a name that [hasattr] accepts.
    The data attributes are not callable, and none of the helper methods
    can be called on one request alone: each raises [TypeError] before it
    does anything.  [__init__] takes the request for its [host]. *)
Definition getattr_call (p : Platform) (e : Env) (name : string)
    (request : RpcMsg) : CallResult * Platform :=
  if String.eqb name "_create_agent" then _create_agent p e request
  else if String.eqb name "_delete_agent" then _delete_agent p request
  else if String.eqb name "_clone_agent" then _clone_agent p e request
  else if String.eqb name "_reply" then _reply p e request
  else if String.eqb name "_get" then _get p e request
  else if String.eqb name "_observe" then _observe p request
  else if String.eqb name "__init__" then
    (ReturnedNone,
     __init__ (executor p) (HostObject request) None 8192 1800)
  else if mem name data_attributes || mem name helper_methods then
    (Raised (mkExc TypeError name), p)
  else (call_inherited name request, p).

Definition call_func (p : Platform) (e : Env) (request : RpcMsg)
    : CallResult * Platform :=
  if hasattr (target_func request) then
    if negb (mem (target_func request) ["_create_agent"; "_get"])
       && negb (agent_exists p (agent_id request))
    then (Abort INVALID_ARGUMENT
            ("Agent [" +:+ agent_id request +:+ "] not exists."), p)
    else getattr_call p e (target_func request) request
  else
    (Abort INVALID_ARGUMENT
       ("Unsupported method " +:+ target_func request), p).

(** *** Histories of one server *)

(** The server handles a call, or a worker thread runs the [i]-th piece
    of submitted work from [t0] to [t1]. *)
Inductive Event :=
| Call (e : Env) (request : RpcMsg)
| Work (i : nat) (t0 t1 : Z).

Inductive Observed :=
| Called (request : RpcMsg) (r : CallResult)
| Worked (r : Result unit)
| Idle.

Definition step (p : Platform) (ev : Event) : Observed * Platform :=
  match ev with
  | Call e request =>
      let '(r, p') := call_func p e request in (Called request r, p')
  | Work i t0 t1 =>
      match executor p !! i with
      | None => (Idle, p)
      | Some task =>
          let '(r, p') :=
            process_messages (set_executor p (delete i (executor p)))
                             t0 t1 task in
          (Worked r, p')
      end
  end.

Fixpoint run (p : Platform) (evs : list Event)
    : list Observed * Platform :=
  match evs with
  | [] => ([], p)
  | ev :: evs' =>
      let '(o, p') := step p ev in
      let '(os, p'') := run p' evs' in
      (o :: os, p'')
  end.

(** An observation that is the answer to a [_reply] call. *)
Definition is_reply_answer (o : Observed) : bool :=
  match o with
  | Called request (Reply _) => String.eqb (target_func request) "_reply"
  | _ => false
  end.

(** The observed call was answered with the handshake for task [t]. *)
Definition carries (o : Observed) (t : Z) : Prop :=
  exists request n,
    o = Called request (Reply (RpcMsg_value (serialize (Msg_handshake n t)))).

(** The event is a call that names the constructor. *)
Definition targets_init (ev : Event) : bool :=
  match ev with
  | Call _ request => String.eqb (target_func request) "__init__"
  | Work _ _ _ => false
  end.

End Platform.

(** ** Port selection *)

(** The socket layer: the port the system assigns to a socket bound to
    port 0, and the error indicator of a connection attempt to a port of
    the loopback interface (0 when something accepts the connection). *)
Class Sockets := {
  bind_any : Z;
  loopback_connect : Z -> Z
}.

Section Ports.
Context `{!Sockets}.

(** [s.bind(("", 0)); return s.getsockname()[1]] *)
Definition find_available_port : Z := bind_any.

(** [s.connect_ex(("localhost", port))]; the socket module refuses a
    number that is not a port before it tries to connect. *)
Definition connect_ex (port : Z) : Result Z :=
  if (0 <=? port) && (port <=? 65535)
  then Ok (loopback_connect port)
  else Raise (mkExc OverflowError "connect_ex(): port must be 0-65535.").

Definition check_port (port : option Z) : Result Z :=
  match port with
  | None => Ok find_available_port
  | Some port =>
      match connect_ex port with
      | Raise x => Raise x
      | Ok r => if r =? 0 then Ok find_available_port else Ok port
      end
  end.

End Ports.

(** ** Missing optional packages *)

Module ImportErrorReporter.

Record t := mk {
  error : PyExc;
  extras_require : option string
}.

Definition _raise_import_error {A} (self : t) : Result A :=
  let err_msg := "ImportError occorred: [" +:+ exc_msg (error self) +:+ "]." in
  let err_msg :=
    match extras_require self with
    | Some extras =>
        err_msg +:+ " Please install [" +:+ extras +:+ "] version"
                +:+ " of agentscope."
    | None => err_msg
    end in
  Raise (mkExc ImportError err_msg).

Definition __call__ {A Args} (self : t) (_ : Args) : Result A :=
  _raise_import_error self.

Definition __getattr__ {A} (self : t) (name : string) : Result A :=
  _raise_import_error self.

Definition __getitem__ {A Key} (self : t) (__key : Key) : Result A :=
  _raise_import_error self.

(** What reading an attribute finds. *)
Inductive Attribute :=
| TheError (e : PyExc)
| TheExtras (x : option string)
| Method (name : string)
| Inherited (name : string).

Definition methods : list string :=
  ["__init__"; "__call__"; "__getattr__"; "__getitem__";
   "_raise_import_error"].

(** [self.name]: Python looks the name up on the instance, then on the
    class and on [object], and turns to [__getattr__] only when all of
    these miss.  [object_attr] tells the names a plain object has. *)
Definition getattribute (object_attr : string -> bool) (self : t)
    (name : string) : Result Attribute :=
  if String.eqb name "error" then Ok (TheError (error self))
  else if String.eqb name "extras_require"
  then Ok (TheExtras (extras_require self))
  else if existsb (String.eqb name) methods then Ok (Method name)
  else if object_attr name then Ok (Inherited name)
  else __getattr__ self name.

End ImportErrorReporter.

(** The names bound by the guarded import at the top of [rpc_agent.py]. *)
Inductive Binding :=
| Imported
| Reporter (r : ImportErrorReporter.t).

Record Transport := mkTransport {
  dill : Binding;
  grpc : Binding;
  ServicerContext : Binding;
  ExpiringDict_ : Binding
}.

(** The [try] block imports [dill], [grpc] and [expiringdict] in this
    order; each argument is the [ImportError] the package raises, if any. *)
Definition first_import_error (dill_error grpc_error expiringdict_error
    : option PyExc) : option PyExc :=
  match dill_error with
  | Some x => Some x
  | None =>
      match grpc_error with
      | Some x => Some x
      | None => expiringdict_error
      end
  end.

Definition import_transport (dill_error grpc_error expiringdict_error
    : option PyExc) : Transport :=
  match first_import_error dill_error grpc_error expiringdict_error with
  | None => mkTransport Imported Imported Imported Imported
  | Some import_error =>
      let r := ImportErrorReporter.mk import_error (Some "distribute") in
      mkTransport (Reporter r) (Reporter r) (Reporter r) (Reporter r)
  end.

(** ** A small server to run the definitions on

    Two agent classes: [Echo] answers with the content it is given and
    counts its replies, [Boom] always fails.  The codecs are toys: a
    message is written as its name and task id, any bytes read back as a
    user message, a task reference is a single digit, and a blob is the
    class name. *)
Module Demo.

Definition digit (t : Z) : string :=
  match t with
  | 0 => "0" | 1 => "1" | 2 => "2" | 3 => "3" | _ => "n"
  end.

Definition codec : Codec := {|
  serialize m :=
    name m +:+ "#" +:+ match task_id m with
                       | Some t => digit t
                       | None => "-"
                       end;
  deserialize s :=
    Ok (DOne (Concrete (mkMsg "user" "user" (Some s) None None None)));
  json_task_id s :=
    if String.eqb s "1" then Ok 1
    else if String.eqb s "2" then Ok 2
    else Raise (mkExc ValueError s);
  load_configs s := Ok (mkConfigs s [] [])
|}.

Definition said (x : option Decoded) : option string :=
  match x with
  | Some (DOne (Concrete m)) => content m
  | _ => None
  end.

Definition boom : PyExc := mkExc RuntimeError "boom".

Definition runtime : Runtime nat := {|
  registered c := String.eqb c "Echo" || String.eqb c "Boom";
  instantiate c entropy args kwargs :=
    Ok (AgentBase.mk c ("agent-" +:+ digit entropy) c (args, kwargs) 0%nat);
  agent_reply a x :=
    if String.eqb (AgentBase.cls a) "Boom" then (Raise boom, a)
    else (Ok (mkMsg (AgentBase.name a) "assistant" (said x) None None None),
          AgentBase.mk (AgentBase.name a) (AgentBase.agent_id a)
            (AgentBase.cls a) (AgentBase._init_settings a)
            (Datatypes.S (AgentBase.state a)));
  agent_observe a x := (Ok tt, a);
  update_value ph := Raise (mkExc OtherException "unreachable origin");
  format_exc x := "Traceback (most recent call last): " +:+ exc_msg x;
  with_message :=
    mkExc TypeError
      "'Msg' object does not support the context manager protocol";
  inherited_attr n := String.eqb n "__class__" || String.eqb n "__dict__";
  call_inherited n r := Raised (mkExc TypeError n)
|}.

Definition sockets : Sockets := {|
  bind_any := 49152;
  loopback_connect port := if port =? 12010 then 0 else 111
|}.

Definition env : Env := mkEnv 100 1 3.

Definition fresh : AgentPlatform nat :=
  @AgentPlatform_new nat "localhost" (Some 12010) 8192 1800.

Definition call := @call_func nat codec runtime.
Definition history := @run nat codec runtime.

Definition create (id cls : string) : RpcMsg :=
  mkRpcMsg "_create_agent" id cls.
Definition ask (id text : string) : RpcMsg := mkRpcMsg "_reply" id text.
Definition fetch (task : string) : RpcMsg :=
  mkRpcMsg "_get" EmptyString task.

(** The server after [_create_agent] for an [Echo] agent ["a"] and a
    [Boom] agent ["b"]. *)
Definition staffed : AgentPlatform nat :=
  snd (history fresh [Call env (create "a" "Echo");
                      Call env (create "b" "Boom")]).

Definition object_attr (n : string) : bool :=
  String.eqb n "__class__" || String.eqb n "__dict__"
  || String.eqb n "__doc__".

(** A server whose pool holds one result, and one whose results live for
    two seconds; each with the agents ["a"] and ["b"]. *)
Definition cramped : AgentPlatform nat :=
  snd (history (@AgentPlatform_new nat "localhost" (Some 12010) 1 1800)
         [Call env (create "a" "Echo"); Call env (create "b" "Boom")]).

Definition hasty : AgentPlatform nat :=
  snd (history (@AgentPlatform_new nat "localhost" (Some 12010) 8192 2)
         [Call env (create "a" "Echo"); Call env (create "b" "Boom")]).

End Demo.


(** ** The client proxy: cloning *)

(** An [RpcAgent] as far as [clone_instances] reads and builds it.
    [server_launcher] and [client] are kept as flags: whether the proxy
    owns a launcher, and whether it holds a client. *)
Module RpcAgent.

Record t := mk {
  name : string;
  host : string;
  port : option Z;
  agent_id : string;
  connect_existing : bool;
  server_launcher : bool;
  client : bool
}.

(** [RpcAgent(name=n, host=h, port=p, agent_id=id, connect_existing=True)].
    With a port the proxy gets a client and, as the agent exists already,
    makes no [_create_agent] call; without one it is bound to ["localhost"]
    and gets a launcher that is not started yet. *)
Definition existing (n h : string) (p : option Z) (id : string) : t :=
  match p with
  | Some _ => mk n h p id true false true
  | None => mk n "localhost" None id true true false
  end.

End RpcAgent.

Section Client.
Context {S : Type} `{!Codec} `{!Runtime S}.

(** Modelled from the spec: [RpcAgentClient.call_func], which is not among
    the sources.  It sends the envelope [{target_func, agent_id, value}] to
    the server and returns the value of the answer; a call that the server
    fails raises on the client. *)
Definition client_call_func (p : AgentPlatform S) (e : Env)
    (id func_name payload : string) : Result string * AgentPlatform S :=
  match call_func p e (mkRpcMsg func_name id payload) with
  | (Reply r, p') => (Ok (value r), p')
  | (Abort _ details, p') => (Raise (mkExc OtherException details), p')
  | (Raised x, p') => (Raise (mkExc OtherException (exc_msg x)), p')
  | (ReturnedNone, p') =>
      (Raise (mkExc OtherException "Failed to serialize response!"), p')
  | (Blocked, p') => (Raise (mkExc OtherException "Deadline Exceeded"), p')
  end.

(** The [for _ in range(generated_instance_number)] loop of
    [clone_instances]; [i] counts the calls made so far and [envs i] is
    what the server reads from outside during call [i]. *)
Fixpoint clone_loop (k i : nat) (self : RpcAgent.t) (p : AgentPlatform S)
    (envs : nat -> Env) (generated_instances : list RpcAgent.t)
    : Result (list RpcAgent.t) * AgentPlatform S :=
  match k with
  | O => (Ok generated_instances, p)
  | Datatypes.S k' =>
      match client_call_func p (envs i) (RpcAgent.agent_id self)
              "_clone_agent" EmptyString with
      | (Raise x, p') => (Raise x, p')
      | (Ok new_agent_id, p') =>
          clone_loop k' (Datatypes.S i) self p' envs
            (generated_instances
               ++ [RpcAgent.existing (RpcAgent.name self) (RpcAgent.host self)
                     (RpcAgent.port self) new_agent_id])
      end
  end.

(** [clone_instances(num_instances, including_self)] of a proxy whose
    client is connected to the server [p]. *)
Definition clone_instances (self : RpcAgent.t) (p : AgentPlatform S)
    (envs : nat -> Env) (num_instances : Z) (including_self : bool)
    : Result (list RpcAgent.t) * AgentPlatform S :=
  let generated_instance_number :=
    if including_self then num_instances - 1 else num_instances in
  let generated_instances := if including_self then [self] else [] in
  clone_loop (Z.to_nat generated_instance_number) 0 self p envs
             generated_instances.

(** [n] [_clone_agent] calls for the agent [id], sent to the server one
    after the other, call number [i] first: the answer to each, with the
    server it leaves behind. *)
Fixpoint clone_calls (n i : nat) (id : string) (p : AgentPlatform S)
    (envs : nat -> Env) : list (CallResult * AgentPlatform S) :=
  match n with
  | O => []
  | Datatypes.S n' =>
      let answer :=
        call_func p (envs i) (mkRpcMsg "_clone_agent" id EmptyString) in
      answer :: clone_calls n' (Datatypes.S i) id (snd answer) envs
  end.

End Client.

(** ** Task ids in use *)

(** Every key of the result pool and every submitted piece of work bears a
    task id between 1 and the counter. *)
Definition ids_handed_out {S : Type} (p : AgentPlatform S) : Prop :=
  0 <= task_id_counter p
  /\ (forall k, In k (map fst (ExpiringDict.items (result_pool p))) ->
                1 <= k <= task_id_counter p)
  /\ (forall task, In task (executor p) ->
                   1 <= fst (fst task) <= task_id_counter p).

(** ** Events that concern one agent *)

(** The event is a call that can take the agent [id] out of the registry:
    a [_delete_agent] for it, or a call that names the constructor. *)
Definition removes (id : string) (ev : Event) : bool :=
  match ev with
  | Call _ request =>
      String.eqb (target_func request) "__init__"
      || (String.eqb (target_func request) "_delete_agent"
          && String.eqb (agent_id request) id)
  | Work _ _ _ => false
  end.

(** How many of the observations are answers to a [_reply]. *)
Definition replies_answered (os : list Observed) : Z :=
  Z.of_nat (length (List.filter is_reply_answer os)).

(** ** The launcher: shutting down *)

(** The child process as [shutdown] meets it: whether it is alive, whether
    the stop event has been set, and whether a child that sees the stop
    event ends (the server loop of [setup_rpc_agent_server_async] polls the
    event and then stops the server). *)
Record Child := mkChild {
  alive : bool;
  stop_is_set : bool;
  heeds_stop : bool
}.

Inductive Action := SetStop | Join | Kill.

(** [Process.join()] without a timeout returns once the child has ended;
    it does not return while the child runs on. *)
Definition join (c : Child) : option Child :=
  if alive c
  then if stop_is_set c && heeds_stop c
       then Some (mkChild false (stop_is_set c) (heeds_stop c))
       else None
  else Some c.

Module RpcAgentServerLauncher.

Record t := mk {
  host : string;
  port : Z;
  server : bool;        (* [self.server is not None] *)
  stop_event : bool     (* [self.stop_event is not None] *)
}.

Inductive Outcome :=
| Returned (l : t) (c : Child) (acts : list Action)
| Waiting (l : t) (c : Child) (acts : list Action).

Definition shutdown (self : t) (c : Child) : Outcome :=
  if server self then
    let '(self, c, acts) :=
      if stop_event self
      then (mk (host self) (port self) (server self) false,
            mkChild (alive c) true (heeds_stop c), [SetStop])
      else (self, c, []) in
    match join c with
    | None => Waiting self c (acts ++ [Join])%list
    | Some c =>
        let '(c, acts) :=
          if alive c
          then (mkChild false (stop_is_set c) (heeds_stop c),
                (acts ++ [Join; Kill])%list)
          else (c, (acts ++ [Join])%list) in
        Returned (mk (host self) (port self) false (stop_event self)) c acts
    end
  else Returned self c [].

End RpcAgentServerLauncher.

(** ** Utilities *)

Module Tools.

(** *** Text *)

(** [sep.join(l)] *)
Fixpoint join (sep : string) (l : list string) : string :=
  match l with
  | [] => EmptyString
  | [x] => x
  | x :: l' => x +:+ sep +:+ join sep l'
  end.

Definition _join_str_with_comma_and (elements : list string) : string :=
  match length elements with
  | 0%nat => EmptyString
  | 1%nat => nth 0 elements EmptyString
  | 2%nat => join " and " elements
  | _ =>
      join ", " (removelast elements)
        +:+ ", and " +:+ List.last elements EmptyString
  end.

(** [s.lower()] on ASCII text. *)
Definition lower_char (c : Ascii.ascii) : Ascii.ascii :=
  let n := Ascii.nat_of_ascii c in
  if ((65 <=? n) && (n <=? 90))%nat then Ascii.ascii_of_nat (n + 32) else c.

Fixpoint lower (s : string) : string :=
  match s with
  | EmptyString => EmptyString
  | String c s' => String (lower_char c) (lower s')
  end.

(** [s.split(sep)] for a separator of one character. *)
Fixpoint split (sep : Ascii.ascii) (s : string) : list string :=
  match s with
  | EmptyString => [EmptyString]
  | String c s' =>
      if Ascii.eqb c sep then EmptyString :: split sep s'
      else match split sep s' with
           | seg :: segs => String c seg :: segs
           | [] => [String c EmptyString]
           end
  end.

Definition image_extensions : list string :=
  ["bmp"; "dib"; "icns"; "ico"; "jfif"; "jpe"; "jpeg"; "jpg"; "j2c"; "j2k";
   "jp2"; "jpc"; "jpf"; "jpx"; "apng"; "png"; "bw"; "rgb"; "rgba"; "sgi";
   "tif"; "tiff"; "webp"].

Definition audio_extensions : list string :=
  ["amr"; "wav"; "3gp"; "3gpp"; "aac"; "mp3"; "flac"; "ogg"].

Definition video_extensions : list string :=
  ["mp4"; "webm"; "mkv"; "flv"; "avi"; "mov"; "wmv"; "rmvb"].

(** The full stop. *)
Definition dot : Ascii.ascii := Ascii.ascii_of_nat 46.

Definition _guess_type_by_extension (url : string) : string :=
  let extension := lower (List.last (split dot url) EmptyString) in
  if existsb (String.eqb extension) image_extensions then "image"
  else if existsb (String.eqb extension) audio_extensions then "audio"
  else if existsb (String.eqb extension) video_extensions then "video"
  else "file".

(** *** Random codes *)

Definition ascii_uppercase : string := "ABCDEFGHIJKLMNOPQRSTUVWXYZ".
Definition ascii_lowercase : string := "abcdefghijklmnopqrstuvwxyz".
Definition digits : string := "0123456789".

(** [secrets.choice(characters)], where [r] is what the random source
    yields for this draw. *)
Definition choice (characters : string) (r : nat) : Result Ascii.ascii :=
  match String.get (r mod String.length characters) characters with
  | Some c => Ok c
  | None =>
      Raise (mkExc OtherException
               "IndexError: Cannot choose from an empty sequence")
  end.

(** [k] draws, starting with draw number [i]. *)
Fixpoint draws (characters : string) (rand : nat -> nat) (i k : nat)
    : Result string :=
  match k with
  | O => Ok EmptyString
  | Datatypes.S k' =>
      match choice characters (rand i) with
      | Raise x => Raise x
      | Ok c =>
          match draws characters rand (Datatypes.S i) k' with
          | Ok s => Ok (String c s)
          | Raise x => Raise x
          end
      end
  end.

(** The [characters] that the flags select. *)
Definition characters_of (uppercase lowercase digits_ : bool) : string :=
  let characters := EmptyString in
  let characters :=
    if uppercase then characters +:+ ascii_uppercase else characters in
  let characters :=
    if lowercase then characters +:+ ascii_lowercase else characters in
  let characters := if digits_ then characters +:+ digits else characters in
  characters.

Definition _generate_random_code (rand : nat -> nat) (length : Z)
    (uppercase lowercase digits_ : bool) : Result string :=
  draws (characters_of uppercase lowercase digits_) rand 0 (Z.to_nat length).

(** *** Downloading *)

(** An answer to [requests.get(url, stream=True)]: its status and the
    chunks its content comes in.  Requests that raise instead of being
    answered are left out. *)
Record Response := mkResponse {
  status_code : Z;
  iter_content : list string
}.

Record Download := mkDownload {
  downloaded : bool;                  (* the value returned *)
  written : option (list string);     (* the chunks written to the file *)
  warnings : list (Z * nat)           (* status code and retry number *)
}.

(** The [for n_retry in range(1, max_retries + 1)] loop; [get i] is the
    answer to request number [i], counted from 0. *)
Fixpoint download_loop (get : nat -> Response) (i k : nat)
    (warned : list (Z * nat)) : Download :=
  match k with
  | O => mkDownload false None warned
  | Datatypes.S k' =>
      let response := get i in
      if status_code response =? 200
      then mkDownload true (Some (iter_content response)) warned
      else download_loop get (Datatypes.S i) k'
             (warned ++ [(status_code response, Datatypes.S i)])%list
  end.

Definition _download_file (get : nat -> Response) (max_retries : Z)
    : Download :=
  download_loop get 0 (Z.to_nat max_retries) [].

(** *** Messages as dictionaries *)

(** The Python values a message dictionary holds.  Of an object of any
    other type two things are kept: how it prints, and its truth value,
    which its class decides through [__bool__] or [__len__] (an empty
    [bytes] or set is false, an instance of a plain class is true). *)
#[warnings="-register-all"]
Inductive PyVal :=
| PNone
| PBool (b : bool)
| PInt (z : Z)
| PFloat (repr : string)
| PStr (s : string)
| PList (items : list PyVal)
| PTuple (items : list PyVal)
| PDict (entries : list (string * PyVal))
| PObj (repr : string) (truthy : bool).

(** Printing, which Python and [json] do: [str(x)], [json.dumps(x,
    ensure_ascii=False)], which fails on what it cannot serialize, and
    [str(d)] of a dictionary. *)
Class PyText := {
  py_str : PyVal -> string;
  json_dumps : PyVal -> Result string;
  dict_str : gmap string PyVal -> string
}.

(** [len(l) != 0] *)
Definition nonempty {A} (l : list A) : bool :=
  match l with
  | [] => false
  | _ :: _ => true
  end.

(** [bool(x)] *)
Definition truth (v : PyVal) : bool :=
  match v with
  | PNone => false
  | PBool b => b
  | PInt z => negb (z =? 0)
  | PFloat r => negb (String.eqb r "0.0" || String.eqb r "-0.0")
  | PStr s => negb (String.eqb s EmptyString)
  | PList l | PTuple l => nonempty l
  | PDict d => nonempty d
  | PObj _ b => b
  end.

Section Dictionaries.
Context `{!PyText}.

(** A value inside an f-string. *)
Definition format (v : PyVal) : string :=
  match v with
  | PStr s => s
  | _ => py_str v
  end.

Definition _convert_to_str (content : PyVal) : Result string :=
  match content with
  | PStr s => Ok s
  | PDict _ | PList _ | PInt _ | PFloat _ | PBool _ | PTuple _ =>
      json_dumps content
  | _ => Ok (py_str content)
  end.

(** The clean dictionary, and the warnings logged on the way. *)
Definition to_openai_dict (item : gmap string PyVal)
    : Result (gmap string PyVal) * list string :=
  let clean_dict : gmap string PyVal := ∅ in
  let clean_dict :=
    match item !! "name" with
    | Some v => <["name" := v]> clean_dict
    | None => clean_dict
    end in
  let clean_dict :=
    match item !! "role" with
    | Some v => <["role" := v]> clean_dict
    | None => <["role" := PStr "assistant"]> clean_dict
    end in
  match item !! "content" with
  | Some c =>
      match _convert_to_str c with
      | Ok s => (Ok (<["content" := PStr s]> clean_dict), [])
      | Raise x => (Raise x, [])
      end
  | None =>
      (Ok clean_dict,
       ["Message " +:+ dict_str item
          +:+ " doesn't have `content` field for OpenAI API."])
  end.

(** [item.get(key, None)] *)
Definition dict_get (item : gmap string PyVal) (key : string) : PyVal :=
  match item !! key with
  | Some v => v
  | None => PNone
  end.

(** [item[key]] *)
Definition dict_getitem (item : gmap string PyVal) (key : string)
    : Result PyVal :=
  match item !! key with
  | Some v => Ok v
  | None => Raise (mkExc KeyError key)
  end.

Definition is_None (v : PyVal) : bool :=
  match v with
  | PNone => true
  | _ => false
  end.

Definition to_dialog_str (item : gmap string PyVal) : PyVal :=
  let speaker :=
    if truth (dict_get item "name") then dict_get item "name"
    else dict_get item "role" in
  let content := dict_get item "content" in
  if is_None content then PStr (dict_str item)
  else if is_None speaker then content
  else PStr (format speaker +:+ ": " +:+ format content).

(** [unit["role"] == "system"] *)
Definition is_system (role : PyVal) : bool :=
  match role with
  | PStr s => String.eqb s "system"
  | _ => false
  end.

(** The [for i, unit in enumerate(input_msgs)] loop of [reform_dialogue],
    from index [i] on. *)
Fixpoint reform_loop (i : nat) (input_msgs : list (gmap string PyVal))
    (messages : list (gmap string PyVal)) (dialogue : list string)
    : Result (list (gmap string PyVal) * list string) :=
  match input_msgs with
  | [] => Ok (messages, dialogue)
  | unit :: rest =>
      let system_prompt :=
        if (i =? 0)%nat
        then match dict_getitem unit "role" with
             | Ok role => Ok (is_system role)
             | Raise x => Raise x
             end
        else Ok false in
      match system_prompt with
      | Raise x => Raise x
      | Ok true =>
          match dict_getitem unit "role" with
          | Raise x => Raise x
          | Ok role =>
              match dict_getitem unit "content" with
              | Raise x => Raise x
              | Ok content =>
                  match _convert_to_str content with
                  | Raise x => Raise x
                  | Ok s =>
                      reform_loop (Datatypes.S i) rest
                        (messages
                           ++ [<["content" := PStr s]>
                                 (<["role" := role]> ∅)])%list
                        dialogue
                  end
              end
          end
      | Ok false =>
          match dict_getitem unit "name" with
          | Raise x => Raise x
          | Ok speaker =>
              match dict_getitem unit "content" with
              | Raise x => Raise x
              | Ok content =>
                  match _convert_to_str content with
                  | Raise x => Raise x
                  | Ok s =>
                      reform_loop (Datatypes.S i) rest messages
                        (dialogue ++ [format speaker +:+ ": " +:+ s])%list
                  end
              end
          end
      end
  end.

Definition reform_dialogue (input_msgs : list (gmap string PyVal))
    : Result (list (gmap string PyVal)) :=
  match reform_loop 0 input_msgs [] [] with
  | Raise x => Raise x
  | Ok (messages, dialogue) =>
      let dialogue_history := join nl dialogue in
      Ok (messages
            ++ [<["content" :=
                    PStr ("## Dialogue History" +:+ nl +:+ dialogue_history)]>
                  (<["role" := PStr "user"]> ∅)])%list
  end.

(** The line a message contributes to the dialogue history. *)
Definition dialogue_line (unit : gmap string PyVal) : Result string :=
  match dict_getitem unit "name" with
  | Raise x => Raise x
  | Ok speaker =>
      match dict_getitem unit "content" with
      | Raise x => Raise x
      | Ok content =>
          match _convert_to_str content with
          | Raise x => Raise x
          | Ok s => Ok (format speaker +:+ ": " +:+ s)
          end
      end
  end.

(** The lines of a run of messages, up to the first that fails. *)
Fixpoint dialogue_lines (units : list (gmap string PyVal))
    : Result (list string) :=
  match units with
  | [] => Ok []
  | unit :: rest =>
      match dialogue_line unit with
      | Raise x => Raise x
      | Ok line =>
          match dialogue_lines rest with
          | Raise x => Raise x
          | Ok lines => Ok (line :: lines)
          end
      end
  end.

End Dictionaries.

End Tools.

(** ** A second server to run the definitions on

    Like the demo server, but an agent class refuses to be built without
    entropy, the bytes ["many"] decode to a sequence of a message and a
    placeholder, the bytes ["torn"] do not decode at all, and a
    placeholder whose origin listens on port 1 can be resolved. *)
Module Lab.

Definition remote : Placeholder := mkPlaceholder "Echo" "localhost" 1 "a" 7.
Definition lost : Placeholder := mkPlaceholder "Echo" "localhost" 2 "a" 7.
Definition note : Msg := mkMsg "user" "user" (Some "note") None None None.
Definition fetched : Msg :=
  mkMsg "Echo" "assistant" (Some "fetched") None None None.

Definition codec : Codec := {|
  serialize := @serialize Demo.codec;
  deserialize s :=
    if String.eqb s "many" then Ok (DMany [Concrete note; Deferred remote])
    else if String.eqb s "lost" then Ok (DMany [Deferred lost])
    else if String.eqb s "torn"
    then Raise (mkExc ValueError "Expecting value: line 1 column 1 (char 0)")
    else @deserialize Demo.codec s;
  json_task_id := @json_task_id Demo.codec;
  load_configs := @load_configs Demo.codec
|}.

Definition runtime : Runtime nat := {|
  registered := @registered nat Demo.runtime;
  instantiate c entropy args kwargs :=
    if entropy =? 0 then Raise (mkExc ValueError "no entropy")
    else @instantiate nat Demo.runtime c entropy args kwargs;
  agent_reply := @agent_reply nat Demo.runtime;
  agent_observe a x :=
    (Ok tt,
     AgentBase.mk (AgentBase.name a) (AgentBase.agent_id a) (AgentBase.cls a)
       (AgentBase._init_settings a) (Datatypes.S (AgentBase.state a)));
  update_value ph :=
    if ph_port ph =? 1 then Ok fetched
    else Raise (mkExc OtherException "unreachable origin");
  format_exc := @format_exc nat Demo.runtime;
  with_message := @with_message nat Demo.runtime;
  inherited_attr := @inherited_attr nat Demo.runtime;
  call_inherited := @call_inherited nat Demo.runtime
|}.

Definition call := @call_func nat codec runtime.

Definition text : Tools.PyText := {|
  Tools.py_str v :=
    match v with
    | Tools.PNone => "None"
    | Tools.PObj r _ => r
    | _ => "?"
    end;
  Tools.json_dumps v :=
    match v with
    | Tools.PInt 1 => Ok "1"
    | Tools.PList [] => Ok "[]"
    | _ => Raise (mkExc TypeError "Object is not JSON serializable")
    end;
  Tools.dict_str d := "{...}"
|}.

Definition system_msg : gmap string Tools.PyVal :=
  <["role" := Tools.PStr "system"]>
    (<["content" := Tools.PStr "Be brief."]> ∅).

Definition said (who what : string) : gmap string Tools.PyVal :=
  <["name" := Tools.PStr who]> (<["content" := Tools.PStr what]>
    (<["role" := Tools.PStr "user"]> ∅)).

(** Answers 503, 503, 200, ... to the requests 0, 1, 2, ... *)
Definition flaky (i : nat) : Tools.Response :=
  if (i <? 2)%nat then Tools.mkResponse 503 []
  else Tools.mkResponse 200 ["chunk-1"; "chunk-2"].

End Lab.
(** * Properties *)

Example demo_staffed_a :
  AgentBase.name <$> (agent_pool Demo.staffed !! "a") = Some "Echo".
Proof. vm_compute. reflexivity. Qed.

Example demo_reply :
  fst (Demo.call Demo.staffed Demo.env (Demo.ask "a" "hi"))
  = Reply (RpcMsg_value "Echo#1").
Proof. vm_compute. reflexivity. Qed.

(** ** The result pool *)

Section PoolFacts.
Context {V : Type}.
Implicit Types (d : ExpiringDict.t V) (l : list (Z * (V * Z))).

Lemma find_store_eq k e l :
  ExpiringDict.find k (ExpiringDict.store k e l) = Some e.
Proof.
  induction l as [|[k' e'] l IH]; simpl.
  - by rewrite Z.eqb_refl.
  - destruct (Z.eqb_spec k k') as [->|Hne]; simpl.
    + by rewrite Z.eqb_refl.
    + destruct (Z.eqb_spec k k'); [done | exact IH].
Qed.

(** A stored value is in the pool, stamped with the time of the store. *)
Lemma find_setitem d t k v :
  ExpiringDict.find k (ExpiringDict.items (ExpiringDict.setitem d t k v))
  = Some (v, t).
Proof. unfold ExpiringDict.setitem. simpl. apply find_store_eq. Qed.


(** An entry younger than the maximal age is read back unchanged. *)
Lemma getitem_young d t k v t0 :
  ExpiringDict.find k (ExpiringDict.items d) = Some (v, t0) ->
  t - t0 < ExpiringDict.max_age_seconds d ->
  ExpiringDict.getitem d t k = (Some v, d).
Proof.
  intros Hf Hage. unfold ExpiringDict.getitem. rewrite Hf.
  destruct (Z.ltb_spec (t - t0) (ExpiringDict.max_age_seconds d));
    [done | lia].
Qed.

End PoolFacts.

(** ** Fetching results *)

Section GetFacts.
Context {S : Type} `{!Codec} `{!Runtime S}.
Implicit Types (p : AgentPlatform S) (e : Env) (request : RpcMsg).

Lemma hasattr_handler n : mem n handlers = true -> hasattr n = true.
Proof. unfold hasattr. by intros ->. Qed.

(** [_get] is dispatched whether or not the agent is known. *)
Lemma call_func_get p e request :
  target_func request = "_get" ->
  call_func p e request = _get p e request.
Proof.
  intros Ht. unfold call_func. rewrite Ht.
  rewrite hasattr_handler by reflexivity. reflexivity.
Qed.

(** A finished task is served as long as it is younger than the
    maximal age. *)
Lemma get_done p e request t m t0 :
  json_task_id (value request) = Ok t ->
  ExpiringDict.find t (ExpiringDict.items (result_pool p))
    = Some (Done m, t0) ->
  now e - t0 < ExpiringDict.max_age_seconds (result_pool p) ->
  patience e <> 0%nat ->
  _get p e request = (Reply (RpcMsg_value (serialize m)), p).
Proof.
  intros Hj Hf Hage Hn. unfold _get. rewrite Hj.
  destruct (patience e) as [|n]; [done|]. simpl.
  unfold _get_poll, ExpiringDict.get.
  rewrite (getitem_young _ _ _ _ _ Hf Hage). by destruct p.
Qed.

(** C1 (as the code behaves): [_get] for a task id that the pool does not
    hold at the time of the read, because it never did or because the
    entry has expired, ends with an uncaught [AttributeError]; the call
    fails instead of returning an ERROR message. *)
Theorem C1_get_absent_task_raises p e request t :
  target_func request = "_get" ->
  json_task_id (value request) = Ok t ->
  fst (ExpiringDict.get (result_pool p) (now e) t) = None ->
  patience e <> 0%nat ->
  fst (call_func p e request)
  = Raised (mkExc AttributeError
              "'NoneType' object has no attribute 'serialize'").
Proof.
  intros Ht Hj Hg Hn. rewrite call_func_get by done.
  unfold _get. rewrite Hj.
  destruct (patience e) as [|n]; [done|]. simpl.
  unfold _get_poll.
  destruct (ExpiringDict.get (result_pool p) (now e) t) as [[[|m]|] d];
    simpl in *; congruence.
Qed.

End GetFacts.

(** Evicted by capacity: the pool holds one entry, two tasks are
    submitted, and the first is asked for. *)
Example get_after_capacity_eviction :
  let os :=
    fst (Demo.history Demo.cramped
           [Call Demo.env (Demo.ask "a" "x"); Call Demo.env (Demo.ask "a" "y");
            Call Demo.env (Demo.fetch "1")]) in
  os !! 2%nat
  = Some (Called (Demo.fetch "1")
            (Raised (mkExc AttributeError
                       "'NoneType' object has no attribute 'serialize'"))).
Proof. vm_compute. reflexivity. Qed.

(** Evicted by age: results live for two seconds, the task is never run,
    and the caller waits; the third poll finds the entry gone. *)
Example get_after_expiry :
  let os :=
    fst (Demo.history Demo.hasty
           [Call Demo.env (Demo.ask "a" "x");
            Call (mkEnv 100 1 2) (Demo.fetch "1");
            Call (mkEnv 100 1 3) (Demo.fetch "1")]) in
  os !! 1%nat = Some (Called (Demo.fetch "1") Blocked)
  /\ os !! 2%nat
     = Some (Called (Demo.fetch "1")
               (Raised (mkExc AttributeError
                          "'NoneType' object has no attribute 'serialize'"))).
Proof. split; vm_compute; reflexivity. Qed.

(** C1 on the demo server: nothing was ever submitted, and task 1 is
    asked for. *)
Lemma C1_get_absent_task_raises_witness :
  fst (Demo.call Demo.fresh Demo.env (Demo.fetch "1"))
  = Raised (mkExc AttributeError
              "'NoneType' object has no attribute 'serialize'").
Proof.
  apply (@C1_get_absent_task_raises nat Demo.codec Demo.runtime
           Demo.fresh Demo.env (Demo.fetch "1") 1);
    [reflexivity | reflexivity | reflexivity | discriminate].
Defined.

(** ** The worker *)

Section WorkerFacts.
Context {S : Type} `{!Codec} `{!Runtime S}.
Implicit Types (p : AgentPlatform S) (e : Env) (request : RpcMsg).

(** A successful read leaves the pool as it was. *)
Lemma getitem_Some_pool {V} (d d' : ExpiringDict.t V) t k v :
  ExpiringDict.getitem d t k = (Some v, d') -> d' = d.
Proof.
  unfold ExpiringDict.getitem.
  destruct (ExpiringDict.find k (ExpiringDict.items d)) as [[v' t']|];
    [|congruence].
  destruct (_ <? _); congruence.
Qed.


(** When the entry read before the [try] is a stored message and no
    condition (work that was submitted before the pool was set up anew and
    runs after the task id has been handed out and finished again), the
    worker stores what it has, as for a pending entry, and then fails at
    the closing [with cond]. *)
Lemma process_messages_stale_entry_raises
    p t0 t1 task_id agent_id task_msg input m :
  update_input task_msg = Ok input ->
  fst (ExpiringDict.getitem (result_pool p) t0 task_id) = Some (Done m) ->
  (forall a, agent_pool p !! agent_id = Some a ->
             forall x, fst (agent_reply a input) = Raise x ->
                       is_Exception x = true) ->
  exists p' stored,
    process_messages p t0 t1 (task_id, agent_id, task_msg)
    = (Raise with_message, p')
    /\ ExpiringDict.find task_id (ExpiringDict.items (result_pool p'))
       = Some (Done stored, t1).
Proof.
  intros Hu Hg Hcaught. unfold process_messages. rewrite Hu.
  destruct (ExpiringDict.getitem (result_pool p) t0 task_id) as [o d] eqn:Hd.
  simpl in Hg. subst o. apply getitem_Some_pool in Hd as ->.
  cbn [agent_pool set_result_pool].
  destruct (agent_pool p !! agent_id) as [a|] eqn:Ha.
  - destruct (agent_reply a input) as [[result|x] a'] eqn:Hr.
    + do 2 eexists. split; [reflexivity|].
      cbn [result_pool set_result_pool set_agent_pool]. apply find_setitem.
    + rewrite (Hcaught a eq_refl x) by (by rewrite Hr).
      do 2 eexists. split; [reflexivity|].
      cbn [result_pool set_result_pool set_agent_pool]. apply find_setitem.
  - do 2 eexists. split; [reflexivity|].
    cbn [result_pool set_result_pool]. apply find_setitem.
Qed.

(** An exception outside [Exception] is not caught: it leaves the worker,
    and nothing is stored. *)
Lemma process_messages_base_exception_escapes
    p t0 t1 task_id agent_id task_msg input cond a x a' :
  update_input task_msg = Ok input ->
  fst (ExpiringDict.getitem (result_pool p) t0 task_id) = Some cond ->
  agent_pool p !! agent_id = Some a ->
  agent_reply a input = (Raise x, a') ->
  is_Exception x = false ->
  fst (process_messages p t0 t1 (task_id, agent_id, task_msg)) = Raise x.
Proof.
  intros Hu Hg Ha Hr Hx. unfold process_messages. rewrite Hu.
  destruct (ExpiringDict.getitem (result_pool p) t0 task_id) as [o d] eqn:Hd.
  simpl in Hg. subst o. apply getitem_Some_pool in Hd as ->.
  cbn [agent_pool set_result_pool]. by rewrite Ha, Hr, Hx.
Qed.

(** A task whose pending entry is gone when the worker starts is not run:
    the lookup before the [try] raises [KeyError]. *)
Lemma process_messages_evicted_task_raises
    p t0 t1 task_id agent_id task_msg input :
  update_input task_msg = Ok input ->
  fst (ExpiringDict.getitem (result_pool p) t0 task_id) = None ->
  fst (process_messages p t0 t1 (task_id, agent_id, task_msg))
  = Raise (mkExc KeyError "task_id").
Proof.
  intros Hu Hg. unfold process_messages. rewrite Hu.
  destruct (ExpiringDict.getitem (result_pool p) t0 task_id) as [o d].
  simpl in Hg. by subst o.
Qed.

End WorkerFacts.



(** A stale entry on the demo server: a task is submitted, a call that
    names [__init__] sets the pool up anew while the work stays scheduled,
    and the same task id is handed out again and finished; the older work
    then finds a message where its condition was, stores its reply, and
    fails at the closing [with cond]. *)
Example stale_work_fails_after_the_store :
  let os :=
    fst (Demo.history Demo.fresh
           [Call Demo.env (Demo.create "a" "Echo");
            Call Demo.env (Demo.ask "a" "x");
            Call Demo.env (mkRpcMsg "__init__" "a" EmptyString);
            Call Demo.env (Demo.create "a" "Echo");
            Call Demo.env (Demo.ask "a" "y");
            Work 1 101 102; Work 0 103 104]) in
  os !! 5%nat = Some (Worked (Ok tt))
  /\ os !! 6%nat = Some (Worked (Raise (@with_message nat Demo.runtime))).
Proof. split; vm_compute; reflexivity. Qed.

(** ** Dispatch *)

Section DispatchFacts.
Context {S : Type} `{!Codec} `{!Runtime S}.
Implicit Types (p : AgentPlatform S) (e : Env) (request : RpcMsg).

(** A name that is no attribute of the servicer is refused, and nothing
    changes. *)
Lemma call_func_unsupported p e request :
  hasattr (target_func request) = false ->
  call_func p e request
  = (Abort INVALID_ARGUMENT ("Unsupported method " +:+ target_func request),
     p).
Proof. intros Hh. unfold call_func. by rewrite Hh. Qed.

(** A name outside the six handlers that the class defines for other
    purposes passes the [hasattr] test: when the agent is not known the
    call is refused for the agent, not for the method. *)
Lemma call_func_other_attribute_unknown_agent p e request :
  mem (target_func request) handlers = false ->
  (target_func request = "__init__"
   \/ mem (target_func request) data_attributes = true
   \/ mem (target_func request) helper_methods = true) ->
  agent_exists p (agent_id request) = false ->
  call_func p e request
  = (Abort INVALID_ARGUMENT
       ("Agent [" +:+ agent_id request +:+ "] not exists."), p).
Proof.
  intros Hh Hattr Hex. unfold call_func.
  assert (hasattr (target_func request) = true) as ->.
  { unfold hasattr. rewrite Hh.
    destruct Hattr as [-> | [-> | ->]]; simpl;
      repeat (reflexivity || rewrite orb_true_r || rewrite orb_true_l). }
  assert (mem (target_func request) ["_create_agent"; "_get"] = false) as ->.
  { revert Hh. unfold mem, handlers. simpl.
    destruct (String.eqb _ "_create_agent"); [done|].
    destruct (String.eqb _ "_delete_agent"); [done|].
    destruct (String.eqb _ "_clone_agent"); [done|].
    destruct (String.eqb _ "_reply"); [done|].
    destruct (String.eqb _ "_get"); done. }
  by rewrite Hex.
Qed.

(** C3 (as the code behaves): [__init__] is none of the six handlers,
    yet a request that names it, for an agent the registry holds, is not
    refused as an unsupported method: the constructor runs again with the
    request as its host and wipes the registry, the result pool and the
    task counter, and the call returns no envelope. *)
Theorem C3_init_is_dispatched p e request :
  target_func request = "__init__" ->
  agent_exists p (agent_id request) = true ->
  mem (target_func request) handlers = false
  /\ call_func p e request
     = (ReturnedNone,
        __init__ (executor p) (HostObject request) None 8192 1800).
Proof.
  intros Ht Hex. split; [by rewrite Ht|].
  unfold call_func. rewrite Ht.
  assert (hasattr "__init__" = true) as -> by reflexivity.
  cbn [mem existsb String.eqb Ascii.eqb Bool.eqb negb andb orb].
  by rewrite Hex.
Qed.

(** C4 (amended): for [_delete_agent], [_clone_agent], [_reply] and
    [_observe], a request for an agent that the registry does not hold is
    refused with INVALID_ARGUMENT and the message
    ["Agent [<id>] not exists."], full stop included, and the platform is
    left untouched; a request for an agent it holds goes to the handler
    of that name. *)
Theorem C4_agent_is_checked_before_dispatch p e request :
  mem (target_func request)
      ["_delete_agent"; "_clone_agent"; "_reply"; "_observe"] = true ->
  (agent_exists p (agent_id request) = false ->
   call_func p e request
   = (Abort INVALID_ARGUMENT
        ("Agent [" +:+ agent_id request +:+ "] not exists."), p))
  /\ (agent_exists p (agent_id request) = true ->
      (target_func request = "_delete_agent" ->
       call_func p e request = _delete_agent p request)
      /\ (target_func request = "_clone_agent" ->
          call_func p e request = _clone_agent p e request)
      /\ (target_func request = "_reply" ->
          call_func p e request = _reply p e request)
      /\ (target_func request = "_observe" ->
          call_func p e request = _observe p request)).
Proof.
  intros Hm.
  assert (target_func request = "_delete_agent"
          \/ target_func request = "_clone_agent"
          \/ target_func request = "_reply"
          \/ target_func request = "_observe") as Hcases.
  { revert Hm. unfold mem. simpl.
    destruct (String.eqb_spec (target_func request) "_delete_agent");
      [tauto|].
    destruct (String.eqb_spec (target_func request) "_clone_agent");
      [tauto|].
    destruct (String.eqb_spec (target_func request) "_reply"); [tauto|].
    destruct (String.eqb_spec (target_func request) "_observe"); [tauto|].
    discriminate. }
  split.
  - intros Hex. unfold call_func.
    destruct Hcases as [-> | [-> | [-> | ->]]];
      rewrite hasattr_handler by reflexivity;
      cbn [mem existsb String.eqb Ascii.eqb Bool.eqb negb andb orb];
      by rewrite Hex.
  - intros Hex.
    repeat split; intros Ht; unfold call_func; rewrite Ht;
      rewrite hasattr_handler by reflexivity;
      cbn [mem existsb String.eqb Ascii.eqb Bool.eqb negb andb orb];
      rewrite Hex; reflexivity.
Qed.

End DispatchFacts.

Lemma call_func_unsupported_witness :
  Demo.call Demo.staffed Demo.env (mkRpcMsg "_shutdown" "a" EmptyString)
  = (Abort INVALID_ARGUMENT "Unsupported method _shutdown", Demo.staffed).
Proof.
  apply (@call_func_unsupported nat Demo.codec Demo.runtime Demo.staffed
           Demo.env (mkRpcMsg "_shutdown" "a" EmptyString)).
  reflexivity.
Defined.

(** C3 on the demo server, which holds the agent ["a"]. *)
Lemma C3_init_is_dispatched_witness :
  Demo.call Demo.staffed Demo.env (mkRpcMsg "__init__" "a" EmptyString)
  = (ReturnedNone,
     @__init__ nat [] (HostObject (mkRpcMsg "__init__" "a" EmptyString))
       None 8192 1800).
Proof.
  apply (@C3_init_is_dispatched nat Demo.codec Demo.runtime
           Demo.staffed Demo.env (mkRpcMsg "__init__" "a" EmptyString));
    reflexivity.
Defined.

(** C4 on the demo server: ["a"] is held, ["z"] is not. *)
Lemma C4_agent_is_checked_before_dispatch_witness :
  Demo.call Demo.staffed Demo.env (Demo.ask "z" "hi")
  = (Abort INVALID_ARGUMENT "Agent [z] not exists.", Demo.staffed)
  /\ Demo.call Demo.staffed Demo.env (Demo.ask "a" "hi")
     = @_reply nat Demo.codec Demo.staffed Demo.env (Demo.ask "a" "hi").
Proof.
  pose proof (@C4_agent_is_checked_before_dispatch nat Demo.codec
                Demo.runtime Demo.staffed Demo.env (Demo.ask "z" "hi")
                eq_refl) as [Hz _].
  pose proof (@C4_agent_is_checked_before_dispatch nat Demo.codec
                Demo.runtime Demo.staffed Demo.env (Demo.ask "a" "hi")
                eq_refl) as [_ Ha].
  split.
  - apply Hz. reflexivity.
  - apply Ha; reflexivity.
Defined.

(** C4 as stated fails: the message the call is refused with ends in a
    full stop, so it is not ["Agent [z] not exists"]. *)
Lemma C4_message_ends_with_full_stop :
  exists details,
    Demo.call Demo.fresh Demo.env (Demo.ask "z" "hi")
    = (Abort INVALID_ARGUMENT details, Demo.fresh)
    /\ details = "Agent [z] not exists."
    /\ details <> "Agent [" +:+ "z" +:+ "] not exists".
Proof.
  eexists. split; [reflexivity|]. split; [reflexivity | discriminate].
Qed.

(** ** The task counter *)

Section CounterFacts.
Context {S : Type} `{!Codec} `{!Runtime S}.
Implicit Types (p : AgentPlatform S) (e : Env) (request : RpcMsg).

Lemma counter_create p e request :
  task_id_counter (snd (_create_agent p e request)) = task_id_counter p.
Proof.
  unfold _create_agent, check_and_generate_agent.
  destruct (truthy (value request)); [destruct (load_configs _)|]; simpl;
    try done;
    destruct (agent_pool p !! agent_id request); simpl; try done;
    destruct (construct e _); done.
Qed.

Lemma counter_delete p request :
  task_id_counter (snd (_delete_agent p request)) = task_id_counter p.
Proof.
  unfold _delete_agent, check_and_delete_agent. simpl.
  by destruct (agent_pool p !! agent_id request).
Qed.

Lemma counter_clone p e request :
  task_id_counter (snd (_clone_agent p e request)) = task_id_counter p.
Proof.
  unfold _clone_agent.
  destruct (agent_pool p !! agent_id request); [|done].
  by destruct (instantiate _ _ _ _).
Qed.

Lemma counter_observe p request :
  task_id_counter (snd (_observe p request)) = task_id_counter p.
Proof.
  unfold _observe.
  destruct (deserialize (value request)) as [[m|ms]|]; [| |done].
  - destruct (agent_pool p !! agent_id request) as [ag|]; [|done].
    by destruct (agent_observe ag (DOne m)) as [[]].
  - destruct (resolve_all ms) as [rs|]; [|done].
    destruct (agent_pool p !! agent_id request) as [ag|]; [|done].
    by destruct (agent_observe ag _) as [[]].
Qed.

Lemma counter_get_loop n p t k :
  task_id_counter (snd (_get_loop n p t k)) = task_id_counter p.
Proof.
  revert p t. induction n as [|n IH]; intros p t; [done|].
  simpl. unfold _get_poll.
  destruct (ExpiringDict.get (result_pool p) t k) as [[[|m]|] d]; simpl;
    [|done..].
  by rewrite IH.
Qed.

Lemma counter_get p e request :
  task_id_counter (snd (_get p e request)) = task_id_counter p.
Proof.
  unfold _get. destruct (json_task_id (value request)); [|done].
  apply counter_get_loop.
Qed.

Lemma counter_process_messages p t0 t1 task :
  task_id_counter (snd (process_messages p t0 t1 task)) = task_id_counter p.
Proof.
  destruct task as [[k id] msg]. unfold process_messages.
  destruct (update_input msg) as [input|]; [|done].
  destruct (ExpiringDict.getitem (result_pool p) t0 k) as [[c|] d]; [|done].
  cbn [agent_pool set_result_pool].
  destruct (agent_pool p !! id) as [ag|]; [|done].
  destruct (agent_reply ag input) as [[r|x] ag']; [done|].
  by destruct (is_Exception x).
Qed.

(** What [_reply] does for an agent the registry holds: it fails while
    decoding and changes nothing, or it hands out the next task id. *)
Lemma reply_outcome p e request :
  agent_exists p (agent_id request) = true ->
  (exists x, _reply p e request = (Raised x, p))
  \/ (exists a msg p',
        agent_pool p !! agent_id request = Some a
        /\ decode_input (value request) = Ok msg
        /\ _reply p e request
           = (Reply (RpcMsg_value
                       (serialize (Msg_handshake (AgentBase.name a)
                                     (task_id_counter p + 1)))), p')
        /\ task_id_counter p' = task_id_counter p + 1
        /\ agent_pool p' = agent_pool p
        /\ executor p'
           = (executor p
                ++ [(task_id_counter p + 1, agent_id request, msg)])%list
        /\ ExpiringDict.find (task_id_counter p + 1)
             (ExpiringDict.items (result_pool p'))
           = Some (Pending, now e)).
Proof.
  intros Hex. unfold agent_exists in Hex. unfold _reply.
  destruct (decode_input (value request)) as [msg|x]; [|left; eauto].
  right. cbn.
  destruct (agent_pool p !! agent_id request) as [a|] eqn:Ha; [|done].
  exists a, msg. eexists. repeat split. cbn. apply find_setitem.
Qed.

End CounterFacts.

(** ** Histories *)

Section HistoryFacts.
Context {S : Type} `{!Codec} `{!Runtime S}.
Implicit Types (p : AgentPlatform S) (e : Env) (request : RpcMsg).

Lemma not_reply_answer request r :
  target_func request <> "_reply" ->
  is_reply_answer (Called request r) = false.
Proof.
  intros Hne. destruct r; try reflexivity. simpl.
  by destruct (String.eqb_spec (target_func request) "_reply").
Qed.

(** Where a call can end up. *)
Lemma call_func_cases p e request :
  (exists d, call_func p e request = (Abort INVALID_ARGUMENT d, p))
  \/ (target_func request = "_reply"
      /\ agent_exists p (agent_id request) = true
      /\ call_func p e request = _reply p e request)
  \/ (target_func request = "__init__"
      /\ call_func p e request
         = (ReturnedNone,
            __init__ (executor p) (HostObject request) None 8192 1800))
  \/ (target_func request <> "_reply"
      /\ task_id_counter (snd (call_func p e request)) = task_id_counter p).
Proof.
  unfold call_func.
  destruct (hasattr (target_func request)); [|left; eauto].
  destruct (negb (mem (target_func request) ["_create_agent"; "_get"])
            && negb (agent_exists p (agent_id request))) eqn:Hguard;
    [left; eauto|].
  right. unfold getattr_call.
  destruct (String.eqb_spec (target_func request) "_create_agent") as [Ht|_].
  { right; right. split; [by rewrite Ht | apply counter_create]. }
  destruct (String.eqb_spec (target_func request) "_delete_agent") as [Ht|_].
  { right; right. split; [by rewrite Ht | apply counter_delete]. }
  destruct (String.eqb_spec (target_func request) "_clone_agent") as [Ht|_].
  { right; right. split; [by rewrite Ht | apply counter_clone]. }
  destruct (String.eqb_spec (target_func request) "_reply") as [Ht|Hnr].
  { left. split; [done|]. split; [|done].
    rewrite Ht in Hguard. simpl in Hguard.
    by destruct (agent_exists p (agent_id request)). }
  right.
  destruct (String.eqb_spec (target_func request) "_get") as [Ht|_].
  { right. split; [done | apply counter_get]. }
  destruct (String.eqb_spec (target_func request) "_observe") as [Ht|_].
  { right. split; [done | apply counter_observe]. }
  destruct (String.eqb_spec (target_func request) "__init__") as [Ht|_].
  { left. done. }
  right. split; [done|].
  by destruct (mem _ data_attributes || mem _ helper_methods).
Qed.

(** One event moves the counter in one of three ways: a [_reply] that is
    answered takes the next id, a call that names [__init__] may put the
    counter back to 0, and nothing else touches it. *)
Lemma step_counter p ev o p' :
  step p ev = (o, p') ->
  (is_reply_answer o = true
   /\ carries o (task_id_counter p + 1)
   /\ task_id_counter p' = task_id_counter p + 1)
  \/ (is_reply_answer o = false
      /\ (task_id_counter p' = task_id_counter p
          \/ (targets_init ev = true /\ task_id_counter p' = 0))).
Proof.
  destruct ev as [e request | i t0 t1]; simpl.
  - destruct (call_func p e request) as [r p1] eqn:Hc. intros [= <- <-].
    destruct (call_func_cases p e request)
      as [[d Hd] | [(Ht & Hex & Hr) | [(Ht & Hi) | (Hne & Hk)]]].
    + rewrite Hd in Hc. injection Hc as <- <-. right. split; [done | by left].
    + rewrite Hr in Hc.
      destruct (reply_outcome p e request Hex)
        as [[x Hx] | (a & msg & p2 & _ & _ & Hrep & Hcnt & _)].
      * rewrite Hx in Hc. injection Hc as <- <-.
        right. split; [done | by left].
      * rewrite Hrep in Hc. injection Hc as <- <-. left.
        split; [simpl; by rewrite Ht|]. split; [|done].
        by exists request, (AgentBase.name a).
    + rewrite Hi in Hc. injection Hc as <- <-. right. split; [done|].
      right. split; [simpl; by rewrite Ht | done].
    + rewrite Hc in Hk. right. split; [by apply not_reply_answer | by left].
  - destruct (executor p !! i) as [task|]; [|intros [= <- <-]; right; auto].
    destruct (process_messages _ t0 t1 task) as [r p1] eqn:Hp.
    intros [= <- <-]. right. split; [done|]. left.
    pose proof (counter_process_messages
                  (set_executor p (delete i (executor p))) t0 t1 task) as Hk.
    by rewrite Hp in Hk.
Qed.

(** The counter never goes below 0. *)
Lemma run_counter_nonneg p evs :
  0 <= task_id_counter p -> 0 <= task_id_counter (snd (run p evs)).
Proof.
  revert p. induction evs as [|ev evs IH]; intros p Hp; [done|].
  simpl. destruct (step p ev) as [o p1] eqn:Hs.
  specialize (IH p1). destruct (run p1 evs) as [os p2]. simpl in *.
  apply IH. apply step_counter in Hs. lia.
Qed.

(** Every answer to a [_reply] in a history carries an id above the
    counter the history started from. *)
Lemma run_reply_ids_positive p evs j o :
  0 <= task_id_counter p ->
  fst (run p evs) !! j = Some o ->
  is_reply_answer o = true ->
  exists t, carries o t /\ 1 <= t.
Proof.
  revert p j. induction evs as [|ev evs IH]; intros p j Hp Hj Ho; [done|].
  simpl in Hj. destruct (step p ev) as [o1 p1] eqn:Hs.
  pose proof (step_counter _ _ _ _ Hs) as Hc.
  specialize (IH p1). destruct (run p1 evs) as [os p2]. simpl in *.
  destruct j as [|j]; simpl in Hj.
  - injection Hj as ->. destruct Hc as [(_ & Hcar & _) | [Hno _]];
      [|congruence].
    eexists. split; [exact Hcar | lia].
  - apply (IH j); [lia | done | done].
Qed.

(** Until a [_reply] is answered the counter stays where the server
    started it, so the first answer carries the id 1. *)
Lemma first_reply_id p evs j o :
  task_id_counter p = 0 ->
  fst (run p evs) !! j = Some o ->
  is_reply_answer o = true ->
  (forall i oi, (i < j)%nat -> fst (run p evs) !! i = Some oi ->
                is_reply_answer oi = false) ->
  carries o 1.
Proof.
  revert p j. induction evs as [|ev evs IH]; intros p j Hp Hj Ho Hfirst;
    [done|].
  simpl in Hj, Hfirst. destruct (step p ev) as [o1 p1] eqn:Hs.
  pose proof (step_counter _ _ _ _ Hs) as Hc.
  specialize (IH p1). destruct (run p1 evs) as [os p2]. simpl in *.
  destruct j as [|j]; simpl in Hj.
  - injection Hj as ->. destruct Hc as [(_ & Hcar & _) | [Hno _]];
      [|congruence].
    by rewrite Hp in Hcar.
  - apply (IH j); [| done | done |].
    + pose proof (Hfirst 0%nat o1 ltac:(lia) eq_refl) as Hno.
      destruct Hc as [(Hyes & _) | (_ & [Hk | (_ & Hk)])]; congruence.
    + intros i oi Hi Hoi. apply (Hfirst (Datatypes.S i) oi); [lia | done].
Qed.

(** As long as no call names [__init__], the counter only grows. *)
Lemma run_reply_ids_above p evs j o :
  forallb (fun ev => negb (targets_init ev)) evs = true ->
  fst (run p evs) !! j = Some o ->
  is_reply_answer o = true ->
  exists t, carries o t /\ task_id_counter p < t.
Proof.
  revert p j. induction evs as [|ev evs IH]; intros p j Hni Hj Ho; [done|].
  simpl in Hni. apply andb_true_iff in Hni as [Hev Hni].
  simpl in Hj. destruct (step p ev) as [o1 p1] eqn:Hs.
  pose proof (step_counter _ _ _ _ Hs) as Hc.
  specialize (IH p1). destruct (run p1 evs) as [os p2]. simpl in *.
  destruct j as [|j]; simpl in Hj.
  - injection Hj as ->. destruct Hc as [(_ & Hcar & _) | [Hno _]];
      [|congruence].
    eexists. split; [exact Hcar | lia].
  - destruct (IH j Hni Hj Ho) as (t & Hcar & Ht).
    exists t. split; [done|].
    destruct Hc as [(_ & _ & Hk) | (_ & [Hk | (Hinit & _)])]; [lia | lia |].
    by rewrite Hinit in Hev.
Qed.

(** In a history in which no call names [__init__], of two answers to
    [_reply] the later one carries the larger task id. *)
Lemma task_ids_increase_without_init p evs i j oi oj :
  forallb (fun ev => negb (targets_init ev)) evs = true ->
  (i < j)%nat ->
  fst (run p evs) !! i = Some oi ->
  fst (run p evs) !! j = Some oj ->
  is_reply_answer oi = true ->
  is_reply_answer oj = true ->
  exists ti tj, carries oi ti /\ carries oj tj /\ ti < tj.
Proof.
  revert p i j. induction evs as [|ev evs IH]; intros p i j Hni Hij Hi Hj Hoi Hoj;
    [done|].
  simpl in Hni. apply andb_true_iff in Hni as [Hev Hni].
  simpl in Hi, Hj. destruct (step p ev) as [o1 p1] eqn:Hs.
  pose proof (step_counter _ _ _ _ Hs) as Hc.
  pose proof (run_reply_ids_above p1 evs) as Habove.
  specialize (IH p1). destruct (run p1 evs) as [os p2]. simpl in *.
  destruct j as [|j]; [lia|]. simpl in Hj.
  destruct i as [|i]; simpl in Hi.
  - injection Hi as ->.
    destruct Hc as [(_ & Hcar & Hk) | [Hno _]]; [|congruence].
    destruct (Habove j oj Hni Hj Hoj) as (tj & Hcj & Htj).
    exists (task_id_counter p + 1), tj. repeat split; [done | done | lia].
  - apply (IH i j); [done | lia | done..].
Qed.

End HistoryFacts.

Lemma task_ids_increase_without_init_witness :
  exists ti tj,
    @carries Demo.codec
      (Called (Demo.ask "a" "x") (Reply (RpcMsg_value "Echo#1"))) ti
    /\ @carries Demo.codec
         (Called (Demo.ask "b" "y") (Reply (RpcMsg_value "Boom#2"))) tj
    /\ ti < tj.
Proof.
  apply (@task_ids_increase_without_init nat Demo.codec Demo.runtime
           Demo.staffed
           [Call Demo.env (Demo.ask "a" "x"); Work 0 101 102;
            Call Demo.env (Demo.ask "b" "y")] 0%nat 2%nat);
    [reflexivity | lia | reflexivity..].
Defined.

(** ** Task ids *)

(** C5 (as the code behaves): on one server, an agent is created and
    asked, a call that names [__init__] goes through, the agent is created
    again and asked again; both [_reply] calls are answered with task id 1,
    so the later id is not above the earlier one. *)
Theorem C5_task_id_repeats_after_init :
  let evs :=
    [Call Demo.env (Demo.create "a" "Echo");
     Call Demo.env (Demo.ask "a" "x");
     Call Demo.env (mkRpcMsg "__init__" "a" EmptyString);
     Call Demo.env (Demo.create "a" "Echo");
     Call Demo.env (Demo.ask "a" "y")] in
  let os := fst (Demo.history Demo.fresh evs) in
  os !! 1%nat
  = Some (Called (Demo.ask "a" "x")
            (Reply (RpcMsg_value
                      (@serialize Demo.codec (Msg_handshake "Echo" 1)))))
  /\ os !! 2%nat
     = Some (Called (mkRpcMsg "__init__" "a" EmptyString) ReturnedNone)
  /\ os !! 4%nat
     = Some (Called (Demo.ask "a" "y")
               (Reply (RpcMsg_value
                         (@serialize Demo.codec (Msg_handshake "Echo" 1)))))
  /\ ~ (1 < 1).
Proof. repeat split; try (vm_compute; reflexivity). lia. Qed.

Section ReplyFacts.
Context {S : Type} `{!Codec} `{!Runtime S}.
Implicit Types (p : AgentPlatform S) (e : Env) (request : RpcMsg).

Lemma get_task_id_value p :
  fst (get_task_id p) = task_id_counter p + 1.
Proof. reflexivity. Qed.

Lemma get_task_id_counter p :
  task_id_counter (snd (get_task_id p)) = task_id_counter p + 1.
Proof. reflexivity. Qed.

(** C6: a [_reply] for an agent the registry holds, with an input that
    decodes (or none), returns the envelope of the serialized message
    [{name = the agent's name, content = None, task_id = t}] where [t] is
    the id just taken from the counter; on return the pool holds a pending
    entry for [t], the work [(t, agent_id, input)] is the last piece of
    submitted work and has not run: the agents are as they were. *)
Theorem C6_reply_returns_handshake p e request a msg :
  agent_pool p !! agent_id request = Some a ->
  decode_input (value request) = Ok msg ->
  let t := task_id_counter p + 1 in
  let m := Msg_handshake (AgentBase.name a) t in
  exists p',
    _reply p e request = (Reply (RpcMsg_value (serialize m)), p')
    /\ name m = AgentBase.name a /\ content m = None /\ task_id m = Some t
    /\ get_task_id p = (t, set_task_id_counter p t)
    /\ task_id_counter p' = t
    /\ ExpiringDict.find t (ExpiringDict.items (result_pool p'))
       = Some (Pending, now e)
    /\ executor p' = (executor p ++ [(t, agent_id request, msg)])%list
    /\ agent_pool p' = agent_pool p.
Proof.
  intros Ha Hd t m. unfold _reply. rewrite Hd. cbn. rewrite Ha.
  eexists. repeat split. cbn. apply find_setitem.
Qed.

(** On a freshly constructed platform, calls of [get_task_id] with
    nothing in between return 1, 2, 3, ... in turn; in every history of
    such a server each answer to a [_reply] carries an id of at least 1,
    and the first answer carries 1. *)
Lemma task_ids_count_from_one host port max_pool_size max_timeout :
  let fresh : AgentPlatform S :=
    AgentPlatform_new host port max_pool_size max_timeout in
  (forall n : nat,
     fst (get_task_id (Nat.iter n (fun p => snd (get_task_id p)) fresh))
     = Z.of_nat n + 1)
  /\ (forall evs j o,
        fst (run fresh evs) !! j = Some o ->
        is_reply_answer o = true ->
        (exists t, carries o t /\ 1 <= t)
        /\ ((forall i oi, (i < j)%nat -> fst (run fresh evs) !! i = Some oi ->
                          is_reply_answer oi = false) ->
            carries o 1)).
Proof.
  intros fresh. split.
  - intros n.
    assert (task_id_counter
              (Nat.iter n (fun p => snd (get_task_id p)) fresh) = Z.of_nat n)
      as Hn.
    { induction n as [|n IH]; [done|].
      rewrite Nat.iter_succ, get_task_id_counter, IH. lia. }
    rewrite get_task_id_value. by rewrite Hn.
  - intros evs j o Hj Ho. split.
    + by apply (run_reply_ids_positive fresh evs j).
    + intros Hfirst. by apply (first_reply_id fresh evs j).
Qed.

End ReplyFacts.

(** C6 on the demo server: the [Echo] agent ["a"] is asked. *)
Lemma C6_reply_returns_handshake_witness :
  exists p',
    @_reply nat Demo.codec Demo.staffed Demo.env (Demo.ask "a" "hi")
    = (Reply (RpcMsg_value "Echo#1"), p')
    /\ ExpiringDict.find 1 (ExpiringDict.items (result_pool p'))
       = Some (Pending, 100)
    /\ agent_pool p' = agent_pool Demo.staffed.
Proof.
  destruct (@C6_reply_returns_handshake nat Demo.codec Demo.staffed Demo.env
              (Demo.ask "a" "hi")
              (AgentBase.mk "Echo" "a" "Echo" ([], []) 0%nat)
              (Some (DOne (Concrete
                             (mkMsg "user" "user" (Some "hi") None None None))))
              eq_refl eq_refl)
    as (p' & Hr & _ & _ & _ & _ & _ & Hf & _ & Hag).
  exists p'. repeat split; [exact Hr | exact Hf | exact Hag].
Defined.

(** C6 as stated fails: a [_reply] for the agent ["a"], which the
    registry holds, with a value that does not deserialize, is not
    answered: the decoder's exception leaves the handler before a task id
    is taken, so no handshake is returned, nothing is stored and nothing is
    submitted. *)
Lemma C6_undecodable_value_gets_no_handshake :
  let request := mkRpcMsg "_reply" "a" "torn" in
  let failure :=
    mkExc ValueError "Expecting value: line 1 column 1 (char 0)" in
  agent_exists Demo.staffed "a" = true
  /\ @_reply nat Lab.codec Demo.staffed Demo.env request
     = (Raised failure, Demo.staffed)
  /\ Lab.call Demo.staffed Demo.env request = (Raised failure, Demo.staffed)
  /\ result_pool Demo.staffed = ExpiringDict.empty 8192 1800
  /\ executor Demo.staffed = []
  /\ task_id_counter Demo.staffed = 0.
Proof. repeat split; vm_compute; reflexivity. Qed.

(** C10 (as the code behaves): on a freshly constructed platform an agent
    is created and asked, a call that names [__init__] goes through, the
    agent is created again and asked again.  [get_task_id] has then been
    called twice, once for each [_reply], and has returned 1 both times,
    not 1 and 2; its third call returns 2, not 3. *)
Theorem C10_second_task_id_is_one_after_init :
  let evs :=
    [Call Demo.env (Demo.create "a" "Echo");
     Call Demo.env (Demo.ask "a" "x");
     Call Demo.env (mkRpcMsg "__init__" "a" EmptyString);
     Call Demo.env (Demo.create "a" "Echo");
     Call Demo.env (Demo.ask "a" "y")] in
  let os := fst (Demo.history Demo.fresh evs) in
  let p := snd (Demo.history Demo.fresh evs) in
  let handshake t :=
    Reply (RpcMsg_value (@serialize Demo.codec (Msg_handshake "Echo" t))) in
  List.filter is_reply_answer os
  = [Called (Demo.ask "a" "x") (handshake 1);
     Called (Demo.ask "a" "y") (handshake 1)]
  /\ handshake 1 <> handshake 2
  /\ task_id_counter p = 1
  /\ fst (get_task_id p) = 2.
Proof.
  repeat split; try (vm_compute; reflexivity). vm_compute. discriminate.
Qed.
(** ** Port selection *)

Section PortFacts.
Context `{!Sockets}.

(** C7: without a port, [check_port] returns the port the system assigns
    to a socket bound to port 0; with a port on which the loopback probe
    connects, it returns such an assigned port as well; with any other
    port, it returns the port it was given. *)
Theorem C7_check_port (port : Z) :
  0 <= port <= 65535 ->
  find_available_port = bind_any
  /\ check_port None = Ok find_available_port
  /\ (loopback_connect port = 0 ->
      check_port (Some port) = Ok find_available_port)
  /\ (loopback_connect port <> 0 -> check_port (Some port) = Ok port).
Proof.
  intros Hrange. split; [done|]. split; [done|].
  unfold check_port, connect_ex.
  destruct (Z.leb_spec 0 port); [|lia].
  destruct (Z.leb_spec port 65535); [|lia]. simpl.
  split; intros Hc.
  - by rewrite Hc.
  - by destruct (Z.eqb_spec (loopback_connect port) 0).
Qed.

End PortFacts.

(** C7 on the demo host, where port 12010 is taken and 12011 is free. *)
Lemma C7_check_port_witness :
  @check_port Demo.sockets None = Ok 49152
  /\ @check_port Demo.sockets (Some 12010) = Ok 49152
  /\ @check_port Demo.sockets (Some 12011) = Ok 12011.
Proof.
  destruct (@C7_check_port Demo.sockets 12010 ltac:(lia))
    as (_ & Hnone & Htaken & _).
  destruct (@C7_check_port Demo.sockets 12011 ltac:(lia))
    as (_ & _ & _ & Hfree).
  split; [exact Hnone|]. split; [exact (Htaken eq_refl)|].
  apply Hfree. discriminate.
Defined.

(** C7 as stated fails: for a number that is no port, [check_port]
    returns neither an assigned port nor the number it was given; the
    probe raises [OverflowError] before it connects. *)
Lemma C7_port_out_of_range_raises :
  @check_port Demo.sockets (Some 65536)
  = Raise (mkExc OverflowError "connect_ex(): port must be 0-65535.")
  /\ @check_port Demo.sockets (Some (-1))
     = Raise (mkExc OverflowError "connect_ex(): port must be 0-65535.")
  /\ forall port, @check_port Demo.sockets (Some 65536) <> Ok port.
Proof. repeat split; try reflexivity. intros port. discriminate. Qed.

(** ** The registry *)

Section RegistryFacts.
Context {S : Type} `{!Codec} `{!Runtime S}.
Implicit Types (p : AgentPlatform S) (e : Env) (request : RpcMsg).

(** C8 (amended): when the registry holds the agent id, creation changes
    nothing and consults no constructor, whatever the blob, and so does
    [_create_agent], with an empty value too; when it does not, and the
    value is a blob that decodes, names a registered class and is accepted
    by the constructor, the new instance is built from the blob's class
    name, args and kwargs, gets the requested agent id and is inserted
    under it. *)
Theorem C8_create_agent p e request :
  (forall a, agent_pool p !! agent_id request = Some a ->
     (forall configs,
        check_and_generate_agent p e (agent_id request) configs = (Ok tt, p))
     /\ (truthy (value request) = false ->
         _create_agent p e request = (Reply RpcMsg_empty, p))
     /\ (forall c, truthy (value request) = true ->
                   load_configs (value request) = Ok c ->
                   _create_agent p e request = (Reply RpcMsg_empty, p)))
  /\ (agent_pool p !! agent_id request = None ->
      forall c inst,
        truthy (value request) = true ->
        load_configs (value request) = Ok c ->
        registered (class_name c) = true ->
        instantiate (class_name c) (entropy e) (args c) (kwargs c) = Ok inst ->
        let created := AgentBase.set_agent_id inst (agent_id request) in
        let p' :=
          set_agent_pool p (<[agent_id request := created]> (agent_pool p)) in
        check_and_generate_agent p e (agent_id request) (Some c) = (Ok tt, p')
        /\ _create_agent p e request = (Reply RpcMsg_empty, p')
        /\ AgentBase.agent_id created = agent_id request
        /\ AgentBase.cls created = AgentBase.cls inst
        /\ agent_pool p' !! agent_id request = Some created).
Proof.
  split.
  - intros a Ha.
    assert (forall configs,
              check_and_generate_agent p e (agent_id request) configs
              = (Ok tt, p)) as Hno.
    { intros configs. unfold check_and_generate_agent. by rewrite Ha. }
    split; [exact Hno|]. split.
    + intros Hv. unfold _create_agent. by rewrite Hv, Hno.
    + intros c Hv Hc. unfold _create_agent. by rewrite Hv, Hc, Hno.
  - intros Hnone c inst Hv Hc Hreg Hinst created p'.
    assert (check_and_generate_agent p e (agent_id request) (Some c)
            = (Ok tt, p')) as Hgen.
    { unfold check_and_generate_agent, construct.
      by rewrite Hnone, Hreg, Hinst. }
    split; [exact Hgen|]. split.
    + unfold _create_agent. by rewrite Hv, Hc, Hgen.
    + split; [done|]. split; [done|]. apply lookup_insert_eq.
Qed.

End RegistryFacts.

(** C8 on the demo server: ["a"] is created once more, and ["c"] for the
    first time. *)
Lemma C8_create_agent_witness :
  Demo.call Demo.staffed Demo.env (Demo.create "a" "Boom")
  = (Reply RpcMsg_empty, Demo.staffed)
  /\ exists p',
       @_create_agent nat Demo.codec Demo.runtime Demo.staffed Demo.env
         (Demo.create "c" "Echo") = (Reply RpcMsg_empty, p')
       /\ AgentBase.cls <$> (agent_pool p' !! "c") = Some "Echo".
Proof.
  destruct (@C8_create_agent nat Demo.codec Demo.runtime Demo.staffed
              Demo.env (Demo.create "a" "Boom")) as [Hheld _].
  destruct (Hheld (AgentBase.mk "Echo" "a" "Echo" ([], []) 0%nat) eq_refl)
    as (_ & _ & Hsame).
  destruct (@C8_create_agent nat Demo.codec Demo.runtime Demo.staffed
              Demo.env (Demo.create "c" "Echo")) as [_ Hnew].
  destruct (Hnew eq_refl (mkConfigs "Echo" [] [])
              (AgentBase.mk "Echo" "agent-1" "Echo" ([], []) 0%nat)
              eq_refl eq_refl eq_refl eq_refl)
    as (_ & Hcreate & _ & _ & Hin).
  split.
  - exact (Hsame (mkConfigs "Boom" [] []) eq_refl eq_refl).
  - eexists. split; [exact Hcreate|].
    exact (f_equal (fmap AgentBase.cls) Hin).
Defined.

(** C8 as stated fails: with an empty value and an agent id the registry
    does not hold, nothing is constructed and nothing is inserted; the
    handler ends with a [TypeError], because there is no blob to read the
    class name from. *)
Lemma C8_empty_value_creates_nothing :
  Demo.call Demo.fresh Demo.env (mkRpcMsg "_create_agent" "a" EmptyString)
  = (Raised (mkExc TypeError "'NoneType' object is not subscriptable"),
     Demo.fresh)
  /\ agent_pool Demo.fresh !! "a" = None.
Proof. split; reflexivity. Qed.

(** ** Missing optional packages *)

Lemma string_app_assoc (s1 s2 s3 : string) :
  (s1 +:+ s2) +:+ s3 = s1 +:+ (s2 +:+ s3).
Proof.
  induction s1 as [|c s1 IH]; [reflexivity|].
  change (String c ((s1 +:+ s2) +:+ s3) = String c (s1 +:+ (s2 +:+ s3))).
  by f_equal.
Qed.

(** The message of the reporters that [rpc_agent.py] binds. *)
Lemma raise_import_error_distribute {A} (x : PyExc) :
  @ImportErrorReporter._raise_import_error A
    (ImportErrorReporter.mk x (Some "distribute"))
  = Raise (mkExc ImportError
             ("ImportError occorred: [" +:+ exc_msg x
                +:+ "]. Please install [distribute] version of agentscope.")).
Proof.
  unfold ImportErrorReporter._raise_import_error.
  cbn [ImportErrorReporter.extras_require ImportErrorReporter.error].
  rewrite !string_app_assoc. reflexivity.
Qed.

(** C9 (amended): when one of [dill], [grpc], [expiringdict] fails to
    import, the four names the module binds are one reporter holding the
    first import error and the extra ["distribute"]; calling it, indexing
    it, and reading any attribute that neither the reporter nor a plain
    object has, raises an [ImportError] whose message quotes the original
    error's message and asks for the [distribute] version. *)
Theorem C9_reporter_raises_import_error
    (object_attr : string -> bool)
    (dill_error grpc_error expiringdict_error : option PyExc)
    (import_error : PyExc) :
  first_import_error dill_error grpc_error expiringdict_error
  = Some import_error ->
  let t := import_transport dill_error grpc_error expiringdict_error in
  let r := ImportErrorReporter.mk import_error (Some "distribute") in
  let failure :=
    mkExc ImportError
      ("ImportError occorred: [" +:+ exc_msg import_error
         +:+ "]. Please install [distribute] version of agentscope.") in
  dill t = Reporter r /\ grpc t = Reporter r
  /\ ServicerContext t = Reporter r /\ ExpiringDict_ t = Reporter r
  /\ (forall (A Args : Type) (args : Args),
        @ImportErrorReporter.__call__ A Args r args = Raise failure)
  /\ (forall (A Key : Type) (key : Key),
        @ImportErrorReporter.__getitem__ A Key r key = Raise failure)
  /\ (forall name,
        name <> "error" -> name <> "extras_require" ->
        existsb (String.eqb name) ImportErrorReporter.methods = false ->
        object_attr name = false ->
        ImportErrorReporter.getattribute object_attr r name = Raise failure).
Proof.
  intros Hfirst t r failure. unfold t, import_transport. rewrite Hfirst.
  cbn [dill grpc ServicerContext ExpiringDict_].
  repeat split.
  - intros A Args args. apply raise_import_error_distribute.
  - intros A Key key. apply raise_import_error_distribute.
  - intros name Herr Hext Hmeth Hobj.
    unfold ImportErrorReporter.getattribute.
    destruct (String.eqb_spec name "error"); [done|].
    destruct (String.eqb_spec name "extras_require"); [done|].
    rewrite Hmeth, Hobj. apply raise_import_error_distribute.
Qed.

(** C9 where [grpc] is missing: [grpc.StatusCode] cannot be read, and
    [dill], although it was imported, cannot be called. *)
Lemma C9_reporter_raises_import_error_witness :
  let x := mkExc ImportError "No module named 'grpc'" in
  let r := ImportErrorReporter.mk x (Some "distribute") in
  let failure :=
    mkExc ImportError
      ("ImportError occorred: [No module named 'grpc']."
         +:+ " Please install [distribute] version of agentscope.") in
  grpc (import_transport None (Some x) None) = Reporter r
  /\ ImportErrorReporter.getattribute Demo.object_attr r "StatusCode"
     = Raise failure
  /\ @ImportErrorReporter.__call__ unit unit r tt = Raise failure.
Proof.
  destruct (C9_reporter_raises_import_error Demo.object_attr None
              (Some (mkExc ImportError "No module named 'grpc'")) None
              (mkExc ImportError "No module named 'grpc'") eq_refl)
    as (_ & Hgrpc & _ & _ & Hcall & _ & Hattr).
  split; [exact Hgrpc|]. split.
  - apply (Hattr "StatusCode"); [discriminate | discriminate | reflexivity..].
  - exact (Hcall unit unit tt).
Defined.

(** C9 as stated fails: reading the attribute [error] of a substituted
    reporter raises nothing; it yields the import error the reporter
    holds. *)
Lemma C9_reading_error_attribute_does_not_raise :
  let x := mkExc ImportError "No module named 'grpc'" in
  exists r,
    grpc (import_transport None (Some x) None) = Reporter r
    /\ ImportErrorReporter.getattribute Demo.object_attr r "error"
       = Ok (ImportErrorReporter.TheError x).
Proof. eexists. split; reflexivity. Qed.

(** * Further properties of the servicer *)

(** ** Reading a field after an update *)

Section FieldFacts.
Context {S : Type}.
Implicit Types (p : AgentPlatform S).

Lemma host_set_result_pool p v : host (set_result_pool p v) = host p.
Proof. reflexivity. Qed.

Lemma port_set_result_pool p v : port (set_result_pool p v) = port p.
Proof. reflexivity. Qed.

Lemma result_pool_set_result_pool p v : result_pool (set_result_pool p v) = v.
Proof. reflexivity. Qed.

Lemma executor_set_result_pool p v : executor (set_result_pool p v) = executor p.
Proof. reflexivity. Qed.

Lemma task_id_counter_set_result_pool p v : task_id_counter (set_result_pool p v) = task_id_counter p.
Proof. reflexivity. Qed.

Lemma agent_pool_set_result_pool p v : agent_pool (set_result_pool p v) = agent_pool p.
Proof. reflexivity. Qed.

Lemma host_set_executor p v : host (set_executor p v) = host p.
Proof. reflexivity. Qed.

Lemma port_set_executor p v : port (set_executor p v) = port p.
Proof. reflexivity. Qed.

Lemma result_pool_set_executor p v : result_pool (set_executor p v) = result_pool p.
Proof. reflexivity. Qed.

Lemma executor_set_executor p v : executor (set_executor p v) = v.
Proof. reflexivity. Qed.

Lemma task_id_counter_set_executor p v : task_id_counter (set_executor p v) = task_id_counter p.
Proof. reflexivity. Qed.

Lemma agent_pool_set_executor p v : agent_pool (set_executor p v) = agent_pool p.
Proof. reflexivity. Qed.

Lemma host_set_task_id_counter p v : host (set_task_id_counter p v) = host p.
Proof. reflexivity. Qed.

Lemma port_set_task_id_counter p v : port (set_task_id_counter p v) = port p.
Proof. reflexivity. Qed.

Lemma result_pool_set_task_id_counter p v : result_pool (set_task_id_counter p v) = result_pool p.
Proof. reflexivity. Qed.

Lemma executor_set_task_id_counter p v : executor (set_task_id_counter p v) = executor p.
Proof. reflexivity. Qed.

Lemma task_id_counter_set_task_id_counter p v : task_id_counter (set_task_id_counter p v) = v.
Proof. reflexivity. Qed.

Lemma agent_pool_set_task_id_counter p v : agent_pool (set_task_id_counter p v) = agent_pool p.
Proof. reflexivity. Qed.

Lemma host_set_agent_pool p v : host (set_agent_pool p v) = host p.
Proof. reflexivity. Qed.

Lemma port_set_agent_pool p v : port (set_agent_pool p v) = port p.
Proof. reflexivity. Qed.

Lemma result_pool_set_agent_pool p v : result_pool (set_agent_pool p v) = result_pool p.
Proof. reflexivity. Qed.

Lemma executor_set_agent_pool p v : executor (set_agent_pool p v) = executor p.
Proof. reflexivity. Qed.

Lemma task_id_counter_set_agent_pool p v : task_id_counter (set_agent_pool p v) = task_id_counter p.
Proof. reflexivity. Qed.

Lemma agent_pool_set_agent_pool p v : agent_pool (set_agent_pool p v) = v.
Proof. reflexivity. Qed.

End FieldFacts.

Create Rewrite HintDb platform.
#[global] Hint Rewrite
  @host_set_result_pool
  @port_set_result_pool
  @result_pool_set_result_pool
  @executor_set_result_pool
  @task_id_counter_set_result_pool
  @agent_pool_set_result_pool
  @host_set_executor
  @port_set_executor
  @result_pool_set_executor
  @executor_set_executor
  @task_id_counter_set_executor
  @agent_pool_set_executor
  @host_set_task_id_counter
  @port_set_task_id_counter
  @result_pool_set_task_id_counter
  @executor_set_task_id_counter
  @task_id_counter_set_task_id_counter
  @agent_pool_set_task_id_counter
  @host_set_agent_pool
  @port_set_agent_pool
  @result_pool_set_agent_pool
  @executor_set_agent_pool
  @task_id_counter_set_agent_pool
  @agent_pool_set_agent_pool : platform.

(** ** The life of an agent in the registry *)

Section LifecycleFacts.
Context {S : Type} `{!Codec} `{!Runtime S}.
Implicit Types (p : AgentPlatform S) (e : Env) (request : RpcMsg).

Lemma create_agent_registry p e request r p' :
  _create_agent p e request = (r, p') ->
  (r = Reply RpcMsg_empty /\ agent_exists p' (agent_id request) = true)
  \/ (exists x, r = Raised x /\ p' = p).
Proof.
  unfold _create_agent, check_and_generate_agent, agent_exists.
  destruct (truthy (value request));
    [destruct (load_configs (value request)) as [c|x]|].
  - destruct (agent_pool p !! agent_id request) as [a|] eqn:Ha.
    + intros [= <- <-]. left. by rewrite Ha.
    + destruct (construct e c) as [inst|x].
      * intros [= <- <-]. left. split; [done|].
        cbn [agent_pool set_agent_pool]. by rewrite lookup_insert_eq.
      * intros [= <- <-]. right. eauto.
  - intros [= <- <-]. right. eauto.
  - destruct (agent_pool p !! agent_id request) as [a|] eqn:Ha.
    + intros [= <- <-]. left. by rewrite Ha.
    + intros [= <- <-]. right. eauto.
Qed.

Lemma call_func_create p e request :
  target_func request = "_create_agent" ->
  call_func p e request = _create_agent p e request.
Proof.
  intros Ht. unfold call_func. rewrite Ht.
  rewrite hasattr_handler by reflexivity. reflexivity.
Qed.

(** A handler that is dispatched for an agent the registry holds. *)
Lemma call_func_known_agent p e request :
  mem (target_func request) handlers = true ->
  agent_exists p (agent_id request) = true ->
  call_func p e request = getattr_call p e (target_func request) request.
Proof.
  intros Hm Hex. unfold call_func. rewrite (hasattr_handler _ Hm), Hex.
  by rewrite andb_false_r.
Qed.

(** No handler ends in an abort: only the dispatcher aborts. *)
Lemma handler_never_aborts p e request code details :
  mem (target_func request) handlers = true ->
  fst (getattr_call p e (target_func request) request) <> Abort code details.
Proof.
  intros Hm. unfold getattr_call.
  destruct (String.eqb (target_func request) "_create_agent") eqn:H1.
  { destruct (_create_agent p e request) as [r p'] eqn:Hc.
    apply create_agent_registry in Hc as [[-> _] | (x & -> & _)]; done. }
  destruct (String.eqb (target_func request) "_delete_agent") eqn:H2; [done|].
  destruct (String.eqb (target_func request) "_clone_agent") eqn:H3.
  { unfold _clone_agent.
    destruct (agent_pool p !! agent_id request) as [a|]; [|done].
    by destruct (instantiate _ _ _ _). }
  destruct (String.eqb (target_func request) "_reply") eqn:H4.
  { unfold _reply. destruct (decode_input (value request)); [|done]. cbn.
    by destruct (agent_pool p !! agent_id request). }
  destruct (String.eqb (target_func request) "_get") eqn:H5.
  { unfold _get. destruct (json_task_id (value request)) as [k|]; [|done].
    generalize (now e). generalize p.
    induction (patience e) as [|n IH]; intros p0 t; [done|].
    simpl. unfold _get_poll.
    destruct (ExpiringDict.get (result_pool p0) t k) as [[[|m]|] d];
      simpl; [apply IH | done | done]. }
  destruct (String.eqb (target_func request) "_observe") eqn:Hobs.
  { unfold _observe.
    destruct (deserialize (value request)) as [[m|ms]|]; [| |done].
    - destruct (agent_pool p !! agent_id request) as [ag|]; [|done].
      by destruct (agent_observe ag (DOne m)) as [[]].
    - destruct (resolve_all ms) as [rs|]; [|done].
      destruct (agent_pool p !! agent_id request) as [ag|]; [|done].
      by destruct (agent_observe ag _) as [[]]. }
  unfold mem, handlers in Hm. simpl in Hm.
  by rewrite H1, H2, H3, H4, H5, Hobs in Hm.
Qed.

(** After [_create_agent] has answered for an agent id, the registry holds
    that id. *)
Lemma create_agent_answered p e request r p' :
  target_func request = "_create_agent" ->
  call_func p e request = (Reply r, p') ->
  agent_exists p' (agent_id request) = true.
Proof.
  intros Ht Hc. rewrite call_func_create in Hc by done.
  by apply create_agent_registry in Hc as [[_ Hex] | (x & Hx & _)].
Qed.

(** A call of a handler for an agent the registry holds is not aborted. *)
Lemma known_agent_is_served p e request code details :
  agent_exists p (agent_id request) = true ->
  mem (target_func request) handlers = true ->
  fst (call_func p e request) <> Abort code details.
Proof.
  intros Hex Hm. rewrite call_func_known_agent by done.
  by apply handler_never_aborts.
Qed.

Lemma call_func_unknown_agent p e request :
  mem (target_func request)
      ["_delete_agent"; "_clone_agent"; "_reply"; "_observe"] = true ->
  agent_exists p (agent_id request) = false ->
  call_func p e request
  = (Abort INVALID_ARGUMENT
       ("Agent [" +:+ agent_id request +:+ "] not exists."), p).
Proof.
  intros Hm Hex. unfold call_func.
  assert (mem (target_func request) handlers = true
          /\ mem (target_func request) ["_create_agent"; "_get"] = false)
    as [Hh Hng].
  { revert Hm. unfold mem, handlers. simpl.
    destruct (String.eqb_spec (target_func request) "_delete_agent") as [->|];
      [done|].
    destruct (String.eqb_spec (target_func request) "_clone_agent") as [->|];
      [done|].
    destruct (String.eqb_spec (target_func request) "_reply") as [->|];
      [done|].
    destruct (String.eqb_spec (target_func request) "_observe") as [->|];
      done. }
  by rewrite (hasattr_handler _ Hh), Hng, Hex.
Qed.

(** [_delete_agent] for an agent the registry holds removes that agent and
    nothing else: the other agents, the result pool, the submitted work and
    the task counter are as before.  A second [_delete_agent] for the same
    id is refused by the dispatcher, although the registry's own delete is
    a no-op for an id it does not hold. *)
Theorem delete_agent_forgets_one_agent p e request :
  target_func request = "_delete_agent" ->
  agent_exists p (agent_id request) = true ->
  exists p',
    call_func p e request = (Reply RpcMsg_empty, p')
    /\ agent_exists p' (agent_id request) = false
    /\ (forall id, id <> agent_id request ->
                   agent_pool p' !! id = agent_pool p !! id)
    /\ result_pool p' = result_pool p
    /\ executor p' = executor p
    /\ task_id_counter p' = task_id_counter p
    /\ check_and_delete_agent p' (agent_id request) = p'
    /\ forall e',
         call_func p' e' request
         = (Abort INVALID_ARGUMENT
              ("Agent [" +:+ agent_id request +:+ "] not exists."), p').
Proof.
  intros Ht Hex.
  rewrite call_func_known_agent; [| by rewrite Ht | done].
  rewrite Ht. cbn [getattr_call String.eqb Ascii.eqb Bool.eqb].
  unfold _delete_agent, check_and_delete_agent.
  unfold agent_exists in Hex.
  destruct (agent_pool p !! agent_id request) as [a|] eqn:Ha; [|done].
  eexists. split; [reflexivity|].
  assert (agent_exists
            (set_agent_pool p (delete (agent_id request) (agent_pool p)))
            (agent_id request) = false) as Hgone.
  { unfold agent_exists. cbn [agent_pool set_agent_pool].
    by rewrite lookup_delete_eq. }
  split; [exact Hgone|].
  split; [intros id Hid; cbn [agent_pool set_agent_pool];
          by rewrite lookup_delete_ne|].
  do 3 (split; [reflexivity|]).
  split.
  - cbn [agent_pool set_agent_pool]. by rewrite lookup_delete_eq.
  - intros e'. apply call_func_unknown_agent; [by rewrite Ht | exact Hgone].
Qed.

(** Creating an agent under an id the registry does not hold and deleting
    it again gives back the platform as it was. *)
Theorem create_then_delete_restores p e e' create delete r p1 :
  target_func create = "_create_agent" ->
  target_func delete = "_delete_agent" ->
  agent_id delete = agent_id create ->
  agent_exists p (agent_id create) = false ->
  call_func p e create = (Reply r, p1) ->
  call_func p1 e' delete = (Reply RpcMsg_empty, p).
Proof.
  intros Hc Hd Hid Hex Hcall.
  rewrite call_func_create in Hcall by done.
  unfold _create_agent, check_and_generate_agent in Hcall.
  unfold agent_exists in Hex.
  destruct (agent_pool p !! agent_id create) as [a|] eqn:Ha; [done|].
  assert (exists inst,
            p1 = set_agent_pool p
                   (<[agent_id create := inst]> (agent_pool p))) as [inst ->].
  { destruct (truthy (value create));
      [destruct (load_configs (value create)) as [c|x]|]; try done.
    destruct (construct e c) as [inst|x]; [|done].
    injection Hcall as _ <-. eauto. }
  rewrite call_func_known_agent; [| by rewrite Hd |].
  - rewrite Hd. cbn [getattr_call String.eqb Ascii.eqb Bool.eqb].
    unfold _delete_agent, check_and_delete_agent. rewrite Hid.
    cbn [agent_pool set_agent_pool]. rewrite lookup_insert_eq.
    f_equal. unfold set_agent_pool. cbn.
    rewrite delete_insert_eq, delete_id by done. by destruct p.
  - unfold agent_exists. rewrite Hid. cbn [agent_pool set_agent_pool].
    by rewrite lookup_insert_eq.
Qed.

(** An answered [_clone_agent] returns the id under which the new agent
    now stands in the registry; the new agent is what the class of the
    original yields on the original's recorded init settings; every agent
    known before is still known, and nothing else of the platform
    changes. *)
Theorem clone_registers_new_agent p e request r p' :
  target_func request = "_clone_agent" ->
  call_func p e request = (Reply r, p') ->
  exists ori new_agent,
    agent_pool p !! agent_id request = Some ori
    /\ instantiate (AgentBase.cls ori) (entropy e)
         (fst (AgentBase._init_settings ori))
         (snd (AgentBase._init_settings ori)) = Ok new_agent
    /\ value r = AgentBase.agent_id new_agent
    /\ agent_pool p' !! value r = Some new_agent
    /\ (forall id, agent_exists p id = true -> agent_exists p' id = true)
    /\ (forall id, id <> value r -> agent_pool p' !! id = agent_pool p !! id)
    /\ result_pool p' = result_pool p
    /\ executor p' = executor p
    /\ task_id_counter p' = task_id_counter p.
Proof.
  intros Ht Hcall.
  destruct (agent_exists p (agent_id request)) eqn:Hex.
  2:{ rewrite call_func_unknown_agent in Hcall; [done | by rewrite Ht | done]. }
  rewrite call_func_known_agent in Hcall; [| by rewrite Ht | done].
  rewrite Ht in Hcall. cbn [getattr_call String.eqb Ascii.eqb Bool.eqb] in Hcall.
  unfold _clone_agent in Hcall.
  destruct (agent_pool p !! agent_id request) as [ori|] eqn:Ha; [|done].
  destruct (instantiate _ _ _ _) as [new_agent|x] eqn:Hi; [|done].
  injection Hcall as <- <-. exists ori, new_agent.
  cbn [value RpcMsg_value agent_pool set_agent_pool result_pool executor
       task_id_counter].
  repeat split; try done.
  - apply lookup_insert_eq.
  - intros id. unfold agent_exists. cbn [agent_pool set_agent_pool].
    destruct (decide (AgentBase.agent_id new_agent = id)) as [->|Hne].
    + by rewrite lookup_insert_eq.
    + by rewrite lookup_insert_ne.
  - intros id Hne. by rewrite lookup_insert_ne.
Qed.

(** A [_clone_agent] that ends in an exception has left the platform as it
    was, and the exception is the one the agent's constructor raised: the
    handler's own [ValueError] for an unknown agent cannot occur behind the
    dispatcher. *)
Theorem clone_failure_is_the_constructors p e request x p' :
  target_func request = "_clone_agent" ->
  call_func p e request = (Raised x, p') ->
  p' = p
  /\ exists ori,
       agent_pool p !! agent_id request = Some ori
       /\ instantiate (AgentBase.cls ori) (entropy e)
            (fst (AgentBase._init_settings ori))
            (snd (AgentBase._init_settings ori)) = Raise x.
Proof.
  intros Ht Hcall.
  destruct (agent_exists p (agent_id request)) eqn:Hex.
  2:{ rewrite call_func_unknown_agent in Hcall; [done | by rewrite Ht | done]. }
  rewrite call_func_known_agent in Hcall; [| by rewrite Ht | done].
  rewrite Ht in Hcall. cbn [getattr_call String.eqb Ascii.eqb Bool.eqb] in Hcall.
  unfold _clone_agent in Hcall. unfold agent_exists in Hex.
  destruct (agent_pool p !! agent_id request) as [ori|] eqn:Ha; [|done].
  destruct (instantiate _ _ _ _) as [new_agent|y] eqn:Hi; [done|].
  injection Hcall as <- <-. split; [done|]. by exists ori.
Qed.

End LifecycleFacts.

(** ** Observing *)

Section ObserveFacts.
Context {S : Type} `{!Codec} `{!Runtime S}.
Implicit Types (p : AgentPlatform S) (e : Env) (request : RpcMsg).

(** Resolving keeps the length and the concrete messages of a sequence,
    leaves no placeholder behind, and puts in the place of each
    placeholder the value fetched for it. *)
Lemma resolve_all_concrete ms rs :
  resolve_all ms = Ok rs ->
  length rs = length ms
  /\ Forall (fun m => exists c, m = Concrete c) rs
  /\ (forall i c, ms !! i = Some (Concrete c) -> rs !! i = Some (Concrete c))
  /\ (forall i ph, ms !! i = Some (Deferred ph) ->
                   exists m, update_value ph = Ok m
                             /\ rs !! i = Some (Concrete m)).
Proof.
  revert rs. induction ms as [|[c|ph] ms IH]; intros rs Hr; simpl in Hr.
  - injection Hr as <-. repeat split; [constructor | done | done].
  - destruct (resolve_all ms) as [rs'|]; [|done]. injection Hr as <-.
    destruct (IH rs' eq_refl) as (Hl & Hf & Hk & Hph).
    repeat split; [simpl; by rewrite Hl | constructor; eauto | |].
    + intros [|i] c'; simpl; [done | apply Hk].
    + intros [|i] ph'; simpl; [done | apply Hph].
  - destruct (update_value ph) as [m|] eqn:Hm; [|done].
    destruct (resolve_all ms) as [rs'|]; [|done]. injection Hr as <-.
    destruct (IH rs' eq_refl) as (Hl & Hf & Hk & Hph).
    repeat split; [simpl; by rewrite Hl | constructor; eauto | |].
    + intros [|i] c'; simpl; [done | apply Hk].
    + intros [|i] ph'; simpl; [|apply Hph].
      intros [= <-]. by exists m.
Qed.

(** Resolving fails with the exception of the first placeholder whose
    value cannot be fetched; the placeholders before it have been
    resolved. *)
Lemma resolve_all_raises ms x :
  resolve_all ms = Raise x ->
  exists i ph,
    ms !! i = Some (Deferred ph)
    /\ update_value ph = Raise x
    /\ forall j ph', (j < i)%nat -> ms !! j = Some (Deferred ph') ->
                     exists m, update_value ph' = Ok m.
Proof.
  induction ms as [|[c|ph] ms IH]; intros Hr; simpl in Hr; [done| |].
  - destruct (resolve_all ms) as [rs'|y]; [done|]. injection Hr as ->.
    destruct (IH eq_refl) as (i & ph & Hi & Hx & Hbefore).
    exists (Datatypes.S i), ph. repeat split; [done | done |].
    intros [|j] ph' Hj; simpl; [done|]. apply Hbefore. lia.
  - destruct (update_value ph) as [m|y] eqn:Hm.
    + destruct (resolve_all ms) as [rs'|z]; [done|]. injection Hr as ->.
      destruct (IH eq_refl) as (i & ph0 & Hi & Hx & Hbefore).
      exists (Datatypes.S i), ph0. repeat split; [done | done |].
      intros [|j] ph' Hj; simpl.
      * intros [= <-]. by exists m.
      * apply Hbefore. lia.
    + injection Hr as ->. exists 0%nat, ph. repeat split; [done|].
      intros j ph' Hj. lia.
Qed.

(** Whatever [_observe] answers, it leaves the result pool, the submitted
    work, the task counter and every other agent as they were, and it
    neither adds an agent nor removes one. *)
Theorem observe_touches_one_agent p e request r p' :
  target_func request = "_observe" ->
  call_func p e request = (r, p') ->
  result_pool p' = result_pool p
  /\ executor p' = executor p
  /\ task_id_counter p' = task_id_counter p
  /\ (forall id, id <> agent_id request ->
                 agent_pool p' !! id = agent_pool p !! id)
  /\ (forall id, agent_exists p' id = agent_exists p id).
Proof.
  intros Ht Hcall.
  destruct (agent_exists p (agent_id request)) eqn:Hex.
  2:{ rewrite call_func_unknown_agent in Hcall; [| by rewrite Ht | done].
      by injection Hcall as <- <-. }
  rewrite call_func_known_agent in Hcall; [| by rewrite Ht | done].
  rewrite Ht in Hcall. cbn [getattr_call String.eqb Ascii.eqb Bool.eqb] in Hcall.
  unfold _observe in Hcall. unfold agent_exists in Hex.
  destruct (agent_pool p !! agent_id request) as [a|] eqn:Ha; [|done].
  assert (forall a' : AgentBase.t S,
            let q := set_agent_pool p
                       (<[agent_id request := a']> (agent_pool p)) in
            result_pool q = result_pool p
            /\ executor q = executor p
            /\ task_id_counter q = task_id_counter p
            /\ (forall id, id <> agent_id request ->
                           agent_pool q !! id = agent_pool p !! id)
            /\ (forall id, agent_exists q id = agent_exists p id)) as Hframe.
  { intros a' q. repeat split; try done.
    - intros id Hne. unfold q. cbn [agent_pool set_agent_pool].
      by rewrite lookup_insert_ne.
    - intros id. unfold q, agent_exists. cbn [agent_pool set_agent_pool].
      destruct (decide (agent_id request = id)) as [<-|Hne].
      + by rewrite lookup_insert_eq, Ha.
      + by rewrite lookup_insert_ne. }
  destruct (deserialize (value request)) as [[m|ms]|];
    [| | by injection Hcall as <- <-].
  - destruct (agent_observe a (DOne m)) as [[[]|x] a'];
      injection Hcall as <- <-; apply Hframe.
  - destruct (resolve_all ms) as [rs|]; [|by injection Hcall as <- <-].
    destruct (agent_observe a (DMany rs)) as [[[]|x] a'];
      injection Hcall as <- <-; apply Hframe.
Qed.

(** When [_observe] is given a sequence, the agent's [observe] sees the
    sequence with every placeholder replaced by the value fetched for it
    and every other message in place; when a placeholder cannot be
    resolved, [observe] is not called at all, the call fails with the
    exception of the first such placeholder, and the platform stays as it
    was. *)
Theorem observe_delivers_resolved_sequence p e request ms a :
  target_func request = "_observe" ->
  deserialize (value request) = Ok (DMany ms) ->
  agent_pool p !! agent_id request = Some a ->
  (forall x, resolve_all ms = Raise x ->
             call_func p e request = (Raised x, p)
             /\ exists i ph,
                  ms !! i = Some (Deferred ph)
                  /\ update_value ph = Raise x
                  /\ forall j ph', (j < i)%nat ->
                                   ms !! j = Some (Deferred ph') ->
                                   exists m, update_value ph' = Ok m)
  /\ (forall rs, resolve_all ms = Ok rs ->
        length rs = length ms
        /\ Forall (fun m => exists c, m = Concrete c) rs
        /\ (forall i c, ms !! i = Some (Concrete c) ->
                        rs !! i = Some (Concrete c))
        /\ (forall i ph, ms !! i = Some (Deferred ph) ->
                         exists m, update_value ph = Ok m
                                   /\ rs !! i = Some (Concrete m))
        /\ fst (call_func p e request)
           = match fst (agent_observe a (DMany rs)) with
             | Ok _ => Reply RpcMsg_empty
             | Raise x => Raised x
             end
        /\ agent_pool (snd (call_func p e request)) !! agent_id request
           = Some (snd (agent_observe a (DMany rs)))).
Proof.
  intros Ht Hd Ha.
  assert (call_func p e request = _observe p request) as ->.
  { rewrite call_func_known_agent; [| by rewrite Ht |].
    - by rewrite Ht.
    - unfold agent_exists. by rewrite Ha. }
  unfold _observe. rewrite Hd. split.
  - intros x Hx. split; [by rewrite Hx | by apply resolve_all_raises].
  - intros rs Hr. rewrite Hr, Ha.
    destruct (resolve_all_concrete ms rs Hr) as (Hl & Hf & Hk & Hph).
    do 4 (split; [done|]).
    destruct (agent_observe a (DMany rs)) as [[[]|x] a']; simpl;
      by rewrite lookup_insert_eq.
Qed.

End ObserveFacts.

(** ** Submitted work *)

Section WorkFacts.
Context {S : Type} `{!Codec} `{!Runtime S}.
Implicit Types (p : AgentPlatform S) (e : Env) (request : RpcMsg).

(** Work for an agent that has left the registry since the task was
    submitted, the task's entry still pending, does not fail the worker:
    the missing agent is caught like a failing reply, and an ERROR message
    that quotes the [KeyError] is stored under the task id. *)
Theorem work_for_deleted_agent_stores_error
    p t0 t1 task_id agent_id task_msg input :
  update_input task_msg = Ok input ->
  fst (ExpiringDict.getitem (result_pool p) t0 task_id) = Some Pending ->
  agent_pool p !! agent_id = None ->
  exists p',
    process_messages p t0 t1 (task_id, agent_id, task_msg) = (Ok tt, p')
    /\ ExpiringDict.find task_id (ExpiringDict.items (result_pool p'))
       = Some (Done (error_result agent_id (mkExc KeyError agent_id)), t1)
    /\ agent_pool p' = agent_pool p
    /\ task_id_counter p' = task_id_counter p.
Proof.
  intros Hu Hg Ha. unfold process_messages. rewrite Hu.
  destruct (ExpiringDict.getitem (result_pool p) t0 task_id) as [o d] eqn:Hd.
  simpl in Hg. subst o. apply getitem_Some_pool in Hd as ->.
  cbn [agent_pool set_result_pool]. rewrite Ha.
  eexists. split; [reflexivity|].
  cbn [result_pool set_result_pool agent_pool task_id_counter].
  split; [apply find_setitem | done].
Qed.


(** A result is not used up by fetching it: a [_get] for a finished task
    that has not expired answers at the first poll, leaves the platform as
    it was, and so does the same [_get] issued again. *)
Theorem finished_task_can_be_fetched_again p e e' request k m t0 :
  target_func request = "_get" ->
  json_task_id (value request) = Ok k ->
  ExpiringDict.find k (ExpiringDict.items (result_pool p))
  = Some (Done m, t0) ->
  now e - t0 < ExpiringDict.max_age_seconds (result_pool p) ->
  now e' - t0 < ExpiringDict.max_age_seconds (result_pool p) ->
  patience e <> 0%nat -> patience e' <> 0%nat ->
  fst (run p [Call e request; Call e' request])
  = [Called request (Reply (RpcMsg_value (serialize m)));
     Called request (Reply (RpcMsg_value (serialize m)))]
  /\ snd (run p [Call e request; Call e' request]) = p.
Proof.
  intros Ht Hj Hf Hage Hage' Hpat Hpat'. cbn [run step].
  rewrite call_func_get by done.
  rewrite (get_done p e request k m t0) by done.
  rewrite call_func_get by done.
  by rewrite (get_done p e' request k m t0) by done.
Qed.

(** Waiting for a task that no worker finishes.  As long as every poll
    falls within the life of the pending entry, [_get] keeps waiting and
    changes nothing; the first poll at which the entry is as old as the
    maximal age finds it gone and the call ends with the
    [AttributeError]. *)
Lemma get_loop_unfinished n p t k t0 :
  ExpiringDict.find k (ExpiringDict.items (result_pool p))
  = Some (Pending, t0) ->
  (Z.of_nat n <= t0 + ExpiringDict.max_age_seconds (result_pool p) - t ->
   _get_loop n p t k = (Blocked, p))
  /\ (n <> 0%nat ->
      t0 + ExpiringDict.max_age_seconds (result_pool p) - t < Z.of_nat n ->
      fst (_get_loop n p t k)
      = Raised (mkExc AttributeError
                  "'NoneType' object has no attribute 'serialize'")).
Proof.
  intros Hf. revert t. induction n as [|n IH]; intros t.
  { split; done. }
  cbn [_get_loop]. unfold _get_poll, ExpiringDict.get, ExpiringDict.getitem.
  rewrite Hf.
  destruct (Z.ltb_spec (t - t0) (ExpiringDict.max_age_seconds (result_pool p)))
    as [Hyoung|Hold].
  - assert (set_result_pool p (result_pool p) = p) as -> by by destruct p.
    destruct (IH (t + 1)) as [IH1 IH2].
    split; [intros Hn; apply IH1; lia | intros _ Hn].
    destruct n as [|n]; [lia|]. apply IH2; [done | lia].
  - split; [lia | done].
Qed.

(** A [_get] for a pending task whose entry was stored at [t0] keeps
    waiting as long as every poll falls before [t0] plus the maximal age,
    and ends with the [AttributeError] at the first poll that does not. *)
Theorem get_of_unfinished_task p e request k t0 :
  target_func request = "_get" ->
  json_task_id (value request) = Ok k ->
  ExpiringDict.find k (ExpiringDict.items (result_pool p))
  = Some (Pending, t0) ->
  (Z.of_nat (patience e)
   <= t0 + ExpiringDict.max_age_seconds (result_pool p) - now e ->
   call_func p e request = (Blocked, p))
  /\ (patience e <> 0%nat ->
      t0 + ExpiringDict.max_age_seconds (result_pool p) - now e
      < Z.of_nat (patience e) ->
      fst (call_func p e request)
      = Raised (mkExc AttributeError
                  "'NoneType' object has no attribute 'serialize'")).
Proof.
  intros Ht Hj Hf. rewrite call_func_get by done. unfold _get. rewrite Hj.
  by apply get_loop_unfinished.
Qed.

(** When the input of a task is a placeholder that cannot be resolved, the
    exception leaves the worker before the agent is asked: nothing is
    stored and the platform is as it was.  The pending entry stays, so a
    [_get] for the task keeps waiting while the entry lives and ends with
    the [AttributeError] when it has expired; no ERROR message is ever
    served for such a task. *)
Theorem unresolvable_input_strands_the_task
    p t0 t1 task_id agent_id ph x ts e request :
  update_value ph = Raise x ->
  ExpiringDict.find task_id (ExpiringDict.items (result_pool p))
  = Some (Pending, ts) ->
  target_func request = "_get" ->
  json_task_id (value request) = Ok task_id ->
  process_messages p t0 t1 (task_id, agent_id, Some (DOne (Deferred ph)))
  = (Raise x, p)
  /\ (Z.of_nat (patience e)
      <= ts + ExpiringDict.max_age_seconds (result_pool p) - now e ->
      call_func p e request = (Blocked, p))
  /\ (patience e <> 0%nat ->
      ts + ExpiringDict.max_age_seconds (result_pool p) - now e
      < Z.of_nat (patience e) ->
      fst (call_func p e request)
      = Raised (mkExc AttributeError
                  "'NoneType' object has no attribute 'serialize'")).
Proof.
  intros Hx Hf Ht Hj. split.
  { unfold process_messages, update_input. by rewrite Hx. }
  rewrite call_func_get by done. unfold _get. rewrite Hj.
  by apply get_loop_unfinished.
Qed.

End WorkFacts.

(** * Properties of the utilities *)

(** ** Joining with "and" *)

Lemma append_cons c s t : String c s +:+ t = String c (s +:+ t).
Proof. reflexivity. Qed.

Lemma append_empty_r s : s +:+ EmptyString = s.
Proof.
  induction s as [|c s IH]; [reflexivity|]. rewrite append_cons. by f_equal.
Qed.

Lemma join_cons sep x y l :
  Tools.join sep (x :: y :: l) = x +:+ sep +:+ Tools.join sep (y :: l).
Proof. reflexivity. Qed.

(** Joining a list that ends in [x] is joining the rest and then [x]. *)
Lemma join_snoc sep l x :
  l <> [] -> Tools.join sep (l ++ [x]) = Tools.join sep l +:+ sep +:+ x.
Proof.
  induction l as [|a [|b l] IH]; intros Hne; [done | reflexivity |].
  change ((a :: b :: l) ++ [x])%list with (a :: b :: (l ++ [x]))%list.
  rewrite !join_cons.
  change (b :: (l ++ [x]))%list with ((b :: l) ++ [x])%list.
  rewrite IH by done. by rewrite !string_app_assoc.
Qed.

(** For three elements or more, the result is the comma-separated list in
    which the last element is preceded by ["and "]. *)
Theorem join_with_and_is_comma_list (elements : list string) :
  (3 <= length elements)%nat ->
  Tools._join_str_with_comma_and elements
  = Tools.join ", "
      (removelast elements ++ ["and " +:+ List.last elements EmptyString]).
Proof.
  intros Hlen. unfold Tools._join_str_with_comma_and.
  destruct elements as [|a [|b [|c l]]]; simpl in Hlen; try lia.
  cbn [length]. rewrite join_snoc by done. reflexivity.
Qed.

(** For two elements or more, the result begins with the first element
    and ends with [" and "] followed by the last. *)
Theorem join_with_and_keeps_ends (first : string) (rest : list string) :
  rest <> [] ->
  exists middle,
    Tools._join_str_with_comma_and (first :: rest)
    = first +:+ middle +:+ " and " +:+ List.last rest EmptyString.
Proof.
  intros Hne. unfold Tools._join_str_with_comma_and.
  destruct rest as [|b [|c l]]; [done | |].
  - exists EmptyString. reflexivity.
  - cbn [length].
    assert (forall (x : string) (l0 : list string),
              l0 <> [] ->
              exists m, Tools.join ", " (removelast (x :: l0)) = x +:+ m)
      as Hhead.
    { intros x [|y [|z l0]] H0; [done | |].
      - exists EmptyString. simpl. by rewrite append_empty_r.
      - exists (", " +:+ Tools.join ", " (removelast (y :: z :: l0))).
        change (removelast (x :: y :: z :: l0))
          with (x :: removelast (y :: z :: l0)).
        destruct (removelast (y :: z :: l0)) eqn:Hr; [done|].
        by rewrite join_cons. }
    destruct (Hhead first (b :: c :: l) ltac:(done)) as [m Hm].
    rewrite Hm. exists (m +:+ ",").
    rewrite !string_app_assoc. reflexivity.
Qed.

Lemma join_with_and_is_comma_list_witness :
  Tools._join_str_with_comma_and ["ham"; "eggs"; "tea"]
  = Tools.join ", " ["ham"; "eggs"; "and tea"].
Proof.
  apply (join_with_and_is_comma_list ["ham"; "eggs"; "tea"]). simpl. lia.
Defined.

Lemma join_with_and_keeps_ends_witness :
  exists middle,
    Tools._join_str_with_comma_and ["ham"; "eggs"]
    = "ham" +:+ middle +:+ " and " +:+ "eggs".
Proof. apply (join_with_and_keeps_ends "ham" ["eggs"]). discriminate. Defined.

(** ** Guessing a file type *)

Lemma split_nonempty sep s : Tools.split sep s <> [].
Proof.
  destruct s as [|c s]; simpl; [done|].
  destruct (Ascii.eqb c sep); [done|].
  by destruct (Tools.split sep s).
Qed.

Lemma last_cons_nonempty {A} (x : A) l d :
  l <> [] -> List.last (x :: l) d = List.last l d.
Proof. by destruct l. Qed.

(** The last piece of a text is the last piece of what follows one of its
    separators. *)
Lemma last_split_after sep stem ext :
  List.last (Tools.split sep (stem +:+ String sep ext)) EmptyString
  = List.last (Tools.split sep ext) EmptyString.
Proof.
  induction stem as [|c stem IH].
  - change (EmptyString +:+ String sep ext) with (String sep ext).
    cbn [Tools.split]. rewrite Ascii.eqb_refl.
    apply last_cons_nonempty, split_nonempty.
  - rewrite append_cons. cbn [Tools.split].
    destruct (Ascii.eqb c sep).
    + rewrite last_cons_nonempty by apply split_nonempty. exact IH.
    + destruct (Tools.split sep (stem +:+ String sep ext)) as [|seg segs] eqn:Hs.
      { by apply split_nonempty in Hs. }
      destruct segs as [|seg' segs].
      * exfalso. clear IH. revert seg Hs.
        induction stem as [|c' stem IHs]; intros seg Hs.
        -- change (EmptyString +:+ String sep ext) with (String sep ext) in Hs.
           cbn [Tools.split] in Hs. rewrite Ascii.eqb_refl in Hs.
           injection Hs as _ Hs. by apply split_nonempty in Hs.
        -- rewrite append_cons in Hs. cbn [Tools.split] in Hs.
           destruct (Ascii.eqb c' sep).
           ++ injection Hs as _ Hs. by apply split_nonempty in Hs.
           ++ destruct (Tools.split sep (stem +:+ String sep ext))
                as [|s1 [|s2 ss]] eqn:Hs';
                [by apply split_nonempty in Hs' | | done].
              by apply (IHs s1).
      * rewrite <- IH. reflexivity.
Qed.

(** Only what follows the last full stop decides: a text and its part
    after any full stop are guessed alike. *)
Theorem guess_type_reads_the_extension_only (stem ext : string) :
  Tools._guess_type_by_extension (stem +:+ "." +:+ ext)
  = Tools._guess_type_by_extension ext.
Proof.
  unfold Tools._guess_type_by_extension.
  change ("." +:+ ext) with (String Tools.dot ext).
  by rewrite last_split_after.
Qed.

Lemma lower_char_idempotent c :
  Tools.lower_char (Tools.lower_char c) = Tools.lower_char c.
Proof. destruct c as [[] [] [] [] [] [] [] []]; reflexivity. Qed.

Lemma lower_char_dot c :
  Ascii.eqb (Tools.lower_char c) Tools.dot = Ascii.eqb c Tools.dot.
Proof. destruct c as [[] [] [] [] [] [] [] []]; reflexivity. Qed.

Lemma lower_idempotent s : Tools.lower (Tools.lower s) = Tools.lower s.
Proof.
  induction s as [|c s IH]; [done|]. simpl.
  by rewrite lower_char_idempotent, IH.
Qed.

(** Lowering the case commutes with cutting at the full stops. *)
Lemma split_lower s :
  Tools.split Tools.dot (Tools.lower s)
  = map Tools.lower (Tools.split Tools.dot s).
Proof.
  induction s as [|c s IH]; [done|].
  cbn [Tools.lower Tools.split]. rewrite lower_char_dot, IH.
  destruct (Ascii.eqb c Tools.dot); [done|].
  by destruct (Tools.split Tools.dot s).
Qed.

Lemma last_map_lower l :
  l <> [] ->
  List.last (map Tools.lower l) EmptyString
  = Tools.lower (List.last l EmptyString).
Proof.
  induction l as [|x [|y l] IH]; intros Hne; [done | done |].
  change (map Tools.lower (x :: y :: l))
    with (Tools.lower x :: map Tools.lower (y :: l)).
  rewrite !last_cons_nonempty by done. by apply IH.
Qed.

(** The case of the letters does not matter: a text is guessed like its
    lower-case form. *)
Theorem guess_type_ignores_case (url : string) :
  Tools._guess_type_by_extension (Tools.lower url)
  = Tools._guess_type_by_extension url.
Proof.
  unfold Tools._guess_type_by_extension.
  rewrite split_lower, last_map_lower by apply split_nonempty.
  by rewrite lower_idempotent.
Qed.

Example guess_type_examples :
  Tools._guess_type_by_extension "shots/cat.v2.PNG" = "image"
  /\ Tools._guess_type_by_extension "talk.Mp3" = "audio"
  /\ Tools._guess_type_by_extension "clip.mkv" = "video"
  /\ Tools._guess_type_by_extension "anim.gif" = "file"
  /\ Tools._guess_type_by_extension "README" = "file".
Proof. repeat split; reflexivity. Qed.

(** ** Random codes *)

Lemma get_below n s :
  (n < String.length s)%nat -> exists c, String.get n s = Some c.
Proof.
  revert n. induction s as [|a s IH]; intros n Hn; simpl in Hn; [lia|].
  destruct n as [|n]; simpl; [eauto|]. apply IH. lia.
Qed.

Lemma choice_of_nonempty characters r :
  characters <> EmptyString ->
  exists c j, Tools.choice characters r = Ok c
              /\ String.get j characters = Some c.
Proof.
  intros Hne. unfold Tools.choice.
  destruct (get_below (r mod String.length characters) characters)
    as [c Hc].
  { apply Nat.mod_upper_bound. by destruct characters. }
  rewrite Hc. eauto.
Qed.

Lemma draws_of_nonempty characters rand i k :
  characters <> EmptyString ->
  exists s,
    Tools.draws characters rand i k = Ok s
    /\ String.length s = k
    /\ forall n c, String.get n s = Some c ->
                   exists j, String.get j characters = Some c.
Proof.
  intros Hne. revert i. induction k as [|k IH]; intros i.
  - exists EmptyString. repeat split. intros n c. by destruct n.
  - cbn [Tools.draws].
    destruct (choice_of_nonempty characters (rand i) Hne) as (c & j & -> & Hj).
    destruct (IH (Datatypes.S i)) as (s & -> & Hlen & Hin).
    exists (String c s). repeat split; [simpl; by rewrite Hlen|].
    intros [|n] c'; simpl; [intros [= <-]; eauto | apply Hin].
Qed.

(** With at least one class of characters switched on, a code is always
    produced; it has [length] characters (none when [length] is not
    positive), and each of them belongs to the selected classes. *)
Theorem random_code_has_length_and_alphabet
    (rand : nat -> nat) (length : Z) (uppercase lowercase digits : bool) :
  uppercase || lowercase || digits = true ->
  exists code,
    Tools._generate_random_code rand length uppercase lowercase digits
    = Ok code
    /\ String.length code = Z.to_nat length
    /\ forall n c,
         String.get n code = Some c ->
         exists j,
           String.get j (Tools.characters_of uppercase lowercase digits)
           = Some c.
Proof.
  intros Hflags. apply draws_of_nonempty.
  destruct uppercase, lowercase, digits; done.
Qed.

(** With every class switched off there is nothing to choose from: asking
    for at least one character fails, and asking for none gives the empty
    code. *)
Theorem random_code_without_alphabet (rand : nat -> nat) (length : Z) :
  Tools._generate_random_code rand length false false false
  = if 0 <? length
    then Raise (mkExc OtherException
                  "IndexError: Cannot choose from an empty sequence")
    else Ok EmptyString.
Proof.
  unfold Tools._generate_random_code.
  destruct (Z.ltb_spec 0 length) as [Hpos|Hneg].
  - destruct (Z.to_nat length) as [|k] eqn:Hk; [lia|]. reflexivity.
  - replace (Z.to_nat length) with 0%nat by lia. reflexivity.
Qed.

Lemma random_code_has_length_and_alphabet_witness :
  exists code,
    Tools._generate_random_code (fun i => (7 * i + 3)%nat) 6 false false true
    = Ok code
    /\ String.length code = 6%nat.
Proof.
  destruct (random_code_has_length_and_alphabet
              (fun i => (7 * i + 3)%nat) 6 false false true eq_refl)
    as (code & Hc & Hl & _).
  exists code. split; [exact Hc | exact Hl].
Defined.

(** ** Downloading *)

Lemma download_loop_spec (get : nat -> Tools.Response) i k warned :
  let r := Tools.download_loop get i k warned in
  (Tools.downloaded r = true ->
   exists n, (n < k)%nat
     /\ Tools.status_code (get (i + n)%nat) = 200
     /\ (forall j, (j < n)%nat -> Tools.status_code (get (i + j)%nat) <> 200)
     /\ Tools.written r = Some (Tools.iter_content (get (i + n)%nat))
     /\ Tools.warnings r
        = (warned
             ++ map (fun j => (Tools.status_code (get (i + j)%nat),
                               Datatypes.S (i + j)))
                    (seq 0 n))%list)
  /\ (Tools.downloaded r = false ->
      (forall j, (j < k)%nat -> Tools.status_code (get (i + j)%nat) <> 200)
      /\ Tools.written r = None
      /\ Tools.warnings r
         = (warned
              ++ map (fun j => (Tools.status_code (get (i + j)%nat),
                                Datatypes.S (i + j)))
                     (seq 0 k))%list).
Proof.
  revert i warned. induction k as [|k IH]; intros i warned r.
  { subst r. simpl. split; [done|]. intros _.
    split; [lia|]. by rewrite app_nil_r. }
  subst r. cbn [Tools.download_loop].
  destruct (Z.eqb_spec (Tools.status_code (get i)) 200) as [Hok|Hbad].
  - cbn. split; [|done]. intros _. exists 0%nat.
    rewrite Nat.add_0_r. repeat split; [lia | done | lia |].
    by rewrite app_nil_r.
  - specialize (IH (Datatypes.S i)
                  (warned ++ [(Tools.status_code (get i), Datatypes.S i)])%list).
    cbv zeta in IH. destruct IH as [IHt IHf].
    assert (forall m,
              (warned ++ [(Tools.status_code (get i), Datatypes.S i)])
              ++ map (fun j => (Tools.status_code (get (Datatypes.S i + j)%nat),
                                Datatypes.S (Datatypes.S i + j)))
                     (seq 0 m)
              = warned
                ++ map (fun j => (Tools.status_code (get (i + j)%nat),
                                  Datatypes.S (i + j)))
                       (seq 0 (Datatypes.S m)))%list as Hshift.
    { intros m. rewrite <- app_assoc. f_equal. cbn [seq map app].
      rewrite Nat.add_0_r. f_equal. rewrite <- seq_shift, map_map.
      apply map_ext. intros j. by rewrite Nat.add_succ_r. }
    split.
    + intros Ht. destruct (IHt Ht) as (n & Hn & Hok & Hbefore & Hw & Hwarn).
      exists (Datatypes.S n). rewrite Nat.add_succ_r.
      repeat split; [lia | done | | done | by rewrite Hwarn, Hshift].
      intros [|j] Hj; [by rewrite Nat.add_0_r|].
      rewrite Nat.add_succ_r. apply Hbefore. lia.
    + intros Hf. destruct (IHf Hf) as (Hall & Hw & Hwarn).
      repeat split; [| done | by rewrite Hwarn, Hshift].
      intros [|j] Hj; [by rewrite Nat.add_0_r|].
      rewrite Nat.add_succ_r. apply Hall. lia.
Qed.

(** The download succeeds exactly when one of the first [max_retries]
    answers has status 200: the file then holds the chunks of the first
    such answer, and a warning was logged for each answer before it.
    Otherwise nothing is written and there is one warning per request. *)
Theorem download_file_result (get : nat -> Tools.Response) (max_retries : Z) :
  let r := Tools._download_file get max_retries in
  let warning := fun j => (Tools.status_code (get j), Datatypes.S j) in
  (Tools.downloaded r = true ->
   exists n, (n < Z.to_nat max_retries)%nat
     /\ Tools.status_code (get n) = 200
     /\ (forall j, (j < n)%nat -> Tools.status_code (get j) <> 200)
     /\ Tools.written r = Some (Tools.iter_content (get n))
     /\ Tools.warnings r = map warning (seq 0 n))
  /\ (Tools.downloaded r = false ->
      (forall j, (j < Z.to_nat max_retries)%nat ->
                 Tools.status_code (get j) <> 200)
      /\ Tools.written r = None
      /\ Tools.warnings r = map warning (seq 0 (Z.to_nat max_retries))).
Proof.
  intros r warning.
  exact (download_loop_spec get 0 (Z.to_nat max_retries) []).
Qed.

Lemma download_file_result_witness :
  exists n,
    (n < 3)%nat
    /\ Tools.written (Tools._download_file Lab.flaky 3)
       = Some (Tools.iter_content (Lab.flaky n)).
Proof.
  destruct (download_file_result Lab.flaky 3) as [Hyes _].
  destruct (Hyes eq_refl) as (n & Hn & _ & _ & Hw & _).
  exists n. split; [exact Hn | exact Hw].
Defined.

(** ** Messages as dictionaries *)

Section DictionaryFacts.
Context `{!Tools.PyText}.
Implicit Types (item : gmap string Tools.PyVal).

(** What has been converted once is a string, and converting a string
    changes nothing. *)
Lemma convert_to_str_twice content s :
  Tools._convert_to_str content = Ok s ->
  Tools._convert_to_str (Tools.PStr s) = Ok s.
Proof. reflexivity. Qed.

(** A dictionary that [to_openai_dict] has produced is left as it is by a
    second pass; it has a role, its content, if any, is a string, and it
    has no keys besides [name], [role] and [content]. *)
Theorem to_openai_dict_is_idempotent item clean logged :
  Tools.to_openai_dict item = (Ok clean, logged) ->
  fst (Tools.to_openai_dict clean) = Ok clean
  /\ is_Some (clean !! "role")
  /\ (forall v, clean !! "content" = Some v -> exists s, v = Tools.PStr s)
  /\ (forall key, is_Some (clean !! key) ->
                  key = "name" \/ key = "role" \/ key = "content")
  /\ clean !! "name" = item !! "name"
  /\ (is_Some (item !! "content") <-> is_Some (clean !! "content")).
Proof.
  unfold Tools.to_openai_dict at 1. intros Hc.
  set (named := match item !! "name" with
                | Some v => <["name" := v]> (∅ : gmap string Tools.PyVal)
                | None => ∅
                end) in Hc.
  set (roled := match item !! "role" with
                | Some v => <["role" := v]> named
                | None => <["role" := Tools.PStr "assistant"]> named
                end) in Hc.
  assert (named !! "name" = item !! "name"
          /\ named !! "role" = None /\ named !! "content" = None
          /\ forall key, is_Some (named !! key) -> key = "name")
    as (Hnn & Hnr & Hnc & Hnk).
  { unfold named. destruct (item !! "name") as [v|].
    - repeat split; try done.
      intros key. destruct (decide ("name" = key)) as [<-|Hne]; [done|].
      rewrite lookup_insert_ne by done. by intros [? ?].
    - repeat split. intros key [? ?]. done. }
  assert (exists role,
            roled = <["role" := role]> named
            /\ role = default (Tools.PStr "assistant") (item !! "role"))
    as (role & Hroled & Hrole).
  { unfold roled. destruct (item !! "role") as [v|]; eauto. }
  clearbody roled named. subst roled.
  assert (forall c : gmap string Tools.PyVal,
            c !! "name" = item !! "name" ->
            c !! "role" = Some role ->
            fst (Tools.to_openai_dict c)
            = match c !! "content" with
              | Some v =>
                  match Tools._convert_to_str v with
                  | Ok s =>
                      Ok (<["content" := Tools.PStr s]>
                            (<["role" := role]> named))
                  | Raise x => Raise x
                  end
              | None => Ok (<["role" := role]> named)
              end) as Hagain.
  { intros c Hcn Hcr. unfold Tools.to_openai_dict. rewrite Hcn, Hcr.
    assert (match item !! "name" with
            | Some v => <["name" := v]> (∅ : gmap string Tools.PyVal)
            | None => ∅
            end = named) as ->.
    { apply map_eq. intros key.
      destruct (decide (key = "name")) as [->|Hne].
      - rewrite Hnn. destruct (item !! "name"); [|done].
        by rewrite lookup_insert_eq.
      - transitivity (@None Tools.PyVal).
        + destruct (item !! "name"); [by rewrite lookup_insert_ne|done].
        + symmetry. destruct (named !! key) eqn:Hk; [|done].
          exfalso. apply Hne, Hnk. by rewrite Hk. }
    destruct (c !! "content") as [v|]; [|done].
    by destruct (Tools._convert_to_str v). }
  destruct (item !! "content") as [c|] eqn:Hcontent.
  - destruct (Tools._convert_to_str c) as [s|x] eqn:Hs; [|done].
    injection Hc as <- <-.
    split.
    { rewrite Hagain.
      - by rewrite lookup_insert_eq.
      - by rewrite !lookup_insert_ne.
      - rewrite lookup_insert_ne by done. by rewrite lookup_insert_eq. }
    split. { rewrite lookup_insert_ne by done. by rewrite lookup_insert_eq. }
    split. { rewrite lookup_insert_eq. intros v [= <-]. eauto. }
    split.
    { intros key Hk.
      destruct (decide (key = "content")) as [->|H1]; [auto|].
      destruct (decide (key = "role")) as [->|H2]; [auto|].
      rewrite !lookup_insert_ne in Hk by done. left. by apply Hnk. }
    split. { by rewrite !lookup_insert_ne. }
    rewrite lookup_insert_eq. split; eauto.
  - injection Hc as <- <-.
    split.
    { rewrite Hagain.
      - rewrite lookup_insert_ne by done. by rewrite Hnc.
      - by rewrite lookup_insert_ne.
      - by rewrite lookup_insert_eq. }
    split. { by rewrite lookup_insert_eq. }
    split. { rewrite lookup_insert_ne by done. by rewrite Hnc. }
    split.
    { intros key Hk.
      destruct (decide (key = "role")) as [->|H2]; [auto|].
      rewrite lookup_insert_ne in Hk by done. left. by apply Hnk. }
    split. { by rewrite lookup_insert_ne. }
    rewrite lookup_insert_ne by done. rewrite Hnc.
    split; intros [? ?]; done.
Qed.

(** With a name that counts as true and a content that is not [None],
    the line is ["<name>: <content>"], whatever the role is. *)
Theorem dialog_str_prefers_the_name item role :
  Tools.truth (Tools.dict_get item "name") = true ->
  Tools.is_None (Tools.dict_get item "content") = false ->
  Tools.to_dialog_str item
  = Tools.PStr (Tools.format (Tools.dict_get item "name") +:+ ": "
                  +:+ Tools.format (Tools.dict_get item "content"))
  /\ Tools.to_dialog_str (<["role" := role]> item) = Tools.to_dialog_str item.
Proof.
  intros Hname Hcontent.
  assert (forall it : gmap string Tools.PyVal,
            Tools.dict_get it "name" = Tools.dict_get item "name" ->
            Tools.dict_get it "content" = Tools.dict_get item "content" ->
            Tools.to_dialog_str it
            = Tools.PStr (Tools.format (Tools.dict_get item "name") +:+ ": "
                  +:+ Tools.format (Tools.dict_get item "content"))) as Hline.
  { intros it Hn Hc. unfold Tools.to_dialog_str.
    rewrite Hn, Hc, Hname, Hcontent.
    by destruct (Tools.dict_get item "name"). }
  split; [by apply Hline|].
  rewrite (Hline item) by done.
  apply Hline; unfold Tools.dict_get; by rewrite lookup_insert_ne.
Qed.

(** Past the first message, the loop of [reform_dialogue] adds one line
    per message and no message of its own. *)
Lemma reform_loop_later i units messages dialogue :
  Tools.reform_loop (Datatypes.S i) units messages dialogue
  = match Tools.dialogue_lines units with
    | Ok lines => Ok (messages, (dialogue ++ lines)%list)
    | Raise x => Raise x
    end.
Proof.
  revert i dialogue. induction units as [|unit units IH]; intros i dialogue.
  { simpl. by rewrite app_nil_r. }
  cbn [Tools.reform_loop Tools.dialogue_lines Nat.eqb].
  unfold Tools.dialogue_line.
  destruct (Tools.dict_getitem unit "name") as [speaker|]; [|done].
  destruct (Tools.dict_getitem unit "content") as [content|]; [|done].
  destruct (Tools._convert_to_str content) as [s|]; [|done].
  rewrite IH. destruct (Tools.dialogue_lines units) as [lines|]; [|done].
  by rewrite <- app_assoc.
Qed.

(** When the first message has the role ["system"], the result is that
    message, reduced to its role and its converted content, followed by
    one user message.  The user message holds the heading and one line
    ["<name>: <content>"] for each of the other messages, in order; the
    roles of those messages are never read, and the first message needs no
    name. *)
Theorem reform_dialogue_with_system_prompt first rest content prompt lines :
  first !! "role" = Some (Tools.PStr "system") ->
  first !! "content" = Some content ->
  Tools._convert_to_str content = Ok prompt ->
  Tools.dialogue_lines rest = Ok lines ->
  Tools.reform_dialogue (first :: rest)
  = Ok [<["content" := Tools.PStr prompt]>
          (<["role" := Tools.PStr "system"]> ∅);
        <["content" :=
            Tools.PStr ("## Dialogue History" +:+ nl
                          +:+ Tools.join nl lines)]>
          (<["role" := Tools.PStr "user"]> ∅)].
Proof.
  intros Hrole Hcontent Hprompt Hlines.
  unfold Tools.reform_dialogue. cbn [Tools.reform_loop Nat.eqb].
  unfold Tools.dict_getitem. rewrite Hrole. cbn [Tools.is_system String.eqb
    Ascii.eqb Bool.eqb]. rewrite Hcontent, Hprompt.
  by rewrite reform_loop_later, Hlines.
Qed.

(** When there is no message, or the first message has a role other than
    ["system"], the result is the single user message with the heading
    and one line for every message, the first included. *)
Theorem reform_dialogue_without_system_prompt units lines :
  match units with
  | [] => True
  | first :: _ =>
      exists role, first !! "role" = Some role
                   /\ Tools.is_system role = false
  end ->
  Tools.dialogue_lines units = Ok lines ->
  Tools.reform_dialogue units
  = Ok [<["content" :=
            Tools.PStr ("## Dialogue History" +:+ nl
                          +:+ Tools.join nl lines)]>
          (<["role" := Tools.PStr "user"]> ∅)].
Proof.
  intros Hfirst Hlines. unfold Tools.reform_dialogue.
  destruct units as [|first rest].
  { by injection Hlines as <-. }
  destruct Hfirst as (role & Hrole & Hsys).
  cbn [Tools.reform_loop Nat.eqb]. unfold Tools.dict_getitem at 1.
  rewrite Hrole, Hsys.
  cbn [Tools.dialogue_lines] in Hlines. unfold Tools.dialogue_line in Hlines.
  destruct (Tools.dict_getitem first "name") as [speaker|]; [|done].
  destruct (Tools.dict_getitem first "content") as [content|]; [|done].
  destruct (Tools._convert_to_str content) as [s|]; [|done].
  rewrite reform_loop_later.
  destruct (Tools.dialogue_lines rest) as [more|]; [|done].
  by injection Hlines as <-.
Qed.

(** A first message without a role makes [reform_dialogue] fail with
    [KeyError], whatever else it holds and whatever follows. *)
Theorem reform_dialogue_needs_a_first_role first rest :
  first !! "role" = None ->
  Tools.reform_dialogue (first :: rest) = Raise (mkExc KeyError "role").
Proof.
  intros Hrole. unfold Tools.reform_dialogue.
  cbn [Tools.reform_loop Nat.eqb]. unfold Tools.dict_getitem at 1.
  by rewrite Hrole.
Qed.

End DictionaryFacts.

Lemma to_openai_dict_is_idempotent_witness :
  let clean : gmap string Tools.PyVal :=
    <["content" := Tools.PStr "1"]> (<["role" := Tools.PStr "user"]> ∅) in
  fst (@Tools.to_openai_dict Lab.text clean) = Ok clean.
Proof.
  intros clean.
  assert (@Tools.to_openai_dict Lab.text
            (<["content" := Tools.PInt 1]>
               (<["role" := Tools.PStr "user"]>
                  (<["url" := Tools.PNone]> ∅)))
          = (Ok clean, [])) as Hrun by (vm_compute; reflexivity).
  destruct (@to_openai_dict_is_idempotent Lab.text _ _ _ Hrun) as [Hidem _].
  exact Hidem.
Defined.

Lemma dialog_str_prefers_the_name_witness :
  @Tools.to_dialog_str Lab.text (Lab.said "Ann" "hello")
  = Tools.PStr "Ann: hello".
Proof.
  destruct (@dialog_str_prefers_the_name Lab.text (Lab.said "Ann" "hello")
              Tools.PNone eq_refl eq_refl) as [Hline _].
  exact Hline.
Defined.

Lemma reform_dialogue_with_system_prompt_witness :
  exists history,
    @Tools.reform_dialogue Lab.text
      [Lab.system_msg; Lab.said "Ann" "hello"; Lab.said "Bob" "hi"]
    = Ok [<["content" := Tools.PStr "Be brief."]>
            (<["role" := Tools.PStr "system"]> ∅);
          <["content" := Tools.PStr history]>
            (<["role" := Tools.PStr "user"]> ∅)].
Proof.
  eexists.
  apply (@reform_dialogue_with_system_prompt Lab.text Lab.system_msg
           [Lab.said "Ann" "hello"; Lab.said "Bob" "hi"]
           (Tools.PStr "Be brief.") "Be brief." ["Ann: hello"; "Bob: hi"]);
    reflexivity.
Defined.

Lemma reform_dialogue_without_system_prompt_witness :
  exists history,
    @Tools.reform_dialogue Lab.text [Lab.said "Ann" "hello"]
    = Ok [<["content" := Tools.PStr history]>
            (<["role" := Tools.PStr "user"]> ∅)].
Proof.
  eexists.
  apply (@reform_dialogue_without_system_prompt Lab.text
           [Lab.said "Ann" "hello"] ["Ann: hello"]).
  - exists (Tools.PStr "user"). split; reflexivity.
  - reflexivity.
Defined.

Lemma reform_dialogue_needs_a_first_role_witness :
  @Tools.reform_dialogue Lab.text
    [<["content" := Tools.PStr "hello"]> ∅; Lab.system_msg]
  = Raise (mkExc KeyError "role").
Proof.
  apply (@reform_dialogue_needs_a_first_role Lab.text
           (<["content" := Tools.PStr "hello"]> ∅) [Lab.system_msg]).
  reflexivity.
Defined.

(** * Properties of the launcher and of the client proxy *)

(** ** Shutting down *)

(** [shutdown] never gets to [kill]: it joins the child without a time
    limit, so it returns only once the child has ended, and it waits for as
    long as the child runs on.  When it returns, the launcher holds neither
    a server nor a stop event, and a second [shutdown] does nothing. *)
Theorem shutdown_waits_and_never_kills
    (self : RpcAgentServerLauncher.t) (c : Child) :
  match RpcAgentServerLauncher.shutdown self c with
  | RpcAgentServerLauncher.Returned l c' acts =>
      RpcAgentServerLauncher.server l = false
      /\ (RpcAgentServerLauncher.server self = true ->
          RpcAgentServerLauncher.stop_event l = false /\ alive c' = false)
      /\ ~ In Kill acts
      /\ RpcAgentServerLauncher.shutdown l c'
         = RpcAgentServerLauncher.Returned l c' []
  | RpcAgentServerLauncher.Waiting l c' acts =>
      RpcAgentServerLauncher.server self = true
      /\ alive c = true
      /\ (RpcAgentServerLauncher.stop_event self || stop_is_set c)
         && heeds_stop c = false
      /\ ~ In Kill acts
  end.
Proof.
  destruct self as [h po [] []], c as [[] [] []]; cbn;
    repeat split; try done; intros Hin;
    repeat (destruct Hin as [Hin|Hin]; [done|]); done.
Qed.

(** ** Cloning *)

Section CloneFacts.
Context {S : Type} `{!Codec} `{!Runtime S}.
Implicit Types (p : AgentPlatform S) (e : Env) (self : RpcAgent.t).

(** What a successful [_clone_agent] call looks like from the client. *)
Lemma client_clone_ok p e id new_id p' :
  client_call_func p e id "_clone_agent" EmptyString = (Ok new_id, p') ->
  call_func p e (mkRpcMsg "_clone_agent" id EmptyString)
  = (Reply (RpcMsg_value new_id), p')
  /\ agent_exists p' new_id = true
  /\ (forall id', agent_exists p id' = true -> agent_exists p' id' = true)
  /\ result_pool p' = result_pool p
  /\ executor p' = executor p
  /\ task_id_counter p' = task_id_counter p.
Proof.
  unfold client_call_func.
  destruct (call_func p e (mkRpcMsg "_clone_agent" id EmptyString))
    as [r p1] eqn:Hcall.
  destruct r as [r| | | |]; try done. intros [= <- <-].
  destruct (agent_exists p id) eqn:Hex.
  2:{ rewrite call_func_unknown_agent in Hcall; done. }
  rewrite call_func_known_agent in Hcall by done.
  cbn [target_func getattr_call String.eqb Ascii.eqb Bool.eqb] in Hcall.
  unfold _clone_agent in Hcall. cbn [agent_id] in Hcall.
  destruct (agent_pool p !! id) as [ori|]; [|done].
  destruct (instantiate _ _ _ _) as [new_agent|x]; [|done].
  injection Hcall as <- <-. cbn [value RpcMsg_value].
  split; [done|].
  unfold agent_exists. autorewrite with platform.
  split; [by rewrite lookup_insert_eq|].
  split; [|done].
  intros id'. destruct (decide (AgentBase.agent_id new_agent = id')) as [->|Hne].
  - by rewrite lookup_insert_eq.
  - by rewrite lookup_insert_ne.
Qed.

Lemma last_cons_default {A} (a d : A) (l : list A) :
  List.last (a :: l) d = List.last l a.
Proof.
  revert a d. induction l as [|b l IH]; intros a d; [done|].
  change (List.last (a :: b :: l) d) with (List.last (b :: l) d).
  by rewrite (IH b d), (IH b a).
Qed.

Lemma clone_loop_ok k i self p envs acc l p' :
  is_Some (RpcAgent.port self) ->
  clone_loop k i self p envs acc = (Ok l, p') ->
  exists clones,
    l = (acc ++ clones)%list
    /\ length clones = k
    /\ map fst (clone_calls k i (RpcAgent.agent_id self) p envs)
       = map (fun c => Reply (RpcMsg_value (RpcAgent.agent_id c))) clones
    /\ p' = List.last
              (map snd (clone_calls k i (RpcAgent.agent_id self) p envs)) p
    /\ Forall (fun c =>
                 RpcAgent.name c = RpcAgent.name self
                 /\ RpcAgent.host c = RpcAgent.host self
                 /\ RpcAgent.port c = RpcAgent.port self
                 /\ RpcAgent.connect_existing c = true
                 /\ RpcAgent.server_launcher c = false
                 /\ agent_exists p' (RpcAgent.agent_id c) = true) clones
    /\ (forall id, agent_exists p id = true -> agent_exists p' id = true)
    /\ result_pool p' = result_pool p
    /\ executor p' = executor p
    /\ task_id_counter p' = task_id_counter p.
Proof.
  intros [port0 Hport].
  revert i p acc. induction k as [|k IH]; intros i p acc Hloop.
  { injection Hloop as <- <-. exists []. rewrite app_nil_r.
    repeat split; [constructor | done]. }
  cbn [clone_loop] in Hloop.
  destruct (client_call_func p (envs i) (RpcAgent.agent_id self)
              "_clone_agent" EmptyString) as [[new_id|x] p1] eqn:Hcall; [|done].
  destruct (client_clone_ok _ _ _ _ _ Hcall)
    as (Hanswer & Hnew & Hmono & Hpool & Hq & Hk).
  destruct (IH _ _ _ Hloop)
    as (clones & -> & Hlen & Hcalls & Hlast & Hall & Hmono' & Hpool' & Hq' & Hk').
  eexists (_ :: clones). rewrite <- app_assoc. split; [reflexivity|].
  split; [simpl; by rewrite Hlen|].
  cbn [clone_calls]. rewrite Hanswer. cbn [map fst snd].
  split; [by rewrite Hcalls, Hport|].
  split; [by rewrite last_cons_default|].
  split; [constructor;
          [rewrite Hport; repeat split; by apply Hmono' | done]|].
  split; [auto|]. split; [congruence|]. split; congruence.
Qed.

(** What [clone_instances] of a proxy with a port returns when every call
    is answered: the proxy itself, when [including_self] is set, followed by
    one proxy for each of the [_clone_agent] calls that were sent for the
    proxy's agent, in the order of the calls.  There are [num_instances - 1]
    such calls when the proxy is included, [num_instances] when it is not,
    and none when that number is below 0.  Each clone carries the agent id
    with which its call was answered and the proxy's name, host and port,
    connects to an existing agent and owns no launcher, and its agent id is
    held by the server's registry afterwards.  The server is the one that
    the last call left behind: only its registry has changed, and it has
    lost no agent. *)
Theorem clone_instances_returns self p envs num_instances including_self l p' :
  is_Some (RpcAgent.port self) ->
  clone_instances self p envs num_instances including_self = (Ok l, p') ->
  exists clones,
    l = ((if including_self then [self] else []) ++ clones)%list
    /\ Z.of_nat (length clones)
       = Z.max 0 (if including_self then num_instances - 1 else num_instances)
    /\ Z.of_nat (length l)
       = (if including_self then Z.max num_instances 1
          else Z.max num_instances 0)
    /\ map fst (clone_calls (length clones) 0 (RpcAgent.agent_id self) p envs)
       = map (fun c => Reply (RpcMsg_value (RpcAgent.agent_id c))) clones
    /\ p' = List.last
              (map snd (clone_calls (length clones) 0
                          (RpcAgent.agent_id self) p envs)) p
    /\ Forall (fun c =>
                 RpcAgent.name c = RpcAgent.name self
                 /\ RpcAgent.host c = RpcAgent.host self
                 /\ RpcAgent.port c = RpcAgent.port self
                 /\ RpcAgent.connect_existing c = true
                 /\ RpcAgent.server_launcher c = false
                 /\ agent_exists p' (RpcAgent.agent_id c) = true) clones
    /\ (forall id, agent_exists p id = true -> agent_exists p' id = true)
    /\ result_pool p' = result_pool p
    /\ executor p' = executor p
    /\ task_id_counter p' = task_id_counter p.
Proof.
  unfold clone_instances. intros Hport Hloop.
  destruct (clone_loop_ok _ _ _ _ _ _ _ _ Hport Hloop)
    as (clones & -> & Hlen & Hcalls & Hlast & Hall & Hmono & Hframe).
  exists clones. split; [done|].
  split; [rewrite Hlen; destruct including_self; lia|].
  split; [rewrite length_app, Hlen; destruct including_self; simpl; lia|].
  rewrite <- Hlen in Hcalls, Hlast.
  split; [exact Hcalls|]. split; [exact Hlast|]. split; [exact Hall|].
  split; [exact Hmono | exact Hframe].
Qed.

(** Cloning from a proxy whose agent the server does not hold fails at the
    first call, with the dispatcher's message, and changes nothing on the
    server. *)
Theorem clone_instances_of_unknown_agent
    self p envs (num_instances : Z) (including_self : bool) :
  agent_exists p (RpcAgent.agent_id self) = false ->
  (if including_self then 1 else 0) < num_instances ->
  clone_instances self p envs num_instances including_self
  = (Raise (mkExc OtherException
              ("Agent [" +:+ RpcAgent.agent_id self +:+ "] not exists.")), p).
Proof.
  intros Hex Hn. unfold clone_instances.
  destruct (Z.to_nat (if including_self then num_instances - 1
                      else num_instances)) as [|k] eqn:Hk.
  { destruct including_self; lia. }
  cbn [clone_loop]. unfold client_call_func.
  by rewrite call_func_unknown_agent.
Qed.

End CloneFacts.

(** ** The properties above on the two small servers *)

Lemma delete_agent_forgets_one_agent_witness :
  exists p',
    Demo.call Demo.staffed Demo.env (mkRpcMsg "_delete_agent" "a" EmptyString)
    = (Reply RpcMsg_empty, p')
    /\ agent_exists p' "a" = false
    /\ agent_exists p' "b" = true.
Proof.
  destruct (@delete_agent_forgets_one_agent nat Demo.codec Demo.runtime
              Demo.staffed Demo.env
              (mkRpcMsg "_delete_agent" "a" EmptyString) eq_refl eq_refl)
    as (p' & Hcall & Hgone & Hothers & _).
  exists p'. split; [exact Hcall|]. split; [exact Hgone|].
  unfold agent_exists. rewrite (Hothers "b"); [reflexivity | discriminate].
Defined.

Lemma create_then_delete_restores_witness :
  Demo.call (snd (Demo.call Demo.fresh Demo.env (Demo.create "a" "Echo")))
    Demo.env (mkRpcMsg "_delete_agent" "a" EmptyString)
  = (Reply RpcMsg_empty, Demo.fresh).
Proof.
  apply (@create_then_delete_restores nat Demo.codec Demo.runtime Demo.fresh
           Demo.env Demo.env (Demo.create "a" "Echo")
           (mkRpcMsg "_delete_agent" "a" EmptyString) RpcMsg_empty);
    reflexivity.
Defined.

Lemma clone_registers_new_agent_witness :
  let request := mkRpcMsg "_clone_agent" "a" EmptyString in
  let p' := snd (Demo.call Demo.staffed Demo.env request) in
  agent_exists p' "agent-1" = true
  /\ agent_exists p' "a" = true
  /\ task_id_counter p' = task_id_counter Demo.staffed.
Proof.
  intros request p'.
  assert (Demo.call Demo.staffed Demo.env request
          = (Reply (RpcMsg_value "agent-1"), p')) as Hcall
    by (vm_compute; reflexivity).
  destruct (@clone_registers_new_agent nat Demo.codec Demo.runtime
              Demo.staffed Demo.env request _ p' eq_refl Hcall)
    as (ori & new_agent & _ & _ & _ & Hnew & Hkept & _ & _ & _ & Hcount).
  split; [|split; [|exact Hcount]].
  - unfold agent_exists. cbn [value RpcMsg_value] in Hnew. by rewrite Hnew.
  - apply Hkept. reflexivity.
Defined.

Lemma clone_failure_is_the_constructors_witness :
  let request := mkRpcMsg "_clone_agent" "a" EmptyString in
  snd (Lab.call Demo.staffed (mkEnv 100 0 3) request) = Demo.staffed.
Proof.
  intros request.
  assert (Lab.call Demo.staffed (mkEnv 100 0 3) request
          = (Raised (mkExc ValueError "no entropy"),
             snd (Lab.call Demo.staffed (mkEnv 100 0 3) request))) as Hcall
    by (vm_compute; reflexivity).
  destruct (@clone_failure_is_the_constructors nat Lab.codec Lab.runtime
              Demo.staffed (mkEnv 100 0 3) request _ _ eq_refl Hcall)
    as [Hsame _].
  exact Hsame.
Defined.

Lemma observe_touches_one_agent_witness :
  let p' :=
    snd (Lab.call Demo.staffed Demo.env (mkRpcMsg "_observe" "a" "many")) in
  result_pool p' = result_pool Demo.staffed
  /\ agent_pool p' !! "b" = agent_pool Demo.staffed !! "b".
Proof.
  intros p'.
  destruct (@observe_touches_one_agent nat Lab.codec Lab.runtime Demo.staffed
              Demo.env (mkRpcMsg "_observe" "a" "many")
              (fst (Lab.call Demo.staffed Demo.env
                      (mkRpcMsg "_observe" "a" "many")))
              p' eq_refl)
    as (Hpool & _ & _ & Hothers & _).
  - exact (surjective_pairing (Lab.call Demo.staffed Demo.env
                                 (mkRpcMsg "_observe" "a" "many"))).
  - split; [exact Hpool|]. apply Hothers. discriminate.
Defined.

Lemma observe_delivers_resolved_sequence_witness :
  fst (Lab.call Demo.staffed Demo.env (mkRpcMsg "_observe" "a" "many"))
  = Reply RpcMsg_empty
  /\ Lab.call Demo.staffed Demo.env (mkRpcMsg "_observe" "a" "lost")
     = (Raised (mkExc OtherException "unreachable origin"), Demo.staffed).
Proof.
  destruct (@observe_delivers_resolved_sequence nat Lab.codec Lab.runtime
              Demo.staffed Demo.env (mkRpcMsg "_observe" "a" "many")
              [Concrete Lab.note; Deferred Lab.remote]
              (AgentBase.mk "Echo" "a" "Echo" ([], []) 0%nat)
              eq_refl eq_refl eq_refl) as [_ Hok].
  destruct (Hok [Concrete Lab.note; Concrete Lab.fetched] eq_refl)
    as (_ & _ & _ & _ & Hreply & _).
  destruct (@observe_delivers_resolved_sequence nat Lab.codec Lab.runtime
              Demo.staffed Demo.env (mkRpcMsg "_observe" "a" "lost")
              [Deferred Lab.lost]
              (AgentBase.mk "Echo" "a" "Echo" ([], []) 0%nat)
              eq_refl eq_refl eq_refl) as [Hfail _].
  split; [exact Hreply|].
  exact (proj1 (Hfail (mkExc OtherException "unreachable origin") eq_refl)).
Defined.

Lemma work_for_deleted_agent_stores_error_witness :
  let p :=
    snd (Demo.history Demo.staffed
           [Call Demo.env (Demo.ask "a" "hi");
            Call Demo.env (mkRpcMsg "_delete_agent" "a" EmptyString)]) in
  exists p',
    @process_messages nat Demo.runtime p 101 102
      (1, "a", Some (DOne (Concrete
                             (mkMsg "user" "user" (Some "hi") None None None))))
    = (Ok tt, p')
    /\ ExpiringDict.find 1 (ExpiringDict.items (result_pool p'))
       = Some (Done (@error_result nat Demo.runtime "a" (mkExc KeyError "a")),
               102).
Proof.
  intros p.
  destruct (@work_for_deleted_agent_stores_error nat Demo.runtime p 101 102 1
              "a"
              (Some (DOne (Concrete
                             (mkMsg "user" "user" (Some "hi") None None None))))
              (Some (DOne (Concrete
                             (mkMsg "user" "user" (Some "hi") None None None))))
              eq_refl eq_refl eq_refl)
    as (p' & Hrun & Hfind & _).
  exists p'. split; [exact Hrun | exact Hfind].
Defined.


Lemma get_of_unfinished_task_witness :
  let p := snd (Demo.call Demo.hasty Demo.env (Demo.ask "a" "x")) in
  Demo.call p (mkEnv 100 1 2) (Demo.fetch "1") = (Blocked, p)
  /\ fst (Demo.call p (mkEnv 100 1 3) (Demo.fetch "1"))
     = Raised (mkExc AttributeError
                 "'NoneType' object has no attribute 'serialize'").
Proof.
  intros p.
  destruct (@get_of_unfinished_task nat Demo.codec Demo.runtime p
              (mkEnv 100 1 2) (Demo.fetch "1") 1 100 eq_refl eq_refl eq_refl)
    as [Hwait _].
  destruct (@get_of_unfinished_task nat Demo.codec Demo.runtime p
              (mkEnv 100 1 3) (Demo.fetch "1") 1 100 eq_refl eq_refl eq_refl)
    as [_ Hgone].
  split.
  - apply Hwait. vm_compute. discriminate.
  - apply Hgone; [discriminate | reflexivity].
Defined.

Lemma clone_instances_returns_witness :
  let self := RpcAgent.mk "Echo" "localhost" (Some 12010) "a" false false true in
  let envs := fun i => mkEnv 100 (Z.of_nat i + 1) 3 in
  exists l p',
    @clone_instances nat Demo.codec Demo.runtime self Demo.staffed envs 3 true
    = (Ok l, p')
    /\ Z.of_nat (length l) = 3
    /\ head l = Some self.
Proof.
  intros self envs.
  destruct (@clone_instances nat Demo.codec Demo.runtime self Demo.staffed
              envs 3 true) as [[l|x] p'] eqn:Hrun.
  - destruct (@clone_instances_returns nat Demo.codec Demo.runtime self
                Demo.staffed envs 3 true l p' ltac:(by eexists) Hrun)
      as (clones & Hl & _ & Hlen & _).
    exists l, p'. split; [reflexivity|]. split; [exact Hlen|].
    by rewrite Hl.
  - exfalso. apply (f_equal fst) in Hrun. vm_compute in Hrun. discriminate.
Defined.

Lemma clone_instances_of_unknown_agent_witness :
  let self := RpcAgent.mk "Echo" "localhost" (Some 12010) "z" false false true in
  @clone_instances nat Demo.codec Demo.runtime self Demo.staffed
    (fun i => Demo.env) 2 true
  = (Raise (mkExc OtherException "Agent [z] not exists."), Demo.staffed).
Proof.
  intros self.
  apply (@clone_instances_of_unknown_agent nat Demo.codec Demo.runtime self
           Demo.staffed (fun i => Demo.env) 2 true); [reflexivity | lia].
Defined.

(** * Task ids in use *)

Section KeyFacts.
Context {V : Type}.
Implicit Types (d : ExpiringDict.t V) (l : list (Z * (V * Z))).

Lemma find_In_keys k l e :
  ExpiringDict.find k l = Some e -> In k (map fst l).
Proof.
  induction l as [|[k' e'] l IH]; simpl; [done|].
  destruct (Z.eqb_spec k k'); [by left | right; auto].
Qed.

Lemma store_keys k e l k' :
  In k' (map fst (ExpiringDict.store k e l)) -> k' = k \/ In k' (map fst l).
Proof.
  induction l as [|[k0 e0] l IH]; simpl.
  - intros [<-|[]]. by left.
  - destruct (Z.eqb k k0); simpl; intros [<-|Hin]; auto.
    destruct (IH Hin); auto.
Qed.

Lemma remove_keys k l k' :
  In k' (map fst (ExpiringDict.remove k l)) -> In k' (map fst l).
Proof.
  induction l as [|[k0 e0] l IH]; simpl; [done|].
  destruct (Z.eqb k k0); simpl; [auto|]. intros [<-|Hin]; auto.
Qed.

Lemma tail_keys l k' : In k' (map fst (tail l)) -> In k' (map fst l).
Proof. destruct l; simpl; auto. Qed.

Lemma getitem_keys d t k k' :
  In k' (map fst (ExpiringDict.items (snd (ExpiringDict.getitem d t k)))) ->
  In k' (map fst (ExpiringDict.items d)).
Proof.
  unfold ExpiringDict.getitem.
  destruct (ExpiringDict.find k (ExpiringDict.items d)) as [[v t0]|]; [|done].
  destruct (_ <? _); [done|]. simpl. apply remove_keys.
Qed.

Lemma setitem_keys d t k v k' :
  In k' (map fst (ExpiringDict.items (ExpiringDict.setitem d t k v))) ->
  k' = k \/ In k' (map fst (ExpiringDict.items d)).
Proof.
  unfold ExpiringDict.setitem. cbn [ExpiringDict.items ExpiringDict.with_items].
  intros Hin. apply store_keys in Hin as [->|Hin]; [by left|]. right.
  destruct (_ =? ExpiringDict.max_len d); [|done].
  unfold ExpiringDict.contains in Hin.
  pose proof (getitem_keys d t k k') as Hget.
  destruct (ExpiringDict.getitem d t k) as [[v0|] d']; simpl in *.
  - apply Hget. by apply remove_keys in Hin.
  - apply Hget. by apply tail_keys in Hin.
Qed.

End KeyFacts.

Section IdFacts.
Context {S : Type} `{!Codec} `{!Runtime S}.
Implicit Types (p : AgentPlatform S) (e : Env) (request : RpcMsg).

(** The handlers that work on the registry leave the pool, the submitted
    work and the counter alone. *)
Lemma create_frame p e request :
  let p' := snd (_create_agent p e request) in
  result_pool p' = result_pool p /\ executor p' = executor p
  /\ task_id_counter p' = task_id_counter p.
Proof.
  unfold _create_agent, check_and_generate_agent.
  destruct (truthy (value request)); [destruct (load_configs _)|]; simpl;
    try done;
    destruct (agent_pool p !! agent_id request); simpl; try done;
    destruct (construct e _); done.
Qed.

Lemma delete_frame p request :
  let p' := snd (_delete_agent p request) in
  result_pool p' = result_pool p /\ executor p' = executor p
  /\ task_id_counter p' = task_id_counter p.
Proof.
  unfold _delete_agent, check_and_delete_agent. simpl.
  by destruct (agent_pool p !! agent_id request).
Qed.

Lemma clone_frame p e request :
  let p' := snd (_clone_agent p e request) in
  result_pool p' = result_pool p /\ executor p' = executor p
  /\ task_id_counter p' = task_id_counter p.
Proof.
  unfold _clone_agent.
  destruct (agent_pool p !! agent_id request); [|done].
  by destruct (instantiate _ _ _ _).
Qed.

Lemma observe_frame p request :
  let p' := snd (_observe p request) in
  result_pool p' = result_pool p /\ executor p' = executor p
  /\ task_id_counter p' = task_id_counter p.
Proof.
  unfold _observe.
  destruct (deserialize (value request)) as [[m|ms]|]; [| |done].
  - destruct (agent_pool p !! agent_id request) as [ag|]; [|done].
    by destruct (agent_observe ag (DOne m)) as [[]].
  - destruct (resolve_all ms) as [rs|]; [|done].
    destruct (agent_pool p !! agent_id request) as [ag|]; [|done].
    by destruct (agent_observe ag _) as [[]].
Qed.

Lemma ids_handed_out_frame p p' :
  result_pool p' = result_pool p -> executor p' = executor p ->
  task_id_counter p' = task_id_counter p ->
  ids_handed_out p -> ids_handed_out p'.
Proof. unfold ids_handed_out. by intros -> -> ->. Qed.

Lemma get_loop_ids n p t k :
  ids_handed_out p -> ids_handed_out (snd (_get_loop n p t k)).
Proof.
  revert p t. induction n as [|n IH]; intros p t Hinv; [done|].
  cbn [_get_loop]. unfold _get_poll, ExpiringDict.get.
  pose proof (getitem_keys (result_pool p) t k) as Hkeys.
  destruct (ExpiringDict.getitem (result_pool p) t k) as [o d].
  assert (ids_handed_out (set_result_pool p d)) as Hinv'.
  { destruct Hinv as (H0 & Hpool & Hwork). split; [done|]. split; [|done].
    intros k' Hin. apply Hpool, Hkeys, Hin. }
  destruct o as [[|m]|]; simpl; [by apply IH | done | done].
Qed.

Lemma reply_ids p e request :
  ids_handed_out p -> ids_handed_out (snd (_reply p e request)).
Proof.
  intros (H0 & Hpool & Hwork). unfold _reply.
  destruct (decode_input (value request)) as [msg|]; [|done].
  cbn [get_task_id]. cbv zeta.
  match goal with
  | |- ids_handed_out (snd (match agent_pool ?q !! _ with _ => _ end)) =>
      assert (ids_handed_out q) as Hinv
  end.
  { split; [|split]; autorewrite with platform.
    - lia.
    - intros k Hin. apply setitem_keys in Hin as [->|Hin]; [lia|].
      specialize (Hpool k Hin). lia.
    - intros task Hin. apply in_app_or in Hin as [Hin|[<-|[]]].
      + specialize (Hwork task Hin). lia.
      + simpl. lia. }
  by destruct (agent_pool _ !! agent_id request).
Qed.

Lemma process_messages_ids p t0 t1 task :
  ids_handed_out p ->
  1 <= fst (fst task) <= task_id_counter p ->
  ids_handed_out (snd (process_messages p t0 t1 task)).
Proof.
  intros (H0 & Hpool & Hwork) Htask. destruct task as [[k id] msg].
  simpl in Htask. unfold process_messages.
  destruct (update_input msg) as [input|]; [|done].
  pose proof (getitem_keys (result_pool p) t0 k) as Hkeys.
  destruct (ExpiringDict.getitem (result_pool p) t0 k) as [[c|] d];
    simpl in Hkeys.
  2:{ split; [done|]. split; [|done]. intros k' Hin. apply Hpool, Hkeys, Hin. }
  assert (forall (q : AgentPlatform S) v,
            result_pool q = d -> executor q = executor p ->
            task_id_counter q = task_id_counter p ->
            ids_handed_out
              (set_result_pool q (ExpiringDict.setitem (result_pool q) t1 k v)))
    as Hstore.
  { intros q v Hq He Hc. split; [|split]; autorewrite with platform.
    - by rewrite Hc.
    - rewrite Hc, Hq. intros k' Hin.
      apply setitem_keys in Hin as [->|Hin]; [done|]. apply Hpool, Hkeys, Hin.
    - by rewrite Hc, He. }
  autorewrite with platform.
  destruct (agent_pool p !! id) as [ag|]; [|by apply Hstore].
  destruct (agent_reply ag input) as [[result|x] ag']; [by apply Hstore|].
  destruct (is_Exception x); [by apply Hstore|].
  split; [done|]. split; [|done].
  autorewrite with platform. intros k' Hin. apply Hpool, Hkeys, Hin.
Qed.

(** Every event that is not a call naming [__init__] keeps the ids in
    use within what the counter has handed out. *)
Lemma step_ids p ev :
  targets_init ev = false ->
  ids_handed_out p -> ids_handed_out (snd (step p ev)).
Proof.
  intros Hni Hinv. destruct ev as [e request | i t0 t1]; simpl.
  - destruct (call_func p e request) as [r p'] eqn:Hcall. simpl.
    assert (p' = snd (call_func p e request)) as -> by by rewrite Hcall.
    clear Hcall r. unfold call_func.
    destruct (hasattr (target_func request)); [|done].
    destruct (negb _ && negb _); [done|]. unfold getattr_call.
    destruct (String.eqb (target_func request) "_create_agent").
    { destruct (create_frame p e request) as (? & ? & ?).
      by eapply ids_handed_out_frame. }
    destruct (String.eqb (target_func request) "_delete_agent").
    { destruct (delete_frame p request) as (? & ? & ?).
      by eapply ids_handed_out_frame. }
    destruct (String.eqb (target_func request) "_clone_agent").
    { destruct (clone_frame p e request) as (? & ? & ?).
      by eapply ids_handed_out_frame. }
    destruct (String.eqb (target_func request) "_reply").
    { by apply reply_ids. }
    destruct (String.eqb (target_func request) "_get").
    { unfold _get. destruct (json_task_id (value request)); [|done].
      by apply get_loop_ids. }
    destruct (String.eqb (target_func request) "_observe").
    { destruct (observe_frame p request) as (? & ? & ?).
      by eapply ids_handed_out_frame. }
    simpl in Hni. rewrite Hni.
    by destruct (mem _ data_attributes || mem _ helper_methods).
  - destruct (executor p !! i) as [task|] eqn:Hi; [|done].
    destruct (process_messages _ t0 t1 task) as [r p'] eqn:Hp. simpl.
    assert (p' = snd (process_messages
                        (set_executor p (delete i (executor p))) t0 t1 task))
      as -> by by rewrite Hp.
    destruct Hinv as (H0 & Hpool & Hwork).
    apply process_messages_ids.
    + split; [done|]. split; [done|]. autorewrite with platform.
      intros task' Hin. apply Hwork.
      apply list_elem_of_In in Hin. apply list_elem_of_In.
      by eapply list_elem_of_delete_inv.
    + autorewrite with platform. apply Hwork.
      apply list_elem_of_In. by eapply list_elem_of_lookup_2.
Qed.

Lemma run_ids p evs :
  forallb (fun ev => negb (targets_init ev)) evs = true ->
  ids_handed_out p -> ids_handed_out (snd (run p evs)).
Proof.
  revert p. induction evs as [|ev evs IH]; intros p Hni Hinv; [done|].
  simpl in Hni. apply andb_true_iff in Hni as [Hev Hni].
  simpl. pose proof (step_ids p ev) as Hstep.
  destruct (step p ev) as [o p1]. specialize (IH p1).
  destruct (run p1 evs) as [os p2]. simpl in *.
  apply IH; [done|]. apply Hstep; [|done]. by destruct (targets_init ev).
Qed.

(** On a server that started fresh and never dispatched [__init__], a
    [_get] for a number that has not been handed out as a task id, such as
    0, a negative number or an id still to come, finds nothing: it does not
    wait, and it ends with the [AttributeError]. *)
Theorem get_of_unissued_task_id
    host port max_pool_size max_timeout evs e request k :
  let p : AgentPlatform S :=
    snd (run (AgentPlatform_new host port max_pool_size max_timeout) evs) in
  forallb (fun ev => negb (targets_init ev)) evs = true ->
  target_func request = "_get" ->
  json_task_id (value request) = Ok k ->
  k < 1 \/ task_id_counter p < k ->
  patience e <> 0%nat ->
  fst (call_func p e request)
  = Raised (mkExc AttributeError
              "'NoneType' object has no attribute 'serialize'").
Proof.
  intros p Hni Ht Hj Hk Hpat.
  assert (ids_handed_out p) as (H0 & Hpool & _).
  { apply run_ids; [done|]. split; [done|]. split; by intros ? []. }
  rewrite call_func_get by done. unfold _get. rewrite Hj.
  destruct (patience e) as [|n]; [done|]. cbn [_get_loop].
  unfold _get_poll, ExpiringDict.get, ExpiringDict.getitem.
  destruct (ExpiringDict.find k (ExpiringDict.items (result_pool p)))
    as [[v t0]|] eqn:Hf; [|done].
  apply find_In_keys, Hpool in Hf. lia.
Qed.

End IdFacts.

Lemma get_of_unissued_task_id_witness :
  fst (Demo.call
         (snd (Demo.history (@AgentPlatform_new nat "localhost" (Some 12010)
                               8192 1800)
                 [Call Demo.env (Demo.create "a" "Echo");
                  Call Demo.env (Demo.ask "a" "x")]))
         Demo.env (Demo.fetch "2"))
  = Raised (mkExc AttributeError
              "'NoneType' object has no attribute 'serialize'").
Proof.
  apply (@get_of_unissued_task_id nat Demo.codec Demo.runtime "localhost"
           (Some 12010) 8192 1800
           [Call Demo.env (Demo.create "a" "Echo");
            Call Demo.env (Demo.ask "a" "x")]
           Demo.env (Demo.fetch "2") 2);
    [reflexivity | reflexivity | reflexivity | right; vm_compute; reflexivity
    | discriminate].
Defined.

Lemma finished_task_can_be_fetched_again_witness :
  let p :=
    snd (Demo.history Demo.staffed
           [Call Demo.env (Demo.ask "a" "hi"); Work 0 101 102]) in
  snd (Demo.history p [Call (mkEnv 103 1 1) (Demo.fetch "1");
                       Call (mkEnv 900 1 1) (Demo.fetch "1")]) = p.
Proof.
  intros p.
  destruct (@finished_task_can_be_fetched_again nat Demo.codec Demo.runtime p
              (mkEnv 103 1 1) (mkEnv 900 1 1) (Demo.fetch "1") 1
              (mkMsg "Echo" "assistant" (Some "hi") None None None) 102)
    as [_ Hsame];
    [reflexivity | reflexivity | vm_compute; reflexivity | reflexivity
    | reflexivity | discriminate | discriminate |].
  exact Hsame.
Defined.

Lemma unresolvable_input_strands_the_task_witness :
  let p := snd (Lab.call Demo.hasty Demo.env (Demo.ask "a" "x")) in
  @process_messages nat Lab.runtime p 101 102
    (1, "a", Some (DOne (Deferred Lab.lost)))
  = (Raise (mkExc OtherException "unreachable origin"), p)
  /\ Lab.call p (mkEnv 100 1 2) (Demo.fetch "1") = (Blocked, p).
Proof.
  intros p.
  destruct (@unresolvable_input_strands_the_task nat Lab.codec Lab.runtime p
              101 102 1 "a" Lab.lost
              (mkExc OtherException "unreachable origin") 100
              (mkEnv 100 1 2) (Demo.fetch "1")
              eq_refl eq_refl eq_refl eq_refl) as (Hwork & Hwait & _).
  split; [exact Hwork|]. apply Hwait. vm_compute. discriminate.
Defined.

(** * Agents that stay *)

Section ServedFacts.
Context {S : Type} `{!Codec} `{!Runtime S}.
Implicit Types (p : AgentPlatform S) (e : Env) (request : RpcMsg).

Lemma agent_exists_insert p id id' (a : AgentBase.t S) :
  agent_exists p id = true ->
  agent_exists (set_agent_pool p (<[id' := a]> (agent_pool p))) id = true.
Proof.
  unfold agent_exists. cbn [agent_pool set_agent_pool]. intros Hex.
  destruct (decide (id' = id)) as [->|Hne].
  - by rewrite lookup_insert_eq.
  - by rewrite lookup_insert_ne.
Qed.

Lemma agent_pool_get_loop n p t k :
  agent_pool (snd (_get_loop n p t k)) = agent_pool p.
Proof.
  revert p t. induction n as [|n IH]; intros p t; [done|].
  simpl. unfold _get_poll.
  destruct (ExpiringDict.get (result_pool p) t k) as [[[|m]|] d]; simpl;
    [|done..].
  by rewrite IH.
Qed.

(** A call that neither deletes the agent nor names the constructor
    leaves it in the registry. *)
Lemma call_keeps_agent p e request id :
  removes id (Call e request) = false ->
  agent_exists p id = true ->
  agent_exists (snd (call_func p e request)) id = true.
Proof.
  intros Hrm Hex. cbn [removes] in Hrm.
  apply orb_false_iff in Hrm as [Hni Hdel].
  unfold call_func.
  destruct (hasattr (target_func request)); [|done].
  destruct (negb _ && negb _); [done|]. unfold getattr_call.
  destruct (String.eqb (target_func request) "_create_agent").
  { unfold _create_agent, check_and_generate_agent.
    destruct (truthy (value request));
      [destruct (load_configs (value request)) as [c|x]; [|done]|];
      destruct (agent_pool p !! agent_id request); try done.
    destruct (construct e c) as [inst|x]; [|done].
    by apply agent_exists_insert. }
  destruct (String.eqb (target_func request) "_delete_agent").
  { unfold _delete_agent, check_and_delete_agent. cbn [snd].
    destruct (agent_pool p !! agent_id request); [|done].
    unfold agent_exists in *. cbn [agent_pool set_agent_pool].
    rewrite lookup_delete_ne; [done|].
    simpl in Hdel. by destruct (String.eqb_spec (agent_id request) id). }
  destruct (String.eqb (target_func request) "_clone_agent").
  { unfold _clone_agent.
    destruct (agent_pool p !! agent_id request) as [ori|]; [|done].
    destruct (instantiate _ _ _ _) as [new_agent|x]; [|done].
    by apply agent_exists_insert. }
  destruct (String.eqb (target_func request) "_reply").
  { unfold _reply.
    destruct (decode_input (value request)) as [msg|x]; [|done].
    cbn [get_task_id]. cbv zeta.
    by destruct (agent_pool _ !! agent_id request). }
  destruct (String.eqb (target_func request) "_get").
  { unfold _get. destruct (json_task_id (value request)); [|done].
    unfold agent_exists. by rewrite agent_pool_get_loop. }
  destruct (String.eqb (target_func request) "_observe").
  { unfold _observe.
    destruct (deserialize (value request)) as [[m|ms]|]; [| |done].
    - destruct (agent_pool p !! agent_id request) as [ag|]; [|done].
      destruct (agent_observe ag (DOne m)) as [[[]|x] ag'];
        by apply agent_exists_insert.
    - destruct (resolve_all ms) as [rs|]; [|done].
      destruct (agent_pool p !! agent_id request) as [ag|]; [|done].
      destruct (agent_observe ag (DMany rs)) as [[[]|x] ag'];
        by apply agent_exists_insert. }
  rewrite Hni.
  by destruct (mem _ data_attributes || mem _ helper_methods).
Qed.

(** The worker removes no agent. *)
Lemma work_keeps_agent p t0 t1 task id :
  agent_exists p id = true ->
  agent_exists (snd (process_messages p t0 t1 task)) id = true.
Proof.
  intros Hex. destruct task as [[k aid] msg]. unfold process_messages.
  destruct (update_input msg) as [input|]; [|done].
  destruct (ExpiringDict.getitem (result_pool p) t0 k) as [[c|] d]; [|done].
  cbn [agent_pool set_result_pool].
  destruct (agent_pool p !! aid) as [ag|]; [|done].
  destruct (agent_reply ag input) as [[result|x] ag'].
  - by apply (agent_exists_insert (set_result_pool p d)).
  - destruct (is_Exception x);
      by apply (agent_exists_insert (set_result_pool p d)).
Qed.

Lemma run_keeps_agent p evs id :
  forallb (fun ev => negb (removes id ev)) evs = true ->
  agent_exists p id = true ->
  agent_exists (snd (run p evs)) id = true.
Proof.
  revert p. induction evs as [|ev evs IH]; intros p Hrm Hex; [done|].
  simpl in Hrm. apply andb_true_iff in Hrm as [Hev Hrm].
  apply negb_true_iff in Hev.
  assert (agent_exists (snd (step p ev)) id = true) as Hstep.
  { destruct ev as [e request | i t0 t1]; cbn [step].
    - pose proof (call_keeps_agent p e request id Hev Hex) as Hk.
      by destruct (call_func p e request).
    - destruct (executor p !! i) as [task|]; [|done].
      pose proof (work_keeps_agent
                    (set_executor p (delete i (executor p))) t0 t1 task id Hex)
        as Hk.
      by destruct (process_messages _ t0 t1 task). }
  simpl. destruct (step p ev) as [o p1]. specialize (IH p1 Hrm Hstep).
  by destruct (run p1 evs).
Qed.

(** After [_create_agent] has answered for an agent id, whatever calls and
    worker runs follow, as long as none of them is a [_delete_agent] for
    that id or a call that names [__init__], the registry holds the id and
    no call of a handler for it is aborted. *)
Theorem created_agent_is_served p e request r p' evs :
  target_func request = "_create_agent" ->
  call_func p e request = (Reply r, p') ->
  forallb (fun ev => negb (removes (agent_id request) ev)) evs = true ->
  agent_exists (snd (run p' evs)) (agent_id request) = true
  /\ forall e' request' code details,
       agent_id request' = agent_id request ->
       mem (target_func request') handlers = true ->
       fst (call_func (snd (run p' evs)) e' request') <> Abort code details.
Proof.
  intros Ht Hc Hrm.
  assert (agent_exists (snd (run p' evs)) (agent_id request) = true) as Hex.
  { apply run_keeps_agent; [done|]. by eapply create_agent_answered. }
  split; [done|].
  intros e' request' code details Hid Hm.
  apply known_agent_is_served; [by rewrite Hid | done].
Qed.

End ServedFacts.

(** On the demo server: ["a"] is created, asked, its task is run and
    fetched, the other agent is deleted; ["a"] is still served. *)
Lemma created_agent_is_served_witness :
  let later :=
    [Call Demo.env (Demo.create "b" "Boom");
     Call Demo.env (Demo.ask "a" "hi"); Work 0 101 102;
     Call (mkEnv 103 1 3) (Demo.fetch "1");
     Call Demo.env (mkRpcMsg "_delete_agent" "b" EmptyString)] in
  let p :=
    snd (Demo.history
           (snd (Demo.call Demo.fresh Demo.env (Demo.create "a" "Echo")))
           later) in
  agent_exists p "a" = true
  /\ fst (Demo.call p Demo.env (Demo.ask "a" "again"))
     <> Abort INVALID_ARGUMENT "Agent [a] not exists.".
Proof.
  intros later p.
  destruct (@created_agent_is_served nat Demo.codec Demo.runtime Demo.fresh
              Demo.env (Demo.create "a" "Echo") RpcMsg_empty
              (snd (Demo.call Demo.fresh Demo.env (Demo.create "a" "Echo")))
              later eq_refl eq_refl eq_refl) as [Hex Hserved].
  split; [exact Hex|].
  apply (Hserved Demo.env (Demo.ask "a" "again")); reflexivity.
Defined.

(** * Counting the task ids *)

Section CountFacts.
Context {S : Type} `{!Codec} `{!Runtime S}.
Implicit Types (p : AgentPlatform S) (e : Env) (request : RpcMsg).

Lemma replies_answered_cons o os :
  replies_answered (o :: os)
  = (if is_reply_answer o then 1 else 0) + replies_answered os.
Proof.
  unfold replies_answered. simpl.
  destruct (is_reply_answer o); simpl; lia.
Qed.

(** As long as no call names [__init__], an answer to a [_reply] carries
    the counter the history started from plus the number of answers up to
    and including it. *)
Lemma run_reply_counts p evs j o :
  forallb (fun ev => negb (targets_init ev)) evs = true ->
  fst (run p evs) !! j = Some o ->
  is_reply_answer o = true ->
  carries o (task_id_counter p
             + replies_answered (take (Datatypes.S j) (fst (run p evs)))).
Proof.
  revert p j. induction evs as [|ev evs IH]; intros p j Hni Hj Ho; [done|].
  simpl in Hni. apply andb_true_iff in Hni as [Hev Hni].
  simpl in Hj |- *. destruct (step p ev) as [o1 p1] eqn:Hs.
  pose proof (step_counter _ _ _ _ Hs) as Hc.
  specialize (IH p1). destruct (run p1 evs) as [os p2]. simpl in *.
  rewrite replies_answered_cons.
  destruct j as [|j]; simpl in Hj.
  - injection Hj as ->. rewrite Ho.
    destruct Hc as [(_ & Hcar & _) | [Hno _]]; [|congruence].
    rewrite take_0. unfold replies_answered. simpl.
    by rewrite Z.add_0_r.
  - specialize (IH j Hni Hj Ho).
    destruct Hc as [(Hyes & _ & Hk) | (Hno & [Hk | (Hinit & _)])].
    + rewrite Hyes. rewrite Hk in IH.
      by rewrite Z.add_assoc.
    + rewrite Hno. rewrite Hk in IH. by rewrite Z.add_0_l.
    + by rewrite Hinit in Hev.
Qed.

(** On a server that started fresh, in a history in which no call names
    [__init__], the n-th answer to a [_reply] carries the task id n. *)
Theorem nth_reply_carries_n
    host port max_pool_size max_timeout evs j o :
  let fresh : AgentPlatform S :=
    AgentPlatform_new host port max_pool_size max_timeout in
  forallb (fun ev => negb (targets_init ev)) evs = true ->
  fst (run fresh evs) !! j = Some o ->
  is_reply_answer o = true ->
  carries o (replies_answered (take (Datatypes.S j) (fst (run fresh evs)))).
Proof.
  intros fresh Hni Hj Ho.
  pose proof (run_reply_counts fresh evs j o Hni Hj Ho) as Hcar.
  by rewrite Z.add_0_l in Hcar.
Qed.

End CountFacts.

(** On the demo server: two agents are created and asked in turn, with a
    worker run in between; the answer at position 4 is the second answer
    to a [_reply], and carries 2. *)
Lemma nth_reply_carries_n_witness :
  @carries Demo.codec
    (Called (Demo.ask "b" "y") (Reply (RpcMsg_value "Boom#2"))) 2.
Proof.
  apply (@nth_reply_carries_n nat Demo.codec Demo.runtime
           "localhost" (Some 12010) 8192 1800
           [Call Demo.env (Demo.create "a" "Echo");
            Call Demo.env (Demo.create "b" "Boom");
            Call Demo.env (Demo.ask "a" "x"); Work 0 101 102;
            Call Demo.env (Demo.ask "b" "y")] 4%nat);
    reflexivity.
Defined.
